(** * ibuk-dl: the Socket.IO client, the download loop and the PDF pipeline

    A shallow embedding of [src/ibuk_dl/main.py]:
    - [IbukWebSocketSession] ([_hello], [_handle_recv], [get_page],
      [get_css], [get_fonts]) as computations over an explicit [world]
      holding the inbound message queue, the messages sent, the log and
      the file system;
    - the page loop of [perform_download_action];
    - [is_html_empty], [merge_pdfs] and the PDF branch of
      [perform_convert_action].

    Conventions.  Python integers are [Z].  A Python [str] is a Rocq
    [string] whose characters stand for the code points U+0000..U+00FF.
    Exceptions are values of [exn]; a computation returns [Ok v] or
    [Raise e] together with the world it leaves behind.  The libraries the
    program calls and that are not part of the repository ([json.loads],
    the lxml tree builder, the headless renderer, the PDF reader) are
    section variables: every theorem holds for any behaviour of theirs. *)

From Stdlib Require Import ZArith String Ascii List Lia DecimalString DecimalPos DecimalZ.
From stdpp Require Import gmap strings list sorting.

Local Open Scope string_scope.
Set Warnings "-register-all".

(* ================================================================= *)
(** ** Python values and exceptions *)

(** A [float] as [json.loads] builds it: the decimal literal
    [m * 10^e], or one of the non-finite literals it also accepts. *)
Inductive pyfloat : Type :=
| FDec (m e : Z)
| FInf (negative : bool)
| FNaN.

(** The values [json.loads] can return.  A [dict] keeps insertion order
    and has unique keys ([dict_set] maintains this). *)
Inductive value : Type :=
| VNone
| VBool (b : bool)
| VInt (z : Z)
| VFloat (f : pyfloat)
| VStr (s : string)
| VList (l : list value)
| VDict (d : list (string * value)).

Inductive exn : Type :=
| PermissionError (arg : value)
| KeyError
| IndexError
| TypeError
| AttributeError
| JSONDecodeError
| ConnectionClosed
| OtherError (name : string).

Inductive result (A : Type) : Type :=
| Ok (a : A)
| Raise (e : exn).
Arguments Ok {A} a.
Arguments Raise {A} e.

Definition is_ok {A} (r : result A) : bool :=
  match r with Ok _ => true | Raise _ => false end.

(** [float(s) == 0.0] for the binary64 value nearest to [m * 10^e]:
    the literal rounds to zero exactly when [|m| * 10^e <= 2^-1075]
    (ties go to the even neighbour, which is zero). *)
Definition float_is_zero (f : pyfloat) : bool :=
  match f with
  | FDec m e =>
      if (m =? 0)%Z then true
      else if (0 <=? e)%Z then false
      else (Z.abs m * 2 ^ 1075 <=? 10 ^ (- e))%Z
  | FInf _ => false
  | FNaN => false
  end.

Definition str_is_empty (s : string) : bool :=
  match s with EmptyString => true | String _ _ => false end.

Definition list_is_empty {A} (l : list A) : bool :=
  match l with [] => true | _ :: _ => false end.

(** Python truth value testing, [bool(v)]. *)
Definition truthy (v : value) : bool :=
  match v with
  | VNone => false
  | VBool b => b
  | VInt z => negb (z =? 0)%Z
  | VFloat f => negb (float_is_zero f)
  | VStr s => negb (str_is_empty s)
  | VList l => negb (list_is_empty l)
  | VDict d => negb (list_is_empty d)
  end.

Fixpoint dict_lookup (k : string) (d : list (string * value)) : option value :=
  match d with
  | [] => None
  | (k', v) :: d' => if String.eqb k k' then Some v else dict_lookup k d'
  end.

(** [d[k] = v]: overwrite in place, or append a new key. *)
Fixpoint dict_set (k : string) (v : value) (d : list (string * value))
  : list (string * value) :=
  match d with
  | [] => [(k, v)]
  | (k', v') :: d' =>
      if String.eqb k k' then (k', v) :: d' else (k', v') :: dict_set k v d'
  end.

(** [data.get(key, default)]: only a [dict] has the method. *)
Definition py_get (data : value) (key : string) (default : value) : result value :=
  match data with
  | VDict d => Ok (match dict_lookup key d with Some v => v | None => default end)
  | _ => Raise AttributeError
  end.

(** [data[key]] for a string key. *)
Definition py_getitem_str (data : value) (key : string) : result value :=
  match data with
  | VDict d => match dict_lookup key d with Some v => Ok v | None => Raise KeyError end
  | _ => Raise TypeError
  end.

Fixpoint str_nth (n : nat) (s : string) : option ascii :=
  match s, n with
  | EmptyString, _ => None
  | String c _, O => Some c
  | String _ r, S n' => str_nth n' r
  end.

(** [x[1]]: the second element of a list, the second character of a
    string; a [dict] from JSON has string keys only, so [1] is missing. *)
Definition py_getitem_1 (x : value) : result value :=
  match x with
  | VList l => match l !! 1%nat with Some v => Ok v | None => Raise IndexError end
  | VStr s =>
      match str_nth 1 s with
      | Some c => Ok (VStr (String c EmptyString))
      | None => Raise IndexError
      end
  | VDict _ => Raise KeyError
  | _ => Raise TypeError
  end.

(* ================================================================= *)
(** ** Strings *)

Definition dq : string := String (ascii_of_nat 34) EmptyString.
Definition bs : string := String (ascii_of_nat 92) EmptyString.
Definition nl : string := String (ascii_of_nat 10) EmptyString.

(** A double-quoted token, and the same with the quotes escaped by a
    backslash, as they occur in the request f-strings. *)
Definition quoted (s : string) : string := dq ++ s ++ dq.
Definition esc_quoted (s : string) : string := bs ++ dq ++ s ++ bs ++ dq.

(** [str(z)] *)
Definition str_of_Z (z : Z) : string := NilZero.string_of_int (Z.to_int z).

(** [sub in s] *)
Fixpoint str_contains (sub s : string) : bool :=
  String.prefix sub s
  || match s with
     | EmptyString => false
     | String _ r => str_contains sub r
     end.

(** [s.split(sep)] for a non-empty [sep]: scan left to right, cut at each
    occurrence and resume after it.  [skip] counts the characters of a
    matched separator still to be dropped, [cur] is the piece being
    collected. *)
Fixpoint split_from (sep : string) (skip : nat) (cur s : string) : list string :=
  match s with
  | EmptyString => [cur]
  | String c r =>
      match skip with
      | S k => split_from sep k cur r
      | O =>
          if String.prefix sep s
          then cur :: split_from sep (String.length sep - 1) EmptyString r
          else split_from sep 0 (cur ++ String c EmptyString) r
      end
  end.

Definition str_split (sep s : string) : list string := split_from sep 0 EmptyString s.

(** [re.sub(old, new, s)] for a pattern without metacharacters: every
    non-overlapping occurrence, left to right. *)
Fixpoint replace_from (old new : string) (skip : nat) (s : string) : string :=
  match s with
  | EmptyString => EmptyString
  | String c r =>
      match skip with
      | S k => replace_from old new k r
      | O =>
          if String.prefix old s
          then new ++ replace_from old new (String.length old - 1) r
          else String c (replace_from old new 0 r)
      end
  end.

Definition str_replace (old new s : string) : string := replace_from old new 0 s.

(** [str.isspace] on U+0000..U+00FF. *)
Definition is_space (c : ascii) : bool :=
  let n := nat_of_ascii c in
  ((9 <=? n)%nat && (n <=? 13)%nat) || ((28 <=? n)%nat && (n <=? 32)%nat)
  || (n =? 133)%nat || (n =? 160)%nat.

Fixpoint all_space (s : string) : bool :=
  match s with
  | EmptyString => true
  | String c r => is_space c && all_space r
  end.

Fixpoint lstrip (s : string) : string :=
  match s with
  | EmptyString => EmptyString
  | String c r => if is_space c then lstrip r else s
  end.

Fixpoint rstrip (s : string) : string :=
  match s with
  | EmptyString => EmptyString
  | String c r =>
      match rstrip r with
      | EmptyString => if is_space c then EmptyString else String c EmptyString
      | r' => String c r'
      end
  end.

(** [s.strip()] *)
Definition str_strip (s : string) : string := rstrip (lstrip s).

Fixpoint str_concat (l : list string) : string :=
  match l with
  | [] => EmptyString
  | s :: l' => s ++ str_concat l'
  end.

(* ================================================================= *)
(** ** The world and its computations *)

(** An f-string: literal text and [str(e)] of an interpolated
    exception. *)
Inductive piece : Type :=
| Text (s : string)
| StrOfExn (e : exn).

Inductive log_entry : Type :=
| LogInfo (msg : list piece)
| LogWarning (msg : list piece)
| LogError (msg : list piece)
| Printed (msg : list piece).

(** What the program can observe and change: the inbound queue of the
    web socket (text frames, oldest first), the frames sent so far, the
    log and standard output, and the text files on disk. *)
Record world : Type := World {
  inbound : list string;
  sent : list string;
  logs : list log_entry;
  files : gmap string string
}.

Definition M (A : Type) : Type := world -> result A * world.

Definition ret {A} (a : A) : M A := fun w => (Ok a, w).

Definition raise {A} (e : exn) : M A := fun w => (Raise e, w).

Definition bind {A B} (m : M A) (k : A -> M B) : M B :=
  fun w =>
    match m w with
    | (Ok a, w') => k a w'
    | (Raise e, w') => (Raise e, w')
    end.

Definition lift {A} (r : result A) : M A := fun w => (r, w).

Notation "'let!' x ':=' m 'in' k" := (bind m (fun x => k))
  (at level 10, x name, m at level 100, k at level 200).
Notation "'run!' m 'in' k" := (bind m (fun _ => k))
  (at level 10, m at level 100, k at level 200).

Definition when (b : bool) (m : M unit) : M unit := if b then m else ret tt.

Definition log (e : log_entry) : M unit :=
  fun w => (Ok tt, World (inbound w) (sent w) (logs w ++ [e]) (files w)).

(** [await self.ws.send(msg)] *)
Definition ws_send (msg : string) : M unit :=
  fun w => (Ok tt, World (inbound w) (sent w ++ [msg]) (logs w) (files w)).

(** [await self.ws.recv()]: the next frame; once the peer has closed and
    the queue is drained the library raises [ConnectionClosed]. *)
Definition ws_recv : M string :=
  fun w =>
    match inbound w with
    | [] => (Raise ConnectionClosed, w)
    | msg :: rest => (Ok msg, World rest (sent w) (logs w) (files w))
    end.

(** [with open(path, "w") as f: f.write(content)]: the file is created
    or truncated first; [write] accepts a [str] only. *)
Definition write_text (path : string) (content : value) : M unit :=
  fun w =>
    match content with
    | VStr s => (Ok tt, World (inbound w) (sent w) (logs w) (<[path := s]> (files w)))
    | _ => (Raise TypeError,
            World (inbound w) (sent w) (logs w) (<[path := EmptyString]> (files w)))
    end.

(* ================================================================= *)
(** ** IbukWebSocketSession *)

(** The namespace prefix of every event frame, [42/books,]. *)
Definition NS_EVENT : string := "42/books,".

(** [_hello]: the Engine.IO upgrade and the Socket.IO namespace join.
    Each confirmation is compared and a mismatch only logged. *)
Definition hello : M unit :=
  run! ws_send "2probe" in
  let! resp := ws_recv in
  run! when (negb (String.eqb resp "3probe"))
         (log (LogWarning [Text "Expected '3probe', got "; Text resp])) in
  run! ws_send "5" in
  run! ws_send "40/books," in
  let! ack_msg := ws_recv in
  run! when (negb (String.prefix "40/books," ack_msg))
         (log (LogWarning [Text "Expected namespace ack, got "; Text ack_msg])) in
  let! ready_msg := ws_recv in
  when (negb (str_contains ("42/books,[" ++ dq ++ "ready" ++ dq) ready_msg))
    (log (LogWarning [Text "Expected 'ready', got "; Text ready_msg])).

(** [_handle_recv]: the [while True] loop takes one frame per turn, so it
    is a recursion on the inbound queue; [pongs] collects the replies. *)
Fixpoint handle_recv_loop (queue pongs : list string)
  : result string * list string * list string :=
  match queue with
  | [] => (Raise ConnectionClosed, [], pongs)
  | msg :: rest =>
      if String.eqb msg "2"
      then handle_recv_loop rest (pongs ++ ["3"])
      else (Ok msg, rest, pongs)
  end.

Definition handle_recv : M string :=
  fun w =>
    let '(r, rest, pongs) := handle_recv_loop (inbound w) [] in
    (r, World rest (sent w ++ pongs) (logs w) (files w)).

Definition page_request (book_id page : Z) : string :=
  "42/books,[" ++ quoted "page" ++ "," ++ dq
  ++ "{" ++ esc_quoted "bookId" ++ ":" ++ str_of_Z book_id
  ++ "," ++ esc_quoted "compressed" ++ ":10"
  ++ "," ++ esc_quoted "format" ++ ":" ++ esc_quoted "html"
  ++ "," ++ esc_quoted "pagenumber" ++ ":" ++ str_of_Z page
  ++ "," ++ esc_quoted "fontSize" ++ ":12"
  ++ "," ++ esc_quoted "pageNumber" ++ ":" ++ str_of_Z page
  ++ "," ++ esc_quoted "compression" ++ ":10"
  ++ "," ++ esc_quoted "type" ++ ":" ++ esc_quoted "standard"
  ++ "," ++ esc_quoted "width" ++ ":716}" ++ dq ++ "]".

Definition css_request (book_id : Z) : string :=
  "42/books,[" ++ quoted "css" ++ "," ++ dq
  ++ "{" ++ esc_quoted "bookId" ++ ":" ++ str_of_Z book_id
  ++ "," ++ esc_quoted "width" ++ ":839"
  ++ "," ++ esc_quoted "fontSize" ++ ":15.04}" ++ dq ++ "]".

Definition font_request (book_id : Z) : string :=
  "42/books,[" ++ quoted "font" ++ "," ++ dq
  ++ "{" ++ esc_quoted "bookId" ++ ":" ++ str_of_Z book_id ++ "}" ++ dq ++ "]".

(** [r.split("42/books,")[1]] *)
Definition payload_tail (r : string) : result string :=
  match str_split NS_EVENT r !! 1%nat with
  | Some t => Ok t
  | None => Raise IndexError
  end.

Section Client.

(** [json.loads] on a [str]. *)
Variable json_loads : string -> result value.

(** [json.loads(x)] for any value: only a [str] is accepted (no
    [bytes] can come out of [json.loads]). *)
Definition loads_value (x : value) : result value :=
  match x with
  | VStr s => json_loads s
  | _ => Raise TypeError
  end.

(** [json.loads(json.loads(r.split("42/books,")[1])[1])] *)
Definition decode_rpc (r : string) : result value :=
  match payload_tail r with
  | Raise e => Raise e
  | Ok tail =>
      match json_loads tail with
      | Raise e => Raise e
      | Ok arr =>
          match py_getitem_1 arr with
          | Raise e => Raise e
          | Ok second => loads_value second
          end
      end
  end.

(** The last two lines of [get_page]. *)
Definition page_result (data : value) : result value :=
  match py_get data "error" (VBool false) with
  | Raise e => Raise e
  | Ok err =>
      if truthy err
      then match py_get data "message" (VStr "Error fetching page") with
           | Raise e => Raise e
           | Ok msg => Raise (PermissionError msg)
           end
      else py_getitem_str data "html"
  end.

(** What [get_page] makes of the frame [_handle_recv] returned. *)
Definition decode_page (r : string) : result value :=
  match decode_rpc r with
  | Raise e => Raise e
  | Ok data => page_result data
  end.

Definition get_page (book_id page : Z) : M value :=
  run! ws_send (page_request book_id page) in
  let! r := handle_recv in
  lift (decode_page r).

Definition decode_css (r : string) : result value :=
  match decode_rpc r with
  | Raise e => Raise e
  | Ok data => py_getitem_str data "html"
  end.

Definition get_css (book_id : Z) : M value :=
  run! ws_send (css_request book_id) in
  let! r := handle_recv in
  lift (decode_css r).

(** [re.sub("; format", " format", fonts)]: the pattern is literal;
    [re.sub] rejects anything but a string. *)
Definition fix_font_format (fonts : value) : result value :=
  match fonts with
  | VStr s => Ok (VStr (str_replace "; format" " format" s))
  | _ => Raise TypeError
  end.

Definition decode_fonts (r : string) : result value :=
  match decode_css r with
  | Raise e => Raise e
  | Ok fonts => fix_font_format fonts
  end.

Definition get_fonts (book_id : Z) : M value :=
  run! ws_send (font_request book_id) in
  let! r := handle_recv in
  lift (decode_fonts r).

End Client.

(* ================================================================= *)
(** ** A reference decoder for [json.loads]

    The theorems below hold for any [json_loads].  To run the client on
    concrete frames this section gives a decoder for the JSON grammar as
    Python's [json] module reads it (strict mode: no control characters
    inside strings; the literals [NaN], [Infinity], [-Infinity] are
    accepted).  An escape [\uXXXX] above U+00FF is outside the character
    range of the model and is rejected. *)

Definition ch (n : nat) : ascii := ascii_of_nat n.
Definition is_ch (n : nat) (c : ascii) : bool := Ascii.eqb c (ch n).

Definition is_json_ws (c : ascii) : bool :=
  is_ch 32 c || is_ch 9 c || is_ch 10 c || is_ch 13 c.

Fixpoint skip_ws (s : string) : string :=
  match s with
  | EmptyString => EmptyString
  | String c r => if is_json_ws c then skip_ws r else s
  end.

Fixpoint strip_prefix (p s : string) : option string :=
  match p, s with
  | EmptyString, _ => Some s
  | String a p', String b s' => if Ascii.eqb a b then strip_prefix p' s' else None
  | String _ _, EmptyString => None
  end.

Definition digit_of (c : ascii) : option Z :=
  let n := nat_of_ascii c in
  if ((48 <=? n) && (n <=? 57))%nat then Some (Z.of_nat (n - 48)) else None.

Definition hex_of (c : ascii) : option N :=
  let n := nat_of_ascii c in
  if ((48 <=? n) && (n <=? 57))%nat then Some (N.of_nat (n - 48))
  else if ((65 <=? n) && (n <=? 70))%nat then Some (N.of_nat (n - 55))
  else if ((97 <=? n) && (n <=? 102))%nat then Some (N.of_nat (n - 87))
  else None.

(** A run of decimal digits: the number read so far, how many digits,
    and what follows. *)
Fixpoint read_digits (acc : Z) (count : nat) (s : string) : Z * nat * string :=
  match s with
  | EmptyString => (acc, count, s)
  | String c r =>
      match digit_of c with
      | Some d => read_digits (10 * acc + d)%Z (S count) r
      | None => (acc, count, s)
      end
  end.

(** The integer part: a single zero, or a non-zero digit followed by
    digits; a leading zero stands alone. *)
Definition read_int_part (s : string) : option (Z * string) :=
  match s with
  | EmptyString => None
  | String c r =>
      match digit_of c with
      | None => None
      | Some d =>
          if (d =? 0)%Z then Some (0%Z, r)
          else let '(n, _, rest) := read_digits d 1 r in Some (n, rest)
      end
  end.

(** The optional fraction, a dot and at least one digit: the digits as a
    number and their count. *)
Definition read_frac_part (s : string) : option (Z * nat * string) :=
  match s with
  | String c r =>
      if is_ch 46 c
      then match read_digits 0 0 r with
           | (_, O, _) => None
           | (f, S k, rest) => Some (f, S k, rest)
           end
      else None
  | EmptyString => None
  end.

(** The optional exponent: [e] or [E], an optional sign, at least one
    digit. *)
Definition read_exp_part (s : string) : option (Z * string) :=
  match s with
  | String c r =>
      if is_ch 101 c || is_ch 69 c
      then
        let '(neg, r') :=
          match r with
          | String sg r1 =>
              if is_ch 45 sg then (true, r1)
              else if is_ch 43 sg then (false, r1)
              else (false, r)
          | EmptyString => (false, r)
          end in
        match read_digits 0 0 r' with
        | (_, O, _) => None
        | (x, S _, rest) => Some (if neg then (- x)%Z else x, rest)
        end
      else None
  | EmptyString => None
  end.

Definition parse_number (s : string) : option (value * string) :=
  let '(neg, body) :=
    match s with
    | String c r => if is_ch 45 c then (true, r) else (false, s)
    | EmptyString => (false, s)
    end in
  let sign (z : Z) := if neg then (- z)%Z else z in
  match read_int_part body with
  | None => None
  | Some (n, r1) =>
      match read_frac_part r1, read_exp_part r1 with
      | None, None => Some (VInt (sign n), r1)
      | None, Some (x, r2) => Some (VFloat (FDec (sign n) x), r2)
      | Some (f, k, r2), _ =>
          let m := (n * 10 ^ Z.of_nat k + f)%Z in
          match read_exp_part r2 with
          | None => Some (VFloat (FDec (sign m) (- Z.of_nat k)), r2)
          | Some (x, r3) => Some (VFloat (FDec (sign m) (x - Z.of_nat k)), r3)
          end
      end
  end.

Definition unescape (c : ascii) : option ascii :=
  if is_ch 34 c then Some (ch 34)
  else if is_ch 92 c then Some (ch 92)
  else if is_ch 47 c then Some (ch 47)
  else if is_ch 98 c then Some (ch 8)
  else if is_ch 102 c then Some (ch 12)
  else if is_ch 110 c then Some (ch 10)
  else if is_ch 114 c then Some (ch 13)
  else if is_ch 116 c then Some (ch 9)
  else None.

Definition hex4 (a b c d : ascii) : option ascii :=
  match hex_of a, hex_of b, hex_of c, hex_of d with
  | Some x, Some y, Some z, Some t =>
      let code := (((x * 16 + y) * 16 + z) * 16 + t)%N in
      if (code <? 256)%N then Some (ascii_of_N code) else None
  | _, _, _, _ => None
  end.

Definition push (c : ascii) (r : option (string * string)) : option (string * string) :=
  match r with
  | Some (body, rest) => Some (String c body, rest)
  | None => None
  end.

(** The body of a string literal, after the opening quote. *)
Fixpoint parse_str (s : string) : option (string * string) :=
  match s with
  | EmptyString => None
  | String c r =>
      if is_ch 34 c then Some (EmptyString, r)
      else if is_ch 92 c then
        match r with
        | EmptyString => None
        | String e r2 =>
            if is_ch 117 e then
              match r2 with
              | String x1 (String x2 (String x3 (String x4 r3))) =>
                  match hex4 x1 x2 x3 x4 with
                  | Some u => push u (parse_str r3)
                  | None => None
                  end
              | _ => None
              end
            else
              match unescape e with
              | Some u => push u (parse_str r2)
              | None => None
              end
        end
      else if (nat_of_ascii c <? 32)%nat then None
      else push c (parse_str r)
  end.

Definition parse_literal (s : string) : option (value * string) :=
  match strip_prefix "null" s, strip_prefix "true" s, strip_prefix "false" s with
  | Some r, _, _ => Some (VNone, r)
  | _, Some r, _ => Some (VBool true, r)
  | _, _, Some r => Some (VBool false, r)
  | _, _, _ =>
      match parse_number s with
      | Some res => Some res
      | None =>
          match strip_prefix "NaN" s, strip_prefix "Infinity" s,
                strip_prefix "-Infinity" s with
          | Some r, _, _ => Some (VFloat FNaN, r)
          | _, Some r, _ => Some (VFloat (FInf false), r)
          | _, _, Some r => Some (VFloat (FInf true), r)
          | _, _, _ => None
          end
      end
  end.

Fixpoint parse_value (fuel : nat) (s : string) : option (value * string) :=
  match fuel with
  | O => None
  | S fuel' =>
      match s with
      | EmptyString => None
      | String c r =>
          if is_ch 34 c then
            match parse_str r with
            | Some (body, rest) => Some (VStr body, rest)
            | None => None
            end
          else if is_ch 123 c then
            match strip_prefix "}" (skip_ws r) with
            | Some rest => Some (VDict [], rest)
            | None => parse_members fuel' [] (skip_ws r)
            end
          else if is_ch 91 c then
            match strip_prefix "]" (skip_ws r) with
            | Some rest => Some (VList [], rest)
            | None => parse_elements fuel' [] (skip_ws r)
            end
          else parse_literal s
      end
  end
with parse_elements (fuel : nat) (acc : list value) (s : string)
  : option (value * string) :=
  match fuel with
  | O => None
  | S fuel' =>
      match parse_value fuel' s with
      | None => None
      | Some (v, r) =>
          match strip_prefix "," (skip_ws r), strip_prefix "]" (skip_ws r) with
          | Some r', _ => parse_elements fuel' (acc ++ [v]) (skip_ws r')
          | None, Some r' => Some (VList (acc ++ [v]), r')
          | None, None => None
          end
      end
  end
with parse_members (fuel : nat) (acc : list (string * value)) (s : string)
  : option (value * string) :=
  match fuel with
  | O => None
  | S fuel' =>
      match strip_prefix dq s with
      | None => None
      | Some r =>
          match parse_str r with
          | None => None
          | Some (key, r1) =>
              match strip_prefix ":" (skip_ws r1) with
              | None => None
              | Some r2 =>
                  match parse_value fuel' (skip_ws r2) with
                  | None => None
                  | Some (v, r3) =>
                      match strip_prefix "," (skip_ws r3),
                            strip_prefix "}" (skip_ws r3) with
                      | Some r4, _ =>
                          parse_members fuel' (dict_set key v acc) (skip_ws r4)
                      | None, Some r4 => Some (VDict (dict_set key v acc), r4)
                      | None, None => None
                      end
                  end
              end
          end
      end
  end.

(** [json.loads(s)]: one value, white space around it, nothing else. *)
Definition json_loads_ref (s : string) : result value :=
  match parse_value (2 * String.length s + 2) (skip_ws s) with
  | Some (v, rest) =>
      match skip_ws rest with
      | EmptyString => Ok v
      | String _ _ => Raise JSONDecodeError
      end
  | None => Raise JSONDecodeError
  end.

(** An event frame carrying [reply] (a JSON text without back-slashes or
    quotes to escape beyond those given) as the server sends it:
    [42/books,["<op>","<reply>"]]. *)
Definition event_frame (op reply : string) : string :=
  NS_EVENT ++ "[" ++ quoted op ++ "," ++ quoted reply ++ "]".


(* ================================================================= *)
(** ** Paths *)

Definition str_ends_with_slash (s : string) : bool :=
  match String.get (String.length s - 1) s with
  | Some c => is_ch 47 c
  | None => false
  end.

(** [os.path.join(a, b)] (POSIX). *)
Definition path_join (a b : string) : string :=
  if String.prefix "/" b then b
  else if str_is_empty a || str_ends_with_slash a then a ++ b
  else a ++ "/" ++ b.

(** [os.path.basename(p)]: what follows the last slash; [cur] is the
    component being read. *)
Fixpoint basename_from (cur s : string) : string :=
  match s with
  | EmptyString => cur
  | String c r =>
      if is_ch 47 c then basename_from EmptyString r
      else basename_from (cur ++ String c EmptyString) r
  end.

Definition basename (p : string) : string := basename_from EmptyString p.

(** [name.split('.')[0]] *)
Definition first_component (name : string) : string :=
  match str_split "." name with
  | x :: _ => x
  | [] => EmptyString
  end.

(** The text before the last dot, when there is a dot. *)
Fixpoint cut_last_dot (s : string) : option string :=
  match s with
  | EmptyString => None
  | String c r =>
      match cut_last_dot r with
      | Some root => Some (String c root)
      | None => if is_ch 46 c then Some EmptyString else None
      end
  end.

Fixpoint all_dots (s : string) : bool :=
  match s with
  | EmptyString => true
  | String c r => is_ch 46 c && all_dots r
  end.

(** [os.path.splitext(name)[0]] for a name without directory part:
    leading dots do not start an extension. *)
Definition splitext_root (name : string) : string :=
  match cut_last_dot name with
  | Some root => if all_dots root then name else root
  | None => name
  end.

(* ================================================================= *)
(** ** [int(s)] and [sorted] *)

(** Digits with single underscores allowed between them. *)
Fixpoint read_int_digits (acc : Z) (after_digit : bool) (s : string) : option Z :=
  match s with
  | EmptyString => if after_digit then Some acc else None
  | String c r =>
      match digit_of c with
      | Some d => read_int_digits (10 * acc + d)%Z true r
      | None =>
          if is_ch 95 c && after_digit
          then match r with
               | EmptyString => None
               | String c' _ =>
                   match digit_of c' with
                   | Some _ => read_int_digits acc false r
                   | None => None
                   end
               end
          else None
      end
  end.

(** [int(s)] in base ten: surrounding white space, an optional sign,
    digits.  [None] stands for [ValueError]. *)
Definition py_int (s : string) : option Z :=
  match str_strip s with
  | EmptyString => None
  | String c r as body =>
      if is_ch 45 c then option_map Z.opp (read_int_digits 0 false r)
      else if is_ch 43 c then read_int_digits 0 false r
      else read_int_digits 0 false body
  end.

Section Sorted.
Context {A K : Type} (leb : K -> K -> bool) (key : A -> K).

(** Insert [x] in front of the first element whose key is not below
    its own. *)
Fixpoint insert_sorted (x : A) (l : list A) : list A :=
  match l with
  | [] => [x]
  | y :: l' => if leb (key x) (key y) then x :: l else y :: insert_sorted x l'
  end.

(** [sorted(l, key=key)]: a stable sort. *)
Definition py_sorted (l : list A) : list A := foldr insert_sorted [] l.
End Sorted.

(** The sort key of [perform_convert_action]:
    [int(os.path.basename(f).split('.')[0])]. *)
Definition page_key (f : string) : option Z := py_int (first_component (basename f)).

Fixpoint all_some {A} (l : list (option A)) : option (list A) :=
  match l with
  | [] => Some []
  | None :: _ => None
  | Some x :: l' =>
      match all_some l' with
      | Some xs => Some (x :: xs)
      | None => None
      end
  end.

(** The [try: sorted(key=int(...)) except ValueError: sorted(...)] block:
    [sorted] computes the key of every file before any comparison and
    sorts the files decorated with their keys. *)
Definition sort_html_files (html_files : list string) : list string :=
  match all_some (map page_key html_files) with
  | Some keys => map snd (py_sorted Z.leb fst (zip keys html_files))
  | None => py_sorted String.leb (fun f => f) html_files
  end.

(* ================================================================= *)
(** ** The page loop of [perform_download_action] *)

Definition page_path (pages_dir : string) (i : Z) : string :=
  path_join pages_dir (str_of_Z i ++ ".html").

Section Download.

Variable json_loads : string -> result value.
Variable book_id : Z.
Variable pages_dir : string.
Variable page_count : Z.

(** The body of the [try] for index [i]. *)
Definition fetch_and_store (i : Z) : M unit :=
  let! page_html := get_page json_loads book_id i in
  write_text (page_path pages_dir i) page_html.

(** [logging.info(f"Getting page {i}/{page_count}")] *)
Definition progress_entry (i : Z) : log_entry :=
  LogInfo [Text "Getting page "; Text (str_of_Z i); Text "/"; Text (str_of_Z page_count)].

(** [logging.warning(f"Could not get page {i}: {e}. Stopping.")] *)
Definition stop_entry (i : Z) (e : exn) : log_entry :=
  LogWarning [Text "Could not get page "; Text (str_of_Z i); Text ": "; StrOfExn e;
              Text ". Stopping."].

(** [for i in <indices>: ...] with the running [num_downloaded];
    [PermissionError] leaves the loop, anything else propagates. *)
Fixpoint download_loop (indices : list Z) (num_downloaded : Z) : M Z :=
  match indices with
  | [] => ret num_downloaded
  | i :: rest =>
      run! log (progress_entry i) in
      fun w =>
        match fetch_and_store i w with
        | (Ok _, w') => download_loop rest (num_downloaded + 1)%Z w'
        | (Raise (PermissionError arg), w') =>
            (run! log (stop_entry i (PermissionError arg)) in ret num_downloaded) w'
        | (Raise e, w') => (Raise e, w')
        end
  end.

(** [num_downloaded = 0; for i in range(1, page_count + 1): ...] *)
Definition download_pages : M Z := download_loop (seqZ 1 page_count) 0%Z.

End Download.

(** [manifest['num_pages_downloaded'] = num_downloaded] *)
Definition record_downloaded (manifest : list (string * value)) (num_downloaded : Z)
  : list (string * value) :=
  dict_set "num_pages_downloaded" (VInt num_downloaded) manifest.

(* ================================================================= *)
(** ** [is_html_empty] *)

(** The tree BeautifulSoup builds.  [TextNode] is a string that
    [get_text] collects (a [NavigableString] or [CData]); [OtherString]
    is one it leaves out (comment, doctype, script or stylesheet
    content, ...). *)
Inductive node : Type :=
| TextNode (s : string)
| OtherString (s : string)
| Elem (name : string) (attrs : list (string * string)) (children : list node).

(** The [BeautifulSoup] object: the top-level nodes of the document. *)
Definition soup : Type := list node.

(** [tag.descendants]: document order. *)
Fixpoint descendants (n : node) : list node :=
  match n with
  | Elem _ _ children =>
      (fix go (l : list node) : list node :=
         match l with
         | [] => []
         | c :: l' => c :: descendants c ++ go l'
         end) children
  | _ => []
  end.

Definition soup_descendants (doc : soup) : list node :=
  flat_map (fun c => c :: descendants c) doc.

Definition is_tag_named (names : list string) (n : node) : bool :=
  match n with
  | Elem name _ _ => existsb (String.eqb name) names
  | _ => false
  end.

Definition is_tag (n : node) : bool :=
  match n with Elem _ _ _ => true | _ => false end.

(** [soup.body]: the first tag named [body], or [None]. *)
Definition soup_body (doc : soup) : option node :=
  head (filter (fun n => is_tag_named ["body"] n = true) (soup_descendants doc)).

(** The strings [get_text(strip=True)] joins: each collected string is
    stripped and dropped when nothing is left. *)
Definition stripped_strings (n : node) : list string :=
  omap (fun d =>
          match d with
          | TextNode s =>
              let t := str_strip s in
              if str_is_empty t then None else Some t
          | _ => None
          end) (descendants n).

(** [tag.get_text(strip=True)] *)
Definition get_text_strip (n : node) : string := str_concat (stripped_strings n).

Definition MEDIA_TAGS : list string :=
  ["img"; "svg"; "image"; "iframe"; "canvas"; "embed"; "video"].

(** [tag.find_all(names)] and [tag.find_all(True)] *)
Definition find_all_named (names : list string) (n : node) : list node :=
  filter (fun d => is_tag_named names d = true) (descendants n).

Definition find_all_tags (n : node) : list node :=
  filter (fun d => is_tag d = true) (descendants n).

(** [tag.get('style')] *)
Definition get_style (n : node) : option string :=
  match n with
  | Elem _ attrs _ => snd <$> head (filter (fun kv => String.eqb "style" (fst kv) = true) attrs)
  | _ => None
  end.

(** [style and 'url(' in style] *)
Definition style_has_url (n : node) : bool :=
  match get_style n with
  | Some style => negb (str_is_empty style) && str_contains "url(" style
  | None => false
  end.

(** The inner [for tag in soup.body.find_all(True)] loop: [False] at the
    first tag with a [url(] in its style, [True] when none has. *)
Fixpoint scan_styles (tags : list node) : bool :=
  match tags with
  | [] => true
  | tag :: rest => if style_has_url tag then false else scan_styles rest
  end.

(** The [try] body once the document is parsed. *)
Definition classify (doc : soup) : bool :=
  match soup_body doc with
  | None => true
  | Some body =>
      let text := get_text_strip body in
      let media := find_all_named MEDIA_TAGS body in
      if str_is_empty text && list_is_empty media
      then scan_styles (find_all_tags body)
      else false
  end.

(** [open(file_path, 'r', encoding='utf-8')] *)
Definition open_read (fs : gmap string string) (file_path : string) : result string :=
  match fs !! file_path with
  | Some content => Ok content
  | None => Raise (OtherError "FileNotFoundError")
  end.

Section Classifier.

(** [BeautifulSoup(f, 'lxml')]: the tree lxml builds from the text of
    the file, or the exception the constructor raises. *)
Variable bs4_lxml : string -> result soup.

(** [is_html_empty(file_path)]: [except Exception] turns every failure
    into [False]. *)
Definition is_html_empty (fs : gmap string string) (file_path : string) : bool :=
  match open_read fs file_path with
  | Raise _ => false
  | Ok content =>
      match bs4_lxml content with
      | Raise _ => false
      | Ok doc => classify doc
      end
  end.

End Classifier.

(* ================================================================= *)
(** ** [convert_single_page], [merge_pdfs] and the PDF branch of
       [perform_convert_action] *)

Section Pipeline.

Variable bs4_lxml : string -> result soup.

(** A rendered per-fragment PDF file and a page of a PDF document. *)
Variables pdf_file page : Type.

(** The headless browser on one fragment: [page.goto], the style tags
    injected in the given order, [page.pdf].  The file written, or the
    exception raised on the way. *)
Variable render : string -> list string -> result pdf_file.

(** The pages pypdf reads from a file, or the exception it raises. *)
Variable pdf_pages : pdf_file -> result (list page).

(** The disk and the console during a conversion: the text files, the
    per-fragment PDF parts, the merged documents written, the shared
    [progress_info['current']] counter and what was printed or logged. *)
Record render_world : Type := RenderWorld {
  r_texts : gmap string string;
  r_parts : gmap string pdf_file;
  r_outputs : gmap string (list page);
  r_progress : nat;
  r_log : list log_entry
}.

Definition emit (e : log_entry) (w : render_world) : render_world :=
  RenderWorld (r_texts w) (r_parts w) (r_outputs w) (r_progress w) (r_log w ++ [e]).

Definition pdf_path_of (temp_dir input_path : string) : string :=
  path_join temp_dir (splitext_root (basename input_path) ++ ".pdf").

(** The style tags in injection order: fonts first, empty ones skipped. *)
Definition injected (style_content font_content : string) : list string :=
  (if str_is_empty font_content then [] else [font_content])
  ++ (if str_is_empty style_content then [] else [style_content]).

(** What the browser does with the [file://] URL of [input_path]. *)
Definition render_file (w : render_world) (input_path : string)
    (style_content font_content : string) : result pdf_file :=
  match r_texts w !! input_path with
  | None => Raise (OtherError "PageError")
  | Some content => render content (injected style_content font_content)
  end.

(** [convert_single_page]: the path of the part written, or [None]
    after any exception. *)
Definition convert_single_page (input_path temp_dir style_content font_content : string)
    (total : nat) (w : render_world) : option string * render_world :=
  let name := basename input_path in
  let pdf_path := pdf_path_of temp_dir input_path in
  match render_file w input_path style_content font_content with
  | Ok doc =>
      let current := S (r_progress w) in
      (Some pdf_path,
       RenderWorld (r_texts w) (<[pdf_path := doc]> (r_parts w)) (r_outputs w) current
         (r_log w ++ [Printed [Text "["; Text (str_of_Z (Z.of_nat current)); Text "/";
                               Text (str_of_Z (Z.of_nat total)); Text "] Converted: ";
                               Text name]]))
  | Raise e =>
      (None, emit (Printed [Text "  - ❌ Error converting "; Text name; Text ": ";
                            StrOfExn e]) w)
  end.

(** [asyncio.gather] on the tasks: they finish in the order [order]
    (positions in [tasks]); each result goes to the slot of its task. *)
Fixpoint run_tasks (tasks : list string) (temp_dir style_content font_content : string)
    (total : nat) (order : list nat) (slots : list (option string))
    (w : render_world) : list (option string) * render_world :=
  match order with
  | [] => (slots, w)
  | i :: order' =>
      match tasks !! i with
      | Some input_path =>
          let '(r, w') :=
            convert_single_page input_path temp_dir style_content font_content total w in
          run_tasks tasks temp_dir style_content font_content total order'
            (<[i := r]> slots) w'
      | None =>
          run_tasks tasks temp_dir style_content font_content total order' slots w
      end
  end.

Definition gather (tasks : list string) (temp_dir style_content font_content : string)
    (order : list nat) (w : render_world) : list (option string) * render_world :=
  run_tasks tasks temp_dir style_content font_content (length tasks) order
    (replicate (length tasks) None) w.

(** [merger.append(pdf_part, pages=(0, 1))]: page 0 of the part. *)
Definition first_page (w : render_world) (pdf_part : string) : result page :=
  match r_parts w !! pdf_part with
  | None => Raise (OtherError "FileNotFoundError")
  | Some doc =>
      match pdf_pages doc with
      | Raise e => Raise e
      | Ok pages =>
          match pages !! 0%nat with
          | Some pg => Ok pg
          | None => Raise IndexError
          end
      end
  end.

(** The [for pdf_part in pdf_parts] loop of [merge_pdfs]; [merger] is
    the list of pages of the [PdfWriter]. *)
Fixpoint merge_loop (pdf_parts : list string) (merger : list page) (w : render_world)
  : list page * render_world :=
  match pdf_parts with
  | [] => (merger, w)
  | pdf_part :: rest =>
      match first_page w pdf_part with
      | Ok pg => merge_loop rest (merger ++ [pg]) w
      | Raise e =>
          merge_loop rest merger
            (emit (Printed [Text "Warning: Could not merge "; Text pdf_part; Text ": ";
                            StrOfExn e]) w)
      end
  end.

Definition write_output (output_path : string) (pages : list page) (w : render_world)
  : render_world :=
  RenderWorld (r_texts w) (r_parts w) (<[output_path := pages]> (r_outputs w))
    (r_progress w) (r_log w).

(** [merge_pdfs(pdf_parts, output_path)] *)
Definition merge_pdfs (pdf_parts : list string) (output_path : string) (w : render_world)
  : render_world :=
  if list_is_empty pdf_parts
  then emit (Printed [Text "No PDF parts were created. Aborting merge."]) w
  else
    let w1 := emit (Printed [Text nl; Text "Merging "; Text (str_of_Z (Z.of_nat (length pdf_parts)));
                             Text " pages..."]) w in
    let '(merger, w2) := merge_loop pdf_parts [] w1 in
    let w3 := write_output output_path merger w2 in
    emit (Printed [Text "✅ Success! Merged PDF saved to: "; Text output_path]) w3.

(** [os.remove(part)] for every part; failures are ignored. *)
Definition remove_parts (pdf_parts : list string) (w : render_world) : render_world :=
  RenderWorld (r_texts w) (foldr (fun part m => delete part m) (r_parts w) pdf_parts)
    (r_outputs w) (r_progress w) (r_log w).

(** The files kept for rendering: [valid_html_files]. *)
Definition valid_html_files (fs : gmap string string) (html_files : list string)
  : list string :=
  let results := map (is_html_empty bs4_lxml fs) html_files in
  omap (fun fe => if (snd fe : bool) then None else Some (fst fe)) (zip html_files results).

(** The [format == 'pdf'] branch from the [glob] on: [globbed] is what
    [glob.glob] returned (in directory order), [order] the order in
    which the render tasks finish.  The browser is taken to start; the
    style sheets were read before. *)
Definition perform_convert_pdf (source_dir output_file : string) (globbed : list string)
    (style fonts : string) (order : list nat) (w : render_world) : render_world :=
  let html_dir := path_join source_dir "pages" in
  if list_is_empty globbed
  then emit (LogError [Text "No .html files found in '"; Text html_dir; Text "'"]) w
  else
    let html_files := sort_html_files globbed in
    let w1 := emit (LogInfo [Text "Found "; Text (str_of_Z (Z.of_nat (length html_files)));
                             Text " files. Checking for empty pages..."]) w in
    let valid := valid_html_files (r_texts w1) html_files in
    let w2 := emit (LogInfo [Text "Starting optimized PDF conversion for ";
                             Text (str_of_Z (Z.of_nat (length valid))); Text " pages..."]) w1 in
    let temp_dir := path_join source_dir "temp_pdf_parts" in
    let w3 := RenderWorld (r_texts w2) (r_parts w2) (r_outputs w2) 0 (r_log w2) in
    let '(results, w4) := gather valid temp_dir style fonts order w3 in
    let pdf_parts := omap (fun r => r) results in
    let w5 := merge_pdfs pdf_parts output_file w4 in
    remove_parts pdf_parts w5.

End Pipeline.

Arguments RenderWorld {pdf_file page}.
Arguments r_texts {pdf_file page}.
Arguments r_parts {pdf_file page}.
Arguments r_outputs {pdf_file page}.
Arguments r_progress {pdf_file page}.
Arguments r_log {pdf_file page}.
Arguments emit {pdf_file page}.
Arguments render_file {pdf_file page}.
Arguments convert_single_page {pdf_file page}.
Arguments run_tasks {pdf_file page}.
Arguments gather {pdf_file page}.
Arguments first_page {pdf_file page}.
Arguments merge_loop {pdf_file page}.
Arguments write_output {pdf_file page}.
Arguments merge_pdfs {pdf_file page}.
Arguments remove_parts {pdf_file page}.
Arguments perform_convert_pdf bs4_lxml {pdf_file page}.

(* ================================================================= *)
(** ** The response decoding in the words of the specification

    "Everything after the [42/books,] prefix is a JSON array; its second
    element is a JSON string; decoding that string gives the result
    object."  Kept apart from [decode_rpc], which follows the code. *)

Definition payload_after_prefix (r : string) : result string :=
  match strip_prefix NS_EVENT r with
  | Some t => Ok t
  | None => Raise IndexError
  end.

Definition decode_rpc_spec (json_loads : string -> result value) (r : string)
  : result value :=
  match payload_after_prefix r with
  | Raise e => Raise e
  | Ok tail =>
      match json_loads tail with
      | Ok (VList (_ :: VStr second :: _)) => json_loads second
      | Ok _ => Raise TypeError
      | Raise e => Raise e
      end
  end.

(* ================================================================= *)
(** ** Sample frames and documents *)

(** The [ready] event pushed after the namespace join. *)
Definition ready_event : string := "42/books,[" ++ quoted "ready" ++ "]".

(** A page reply [{"html": <html>}]. *)
Definition page_reply (html : string) : string :=
  event_frame "page" ("{" ++ esc_quoted "html" ++ ":" ++ esc_quoted html ++ "}").

(** The denial [{"error":true,"message":"denied"}]. *)
Definition denied_reply : string :=
  event_frame "page"
    ("{" ++ esc_quoted "error" ++ ":true," ++ esc_quoted "message" ++ ":"
     ++ esc_quoted "denied" ++ "}").

(** A page whose text mentions the namespace prefix. *)
Definition nested_reply : string := page_reply "see 42/books, p. 3".

(** A font reply with the malformed [; format] token. *)
Definition font_reply : string :=
  event_frame "font"
    ("{" ++ esc_quoted "html" ++ ":" ++ esc_quoted "src: url(f.woff); format('woff')" ++ "}").

(* ================================================================= *)
(** ** Emptiness in the words of the specification *)

(** Some text inside the body has a character that is not white space. *)
Definition has_visible_text (body : node) : Prop :=
  exists s, TextNode s ∈ descendants body /\ all_space s = false.

(** Some element inside the body is an image, a vector graphic, an
    embedded frame, a canvas, a plugin or a video. *)
Definition has_media (body : node) : Prop :=
  exists name attrs children,
    Elem name attrs children ∈ descendants body /\ name ∈ MEDIA_TAGS.

(** Some element inside the body has an inline style with a [url(]. *)
Definition has_url_style (body : node) : Prop :=
  exists name attrs children style,
    Elem name attrs children ∈ descendants body
    /\ get_style (Elem name attrs children) = Some style
    /\ str_contains "url(" style = true.

(** The trees lxml builds for the fragments [<body></body>] and
    [<body><img src=x></body>]: the missing [html] element is supplied. *)
Definition empty_body_doc : soup := [Elem "html" [] [Elem "body" [] []]].
Definition img_body_doc : soup :=
  [Elem "html" [] [Elem "body" [] [Elem "img" [("src", "x")] []]]].

(** A tree builder that knows these two fragments only. *)
Definition scenario_lxml (content : string) : result soup :=
  if String.eqb content "<body></body>" then Ok empty_body_doc
  else if String.eqb content "<body><img src=x></body>" then Ok img_body_doc
  else Raise (OtherError "ParserRejectedMarkup").

(* ================================================================= *)
(** ** The page files of a download *)

(** The file system after the pages [(index, html)] are written in turn
    to [<pages_dir>/<index>.html]. *)
Definition store_pages (pages_dir : string) (fs : gmap string string)
    (pages : list (Z * string)) : gmap string string :=
  foldl (fun m ih => <[page_path pages_dir (fst ih) := snd ih]> m) fs pages.

(* ================================================================= *)
(** ** The merged document in the words of the specification *)

(** [f] comes before [g] in page order. *)
Definition key_lt (f g : string) : Prop :=
  exists i j, page_key f = Some i /\ page_key g = Some j /\ (i < j)%Z.

Section MergedPages.

Variable bs4_lxml : string -> result soup.
Variables pdf_file page : Type.
Variable render : string -> list string -> result pdf_file.
Variable pdf_pages : pdf_file -> result (list page).

(** The page a fragment contributes: the first page of its rendered
    document, when the fragment is not empty, its rendering succeeds
    and pypdf can take the page from the document. *)
Definition fragment_page (w : render_world pdf_file page) (style fonts f : string)
  : option page :=
  if is_html_empty bs4_lxml (r_texts w) f then None
  else
    match render_file render w f style fonts with
    | Raise _ => None
    | Ok doc =>
        match pdf_pages doc with
        | Ok (pg :: _) => Some pg
        | _ => None
        end
    end.

(** The part [convert_single_page] returns for a fragment. *)
Definition rendered_part (w : render_world pdf_file page)
    (temp_dir style fonts f : string) : option string :=
  match render_file render w f style fonts with
  | Ok _ => Some (pdf_path_of temp_dir f)
  | Raise _ => None
  end.

(** The first page pypdf takes from the part at [pdf_part], if any. *)
Definition part_page (w : render_world pdf_file page) (pdf_part : string)
  : option page :=
  match first_page pdf_pages w pdf_part with
  | Ok pg => Some pg
  | Raise _ => None
  end.

(** The fragment is not empty and its rendering succeeds. *)
Definition fragment_rendered (w : render_world pdf_file page) (style fonts f : string)
  : bool :=
  negb (is_html_empty bs4_lxml (r_texts w) f)
  && is_ok (render_file render w f style fonts).

End MergedPages.

Arguments rendered_part {pdf_file page}.
Arguments part_page {pdf_file page}.
Arguments fragment_page bs4_lxml {pdf_file page}.
Arguments fragment_rendered bs4_lxml {pdf_file page}.

(* ================================================================= *)
(** ** A sample conversion

    Five stored fragments, listed by [glob] out of order.  The tree
    builder wraps the text of a fragment in a paragraph; the renderer
    times out on fragment 4 and otherwise writes a file that stands for
    its fragment; pypdf cannot read the part of fragment 2 and finds two
    pages in every other part.  Fragment 3 has no text. *)

Definition sample_texts : gmap string string :=
  {[ "book/pages/1.html" := "one"; "book/pages/2.html" := "two";
     "book/pages/3.html" := " "; "book/pages/4.html" := "four";
     "book/pages/10.html" := "ten" ]}.

Definition sample_glob : list string :=
  ["book/pages/10.html"; "book/pages/3.html"; "book/pages/1.html";
   "book/pages/4.html"; "book/pages/2.html"].

Definition text_lxml (content : string) : result soup :=
  Ok [Elem "html" [] [Elem "body" [] [Elem "p" [] [TextNode content]]]].

Definition sample_render (content : string) (styles : list string) : result string :=
  if String.eqb content "four" then Raise (OtherError "TimeoutError") else Ok content.

Definition sample_pdf_pages (doc : string) : result (list string) :=
  if String.eqb doc "two" then Raise (OtherError "PdfReadError")
  else Ok [doc; "overflow of " ++ doc].

Definition sample_world : render_world string string :=
  RenderWorld sample_texts ∅ ∅ 0 [].

(** The conversion of the sample, the render tasks finishing in the
    order third, first, second (the tasks are fragments 1, 2, 4, 10 less
    the empty one, so four tasks: positions 0 to 3). *)
Definition sample_converted : render_world string string :=
  perform_convert_pdf text_lxml sample_render sample_pdf_pages
    "book" "out.pdf" sample_glob "s" "f" [2; 0; 3; 1]%nat sample_world.

(* ================================================================= *)
(** ** More of [main.py]: metadata, names, the whole download session *)

Definition rbind {A B} (r : result A) (k : A -> result B) : result B :=
  match r with
  | Ok a => k a
  | Raise e => Raise e
  end.

Notation "'let?' x ':=' r 'in' k" := (rbind r (fun x => k))
  (at level 10, x name, r at level 100, k at level 200).

(** [x[0]] *)
Definition py_getitem_0 (x : value) : result value :=
  match x with
  | VList l => match l !! 0%nat with Some v => Ok v | None => Raise IndexError end
  | VStr s =>
      match str_nth 0 s with
      | Some c => Ok (VStr (String c EmptyString))
      | None => Raise IndexError
      end
  | VDict _ => Raise KeyError
  | _ => Raise TypeError
  end.

(** The attributes of a [BookMetadata] object. *)
Record book_metadata : Type := BookMetadata {
  bm_data : value;
  bm_author : value;
  bm_index : value;
  bm_isbn : value;
  bm_pages : value;
  bm_publisher : value;
  bm_slugged_title : value;
  bm_title : value;
  bm_description : value;
  bm_cover_url : value
}.

(** [data['covers'][0]['jpg_location'] if data.get('covers') else None] *)
Definition cover_url_of (data : value) : result value :=
  let? covers := py_get data "covers" VNone in
  if truthy covers
  then
    let? covers' := py_getitem_str data "covers" in
    let? first := py_getitem_0 covers' in
    py_getitem_str first "jpg_location"
  else Ok VNone.

(** [BookMetadata.__init__] *)
Definition make_book_metadata (data : value) : result book_metadata :=
  let? author := py_get data "author" (VStr "Unknown Author") in
  let? index := py_get data "index" VNone in
  let? isbn := py_get data "isbn" VNone in
  let? pages := py_get data "pages" (VStr "N/A") in
  let? publisher := py_get data "redaction" (VStr "Unknown Publisher") in
  let? slugged_title := py_get data "slugged_title" (VStr "untitled") in
  let? title := py_get data "title" (VStr "Untitled") in
  let? description := py_get data "review" (VStr "No description available.") in
  let? cover_url := cover_url_of data in
  Ok (BookMetadata data author index isbn pages publisher slugged_title title
        description cover_url).

(** The character class of the name pattern: less-than, greater-than,
    colon, double quote, slash, backslash, bar, question mark, star. *)
Definition is_forbidden_char (c : ascii) : bool :=
  is_ch 60 c || is_ch 62 c || is_ch 58 c || is_ch 34 c || is_ch 47 c
  || is_ch 92 c || is_ch 124 c || is_ch 63 c || is_ch 42 c.

(** [re.sub] of that class by the empty string. *)
Fixpoint remove_forbidden (s : string) : string :=
  match s with
  | EmptyString => EmptyString
  | String c r => if is_forbidden_char c then remove_forbidden r
                  else String c (remove_forbidden r)
  end.

(** The default output name of both actions: the text
    [<author> - <title>] without the characters of the class, stripped. *)
Definition default_name (author title : string) : string :=
  str_strip (remove_forbidden (author ++ " - " ++ title)).

Section PageCount.

(** [int(x)] on a [float]: truncation of the binary64 value. *)
Variable int_of_float : pyfloat -> result Z.

(** [int(x)] *)
Definition py_int_value (x : value) : result Z :=
  match x with
  | VInt z => Ok z
  | VBool b => Ok (if b then 1 else 0)%Z
  | VStr s => match py_int s with Some z => Ok z | None => Raise (OtherError "ValueError") end
  | VFloat f => int_of_float f
  | _ => Raise TypeError
  end.

(** [if not page_count: page_count = int(book_metadata.pages)] *)
Definition resolve_page_count (page_count : option Z) (meta : book_metadata) : result Z :=
  match page_count with
  | Some n => if (n =? 0)%Z then py_int_value (bm_pages meta) else Ok n
  | None => py_int_value (bm_pages meta)
  end.

End PageCount.

Section Session.

Variable json_loads : string -> result value.

(** [async with IbukWebSocketSession(...) as session] in
    [perform_download_action], once the socket is open: the handshake of
    [__aenter__], the fonts, the style sheet, their two files, then the
    page loop. *)
Definition download_session (book_id : Z) (output_dir : string) (page_count : Z) : M Z :=
  run! hello in
  let! fonts := get_fonts json_loads book_id in
  let! style := get_css json_loads book_id in
  run! write_text (path_join output_dir "fonts.css") fonts in
  run! write_text (path_join output_dir "style.css") style in
  download_pages json_loads book_id (path_join output_dir "pages") page_count.

End Session.

(* ================================================================= *)
(** ** [clean_page_html] and the HTML branch of [perform_convert_action] *)

(** Any characters other than [>], then [>]: what follows the first
    [>]. *)
Fixpoint after_gt (s : string) : option string :=
  match s with
  | EmptyString => None
  | String c r => if is_ch 62 c then Some r else after_gt r
  end.

(** A match of the empty-span pattern at the start of [s] (the text
    [<span], characters up to the first [>], white space, [</span>]): what
    follows the match.  Each part of the pattern can match in one way
    only. *)
Definition after_empty_span (s : string) : option string :=
  match strip_prefix "<span" s with
  | None => None
  | Some r1 =>
      match after_gt r1 with
      | None => None
      | Some r2 => strip_prefix "</span>" (lstrip r2)
      end
  end.

(** [re.sub(pattern, ' ', s)]: left to right, resuming after each match;
    [skip] counts the characters of a match still to be dropped. *)
Fixpoint clean_from (skip : nat) (s : string) : string :=
  match s with
  | EmptyString => EmptyString
  | String c r =>
      match skip with
      | S k => clean_from k r
      | O =>
          match after_empty_span s with
          | Some rest =>
              " " ++ clean_from (String.length s - String.length rest - 1) r
          | None => String c (clean_from 0 r)
          end
      end
  end.

Definition clean_page_html (html_content : string) : string := clean_from 0 html_content.

(** The f-string of the HTML document. *)
Definition html_document (title style fonts : string) (pages_html : list string) : string :=
  "<!DOCTYPE html><html><head><title>" ++ title ++ "</title><meta charset="
  ++ quoted "UTF-8" ++ "><style>" ++ style ++ "</style><style>" ++ fonts
  ++ "</style></head><body>" ++ str_concat pages_html ++ "</body></html>".

(** [num_pages = manifest.get('num_pages_downloaded', 0)], replaced by
    the number of page files when it equals zero; [range] then wants an
    integer. *)
Definition html_num_pages (manifest : value) (glob_count : nat) : result Z :=
  let? n := py_get manifest "num_pages_downloaded" (VInt 0) in
  match n with
  | VInt z => Ok (if (z =? 0)%Z then Z.of_nat glob_count else z)
  | VBool b => Ok (if b then 1%Z else Z.of_nat glob_count)
  | VFloat f => if float_is_zero f then Ok (Z.of_nat glob_count) else Raise TypeError
  | _ => Raise TypeError
  end.

(** The loop over [range(1, num_pages + 1)]: the pages that exist, read
    and cleaned. *)
Definition load_pages (fs : gmap string string) (html_dir : string) (num_pages : Z)
  : list string :=
  omap (fun i => clean_page_html <$> fs !! page_path html_dir i) (seqZ 1 num_pages).

Section ConvertHtml.

Variables pdf_file page : Type.

(** The [else] branch of [perform_convert_action] ([format] is not
    ['pdf']): [title] is the text of [book_metadata.title], [glob_count]
    the number of files [glob] finds in the pages directory. *)
Definition perform_convert_html (source_dir output_file format title style fonts : string)
    (manifest : value) (glob_count : nat) (w : render_world pdf_file page)
  : result unit * render_world pdf_file page :=
  let html_dir := path_join source_dir "pages" in
  match html_num_pages manifest glob_count with
  | Raise e => (Raise e, w)
  | Ok num_pages =>
      let pages_html := load_pages (r_texts w) html_dir num_pages in
      let w1 := emit (LogInfo [Text "Loaded ";
                               Text (str_of_Z (Z.of_nat (length pages_html)));
                               Text " pages."]) w in
      let w2 :=
        if String.eqb format "html"
        then RenderWorld
               (<[output_file := html_document title style fonts pages_html]> (r_texts w1))
               (r_parts w1) (r_outputs w1) (r_progress w1) (r_log w1)
        else w1 in
      (Ok tt, emit (LogInfo [Text "Successfully created "; Text output_file]) w2)
  end.

(** [os.path.abspath] *)
Variable abspath : string -> string.

(** [shutil.rmtree(dir)] on one kind of file: what lies below the
    directory goes. *)
Definition rmtree {A} (dir : string) (m : gmap string A) : gmap string A :=
  filter (fun kv => String.prefix (abspath dir ++ "/") (abspath (fst kv)) = false) m.

(** The [if cleanup:] block at the end of [perform_convert_action]. *)
Definition cleanup_source (source_dir output_file : string) (w : render_world pdf_file page)
  : render_world pdf_file page :=
  let abs_source := abspath source_dir in
  let abs_output := abspath output_file in
  let source_prefix := abs_source ++ "/" in
  if String.prefix source_prefix abs_output
  then emit (LogWarning [Text "Output file '"; Text output_file;
                         Text "' is inside source directory '"; Text source_dir;
                         Text "'. Skipping cleanup to avoid deleting the result."]) w
  else
    let w1 := emit (LogInfo [Text "Cleaning up source directory: "; Text source_dir]) w in
    RenderWorld (rmtree source_dir (r_texts w1)) (rmtree source_dir (r_parts w1))
      (rmtree source_dir (r_outputs w1)) (r_progress w1) (r_log w1).

End ConvertHtml.

Arguments perform_convert_html {pdf_file page}.
Arguments cleanup_source {pdf_file page}.

(** Every character of the string passes the test. *)
Fixpoint str_forall (p : ascii -> bool) (s : string) : bool :=
  match s with
  | EmptyString => true
  | String c r => p c && str_forall p r
  end.

Definition is_digit (c : ascii) : bool :=
  match digit_of c with Some _ => true | None => false end.

(** A decimal digit or the minus sign. *)
Definition is_number_char (c : ascii) : bool := is_digit c || is_ch 45 c.

(** One file sorts before another by page number, ties allowed. *)
Definition key_le (f g : string) : Prop :=
  exists i j, page_key f = Some i /\ page_key g = Some j /\ (i <= j)%Z.

(** The name of [f] starts with a number. *)
Definition has_page_key (f : string) : bool :=
  match page_key f with Some _ => true | None => false end.

(** * Theorems *)

(* ================================================================= *)
(** ** Strings: cutting and searching *)

Lemma str_app_cons (c : ascii) (s t : string) : String c s ++ t = String c (s ++ t).
Proof. reflexivity. Qed.

Lemma str_app_nil_r (s : string) : s ++ EmptyString = s.
Proof.
  induction s as [|c s IH]; [reflexivity | now rewrite str_app_cons, IH].
Qed.

Lemma str_app_assoc (a b c : string) : (a ++ b) ++ c = a ++ (b ++ c).
Proof.
  induction a as [|x a IH]; [reflexivity | now rewrite !str_app_cons, IH].
Qed.

Lemma prefix_app (p t : string) : String.prefix p (p ++ t) = true.
Proof.
  induction p as [|a p IH]; [now destruct t|].
  rewrite str_app_cons. cbn [String.prefix].
  destruct (ascii_dec a a); [exact IH | congruence].
Qed.

(** Without an occurrence of the separator the scan returns one piece. *)
Lemma split_from_absent (sep : string) :
  forall s cur, str_contains sep s = false -> split_from sep 0 cur s = [cur ++ s].
Proof.
  induction s as [|c r IH]; intros cur H.
  - cbn [split_from]. now rewrite str_app_nil_r.
  - cbn [str_contains] in H. apply orb_false_iff in H as [Hp Hr].
    cbn [split_from]. rewrite Hp, (IH _ Hr), str_app_assoc. reflexivity.
Qed.

(** The characters of a matched separator are dropped one by one. *)
Lemma split_from_skip (sep : string) :
  forall p s cur, split_from sep (String.length p) cur (p ++ s) = split_from sep 0 cur s.
Proof.
  induction p as [|c p IH]; intros s cur.
  - reflexivity.
  - rewrite str_app_cons. cbn [split_from String.length]. apply IH.
Qed.

(** On a frame that starts with the namespace prefix and has no second
    occurrence of it, [split(...)[1]] is everything after the prefix. *)
Lemma payload_tail_single (t : string) :
  str_contains NS_EVENT t = false -> payload_tail (NS_EVENT ++ t) = Ok t.
Proof.
  intros H. unfold payload_tail, str_split.
  change (NS_EVENT ++ t) with (String "4" ("2/books," ++ t)).
  cbn [split_from].
  replace (String.prefix NS_EVENT (String "4" ("2/books," ++ t))) with true
    by (symmetry; apply (prefix_app NS_EVENT t)).
  change (String.length NS_EVENT - 1) with (String.length "2/books,").
  rewrite split_from_skip, (split_from_absent _ _ _ H). reflexivity.
Qed.

Lemma strip_prefix_app (p t : string) : strip_prefix p (p ++ t) = Some t.
Proof.
  induction p as [|a p IH]; [reflexivity|].
  rewrite str_app_cons. cbn [strip_prefix]. now rewrite Ascii.eqb_refl.
Qed.

(** On such a frame, with a JSON string as second element of the array,
    [get_page] decodes as the specification says. *)
Lemma decode_rpc_follows_spec (json_loads : string -> result value)
    (t second : string) (first : value) (more : list value) :
  str_contains NS_EVENT t = false ->
  json_loads t = Ok (VList (first :: VStr second :: more)) ->
  decode_rpc json_loads (NS_EVENT ++ t) = decode_rpc_spec json_loads (NS_EVENT ++ t).
Proof.
  intros Hone Harr. unfold decode_rpc, decode_rpc_spec, payload_after_prefix.
  rewrite (payload_tail_single t Hone), strip_prefix_app, Harr. reflexivity.
Qed.

(* ================================================================= *)
(** ** The handshake *)

Lemma list_app3 {A} (s : list A) (a b c : A) :
  (((s ++ [a]) ++ [b]) ++ [c])%list = (s ++ [a; b; c])%list.
Proof. now rewrite <- !app_assoc. Qed.

(** [_hello] on three frames: the final world, with the warnings spelled
    out. *)
Lemma hello_run (m1 m2 m3 : string) (rest s : list string)
    (l : list log_entry) (f : gmap string string) :
  hello (World (m1 :: m2 :: m3 :: rest) s l f)
  = (Ok tt,
     World rest (s ++ ["2probe"; "5"; "40/books,"])
       (l ++ (if String.eqb m1 "3probe" then []
              else [LogWarning [Text "Expected '3probe', got "; Text m1]])
          ++ (if String.prefix "40/books," m2 then []
              else [LogWarning [Text "Expected namespace ack, got "; Text m2]])
          ++ (if str_contains ("42/books,[" ++ dq ++ "ready" ++ dq) m3 then []
              else [LogWarning [Text "Expected 'ready', got "; Text m3]]))
       f).
Proof.
  unfold hello.
  cbv [bind ws_send ws_recv when log ret negb inbound sent logs files].
  destruct (String.eqb m1 "3probe");
    cbv [bind ws_send ws_recv when log ret negb inbound sent logs files];
    destruct (String.prefix "40/books," m2);
    cbv [bind ws_send ws_recv when log ret negb inbound sent logs files];
    destruct (str_contains ("42/books,[" ++ dq ++ "ready" ++ dq) m3);
    rewrite list_app3, <- ?app_assoc; cbn [app]; rewrite ?app_nil_r; reflexivity.
Qed.


(* ================================================================= *)
(** ** Heartbeats *)

Lemma handle_recv_loop_pings (n : nat) (msg : string) (rest pongs : list string) :
  msg <> "2" ->
  handle_recv_loop (replicate n "2" ++ msg :: rest) pongs
  = (Ok msg, rest, (pongs ++ replicate n "3")%list).
Proof.
  intros Hmsg. revert pongs.
  induction n as [|n IH]; intros pongs; cbn [replicate app handle_recv_loop].
  - apply String.eqb_neq in Hmsg. rewrite Hmsg, app_nil_r. reflexivity.
  - rewrite String.eqb_refl, IH, <- app_assoc. reflexivity.
Qed.

Lemma handle_recv_pings (n : nat) (msg : string) (rest s : list string)
    (l : list log_entry) (f : gmap string string) :
  msg <> "2" ->
  handle_recv (World (replicate n "2" ++ msg :: rest) s l f)
  = (Ok msg, World rest (s ++ replicate n "3") l f).
Proof.
  intros Hmsg. unfold handle_recv. cbn [inbound sent logs files].
  rewrite (handle_recv_loop_pings n msg rest [] Hmsg). reflexivity.
Qed.

(** What a fetch does once its request is out: [decode] applied to the
    first frame that is not a ping. *)
Lemma fetch_after_pings {A} (request : string) (decode : string -> result A)
    (n : nat) (msg : string) (rest s : list string)
    (l : list log_entry) (f : gmap string string) :
  msg <> "2" ->
  (run! ws_send request in let! r := handle_recv in lift (decode r))
    (World (replicate n "2" ++ msg :: rest) s l f)
  = (decode msg, World rest (s ++ request :: replicate n "3") l f).
Proof.
  intros Hmsg. unfold bind at 1. cbn [ws_send inbound sent logs files].
  unfold bind. rewrite (handle_recv_pings n msg rest _ l f Hmsg).
  unfold lift. now rewrite <- app_assoc.
Qed.

(** C2. Any number of bare pings [2] in front of the response leaves the
    value returned by a pending fetch unchanged, and the client answers
    each of them with a bare [3] before it goes on waiting. *)
Theorem heartbeat_transparent (json_loads : string -> result value)
    (book_id page : Z) (n : nat) (msg : string) (rest s : list string)
    (l : list log_entry) (f : gmap string string) :
  msg <> "2" ->
  let quiet := World (msg :: rest) s l f in
  let pinged := World (replicate n "2" ++ msg :: rest) s l f in
  handle_recv pinged = (Ok msg, World rest (s ++ replicate n "3") l f)
  /\ get_page json_loads book_id page pinged
     = (decode_page json_loads msg,
        World rest (s ++ page_request book_id page :: replicate n "3") l f)
  /\ fst (get_page json_loads book_id page pinged)
     = fst (get_page json_loads book_id page quiet)
  /\ fst (get_css json_loads book_id pinged) = fst (get_css json_loads book_id quiet)
  /\ fst (get_fonts json_loads book_id pinged) = fst (get_fonts json_loads book_id quiet).
Proof.
  intros Hmsg quiet pinged. subst quiet pinged.
  unfold get_page, get_css, get_fonts.
  split; [now apply handle_recv_pings|].
  split; [now apply fetch_after_pings|].
  repeat split;
    rewrite (fetch_after_pings _ _ n msg rest s l f Hmsg),
            (fetch_after_pings _ _ 0 msg rest s l f Hmsg); reflexivity.
Qed.

(** Concrete scenario 2: two pings, then the page. *)
Lemma heartbeat_transparent_witness :
  page_reply "<p>1</p>" <> "2"
  /\ get_page json_loads_ref 7 1
       (World ["2"; "2"; page_reply "<p>1</p>"] [] [] ∅)
     = (Ok (VStr "<p>1</p>"), World [] [page_request 7 1; "3"; "3"] [] ∅).
Proof.
  assert (H : page_reply "<p>1</p>" <> "2") by (vm_compute; discriminate).
  split; [exact H|].
  exact (proj1 (proj2 (heartbeat_transparent json_loads_ref 7 1 2
                         (page_reply "<p>1</p>") [] [] [] ∅ H))).
Defined.

(* ================================================================= *)
(** ** Decoding the response *)

(** C3. On a frame whose payload mentions [42/books,] the code does not
    decode the full text after the leading prefix: [split(...)[1]] stops
    at the second occurrence, the truncated text is not JSON and
    [get_page] fails, where decoding the full suffix gives the page. *)
Theorem decode_rpc_cuts_at_second_prefix :
  payload_after_prefix nested_reply
  = Ok ("[" ++ quoted "page" ++ "," ++ dq ++ "{" ++ esc_quoted "html" ++ ":"
        ++ esc_quoted "see 42/books, p. 3" ++ "}" ++ dq ++ "]")
  /\ payload_tail nested_reply
     = Ok ("[" ++ quoted "page" ++ "," ++ dq ++ "{" ++ esc_quoted "html" ++ ":"
           ++ bs ++ dq ++ "see ")
  /\ decode_rpc_spec json_loads_ref nested_reply
     = Ok (VDict [("html", VStr "see 42/books, p. 3")])
  /\ decode_rpc json_loads_ref nested_reply = Raise JSONDecodeError
  /\ get_page json_loads_ref 7 1 (World [nested_reply] [] [] ∅)
     = (Raise JSONDecodeError, World [] [page_request 7 1] [] ∅).
Proof. vm_compute. repeat split; reflexivity. Qed.

(* ================================================================= *)
(** ** The [error] field *)

(** The values Python takes for false. *)
Lemma truthy_false_iff (v : value) :
  truthy v = false
  <-> v = VNone \/ v = VBool false \/ v = VInt 0 \/ v = VStr EmptyString
      \/ v = VList [] \/ v = VDict []
      \/ exists f, v = VFloat f /\ float_is_zero f = true.
Proof.
  split.
  - destruct v as [|b|z|f|s|l|d]; cbn [truthy]; intros H.
    + now left.
    + subst b. now right; left.
    + apply negb_false_iff, Z.eqb_eq in H. subst z. now right; right; left.
    + apply negb_false_iff in H. do 6 right. now exists f.
    + destruct s; [|discriminate]. now right; right; right; left.
    + destruct l; [|discriminate]. now do 4 right; left.
    + destruct d; [|discriminate]. now do 5 right; left.
  - intros [->|[->|[->|[->|[->|[->|(f & -> & Hf)]]]]]]; cbn [truthy]; try reflexivity.
    now rewrite Hf.
Qed.

(** C5, as stated, fails: an [error] field that is present but false does
    not make the call fail. *)
Lemma present_error_need_not_fail :
  ~ (forall d : list (string * value),
        dict_lookup "error" d <> None ->
        exists msg, page_result (VDict d) = Raise (PermissionError msg)).
Proof.
  intros H.
  destruct (H [("error", VBool false); ("html", VStr "<p>1</p>")]) as [msg Hmsg].
  - discriminate.
  - discriminate Hmsg.
Qed.

(** C5, amended.  The call fails with the authorization error exactly
    when the [error] field is present with a true value; the error then
    carries the [message] field, or the text [Error fetching page] when
    there is none.  In every other case (no [error] field, or one that is
    null, false, zero, or empty) the call returns the [html] field, and
    fails with [KeyError] when that is missing. *)
Theorem page_result_by_truthiness (d : list (string * value)) :
  let denied :=
    Raise (PermissionError
             (match dict_lookup "message" d with
              | Some msg => msg
              | None => VStr "Error fetching page"
              end)) in
  let fetched :=
    match dict_lookup "html" d with
    | Some html => Ok html
    | None => Raise KeyError
    end in
  (forall err, dict_lookup "error" d = Some err -> truthy err = true ->
               page_result (VDict d) = denied)
  /\ (forall err, dict_lookup "error" d = Some err -> truthy err = false ->
                  page_result (VDict d) = fetched)
  /\ (dict_lookup "error" d = None -> page_result (VDict d) = fetched).
Proof.
  intros denied fetched. subst denied fetched.
  unfold page_result. cbn [py_get py_getitem_str].
  split; [|split].
  - intros err -> ->. reflexivity.
  - intros err -> ->. reflexivity.
  - intros ->. reflexivity.
Qed.

Lemma page_result_by_truthiness_witness :
  page_result (VDict [("error", VBool true); ("message", VStr "denied")])
  = Raise (PermissionError (VStr "denied"))
  /\ page_result (VDict [("error", VBool true)])
     = Raise (PermissionError (VStr "Error fetching page"))
  /\ page_result (VDict [("error", VInt 0); ("html", VStr "<p>1</p>")])
     = Ok (VStr "<p>1</p>")
  /\ page_result (VDict [("html", VStr "<p>1</p>")]) = Ok (VStr "<p>1</p>").
Proof.
  split; [|split; [|split]].
  - exact (proj1 (page_result_by_truthiness
                    [("error", VBool true); ("message", VStr "denied")])
             (VBool true) eq_refl eq_refl).
  - exact (proj1 (page_result_by_truthiness [("error", VBool true)])
             (VBool true) eq_refl eq_refl).
  - exact (proj1 (proj2 (page_result_by_truthiness
                           [("error", VInt 0); ("html", VStr "<p>1</p>")]))
             (VInt 0) eq_refl eq_refl).
  - exact (proj2 (proj2 (page_result_by_truthiness [("html", VStr "<p>1</p>")]))
             eq_refl).
Defined.

(* ================================================================= *)
(** ** Stylesheet and fonts *)

(** C9, as stated, fails for the fonts: the [html] field is not returned
    as it is. *)
Lemma get_fonts_rewrites_html :
  ~ (forall (r : string) (d : list (string * value)) (html : value),
        decode_rpc json_loads_ref r = Ok (VDict d) ->
        dict_lookup "html" d = Some html ->
        decode_fonts json_loads_ref r = Ok html).
Proof.
  intros H.
  specialize (H font_reply [("html", VStr "src: url(f.woff); format('woff')")]
                (VStr "src: url(f.woff); format('woff')")).
  vm_compute in H. specialize (H eq_refl eq_refl). discriminate H.
Qed.

(** C9, amended.  [get_css] and [get_fonts] never look at [error]: on a
    result object without [html] both fail with [KeyError] whatever the
    [error] field says, where [get_page] raises the authorization error
    if [error] is true.  On a result object with [html], [get_css]
    returns it as it is and [get_fonts] returns it with every
    [; format] replaced by [ format] (a [TypeError] if it is not a
    string), also when [error] is present. *)
Theorem css_and_fonts_ignore_error (json_loads : string -> result value)
    (r : string) (d : list (string * value)) :
  decode_rpc json_loads r = Ok (VDict d) ->
  (dict_lookup "html" d = None ->
   decode_css json_loads r = Raise KeyError
   /\ decode_fonts json_loads r = Raise KeyError
   /\ (forall err, dict_lookup "error" d = Some err -> truthy err = true ->
       exists msg, decode_page json_loads r = Raise (PermissionError msg)))
  /\ (forall html, dict_lookup "html" d = Some html ->
      decode_css json_loads r = Ok html
      /\ decode_fonts json_loads r
         = match html with
           | VStr s => Ok (VStr (str_replace "; format" " format" s))
           | _ => Raise TypeError
           end).
Proof.
  intros Hr. unfold decode_fonts, decode_css, decode_page. rewrite Hr.
  cbn [py_getitem_str]. split.
  - intros ->. repeat split. intros err Herr Ht.
    unfold page_result. cbn [py_get]. rewrite Herr, Ht. eauto.
  - intros html ->. split; [reflexivity|]. now destruct html.
Qed.

Lemma css_and_fonts_ignore_error_witness :
  decode_css json_loads_ref denied_reply = Raise KeyError
  /\ decode_fonts json_loads_ref denied_reply = Raise KeyError
  /\ decode_fonts json_loads_ref font_reply
     = Ok (VStr "src: url(f.woff) format('woff')").
Proof.
  pose proof (css_and_fonts_ignore_error json_loads_ref denied_reply
                [("error", VBool true); ("message", VStr "denied")] eq_refl) as [H1 _].
  pose proof (css_and_fonts_ignore_error json_loads_ref font_reply
                [("html", VStr "src: url(f.woff); format('woff')")] eq_refl) as [_ H2].
  destruct (H1 eq_refl) as (Hc & Hf & _).
  destruct (H2 _ eq_refl) as [_ Hf2].
  split; [exact Hc | split; [exact Hf | exact Hf2]].
Defined.

(* ================================================================= *)
(** ** Emptiness classification *)

Lemma lstrip_all_space (s : string) : all_space (lstrip s) = all_space s.
Proof.
  induction s as [|c r IH]; [reflexivity|].
  cbn [lstrip all_space]. destruct (is_space c) eqn:E; cbn [andb].
  - exact IH.
  - cbn [all_space]. now rewrite E.
Qed.

Lemma rstrip_empty (s : string) : str_is_empty (rstrip s) = all_space s.
Proof.
  induction s as [|c r IH]; [reflexivity|].
  cbn [rstrip all_space]. destruct (rstrip r); cbn [str_is_empty] in *; rewrite <- IH.
  - now destruct (is_space c).
  - now rewrite andb_false_r.
Qed.

Lemma strip_empty (s : string) : str_is_empty (str_strip s) = all_space s.
Proof. unfold str_strip. now rewrite rstrip_empty, lstrip_all_space. Qed.

Lemma str_concat_empty (l : list string) :
  Forall (fun s => str_is_empty s = false) l ->
  str_is_empty (str_concat l) = list_is_empty l.
Proof.
  destruct 1 as [|s l Hs _]; [reflexivity|].
  destruct s; [discriminate|]. reflexivity.
Qed.

Lemma stripped_strings_nonempty (n : node) :
  Forall (fun s => str_is_empty s = false) (stripped_strings n).
Proof.
  apply Forall_forall. intros t Ht. unfold stripped_strings in Ht.
  apply list_elem_of_omap in Ht as (d & _ & Hd).
  destruct d as [s| |]; try discriminate.
  destruct (str_is_empty (str_strip s)) eqn:E; [discriminate|].
  now inversion Hd; subst.
Qed.

Lemma list_is_empty_nil {A} (l : list A) : list_is_empty l = true <-> l = [].
Proof. destruct l; cbn; split; intros H; (reflexivity || discriminate H). Qed.

(** [get_text(strip=True)] is empty exactly when every collected string
    is white space. *)
Lemma get_text_empty (n : node) :
  str_is_empty (get_text_strip n) = true
  <-> forall s, TextNode s ∈ descendants n -> all_space s = true.
Proof.
  unfold get_text_strip.
  rewrite (str_concat_empty _ (stripped_strings_nonempty n)), list_is_empty_nil.
  unfold stripped_strings. split.
  - intros Hnil s Hs. rewrite <- strip_empty.
    destruct (str_is_empty (str_strip s)) eqn:E; [reflexivity|].
    assert (Hin : str_strip s ∈ @nil string); [|inversion Hin].
    rewrite <- Hnil. apply list_elem_of_omap. exists (TextNode s).
    split; [exact Hs|]. cbn. now rewrite E.
  - intros Hall. apply elem_of_nil_inv. intros t Ht.
    apply list_elem_of_omap in Ht as (d & Hd & Hf).
    destruct d as [s| |]; try discriminate.
    rewrite strip_empty, (Hall s Hd) in Hf. discriminate.
Qed.

Lemma existsb_eqb_elem (name : string) (names : list string) :
  existsb (String.eqb name) names = true <-> name ∈ names.
Proof.
  rewrite existsb_exists, list_elem_of_In. split.
  - intros (x & Hx & E). apply String.eqb_eq in E. now subst.
  - intros H. exists name. split; [exact H | apply String.eqb_refl].
Qed.

(** [find_all(names)] finds nothing exactly when no element inside has
    one of the names. *)
Lemma find_all_named_empty (names : list string) (n : node) :
  list_is_empty (find_all_named names n) = true
  <-> forall name attrs children,
        Elem name attrs children ∈ descendants n -> name ∉ names.
Proof.
  rewrite list_is_empty_nil. unfold find_all_named. split.
  - intros Hnil name attrs children Hd Hin.
    assert (H : Elem name attrs children ∈ @nil node); [|inversion H].
    rewrite <- Hnil. apply list_elem_of_filter. split; [|exact Hd].
    cbn [is_tag_named]. now apply existsb_eqb_elem.
  - intros Hall. apply elem_of_nil_inv. intros d Hd.
    apply list_elem_of_filter in Hd as [Hn Hd].
    destruct d as [| |name attrs children]; try discriminate.
    cbn [is_tag_named] in Hn. apply existsb_eqb_elem in Hn.
    exact (Hall _ _ _ Hd Hn).
Qed.

Lemma scan_styles_true (tags : list node) :
  scan_styles tags = true <-> forall tag, tag ∈ tags -> style_has_url tag = false.
Proof.
  induction tags as [|t tags IH]; cbn [scan_styles].
  - split; [intros _ tag H; inversion H | reflexivity].
  - destruct (style_has_url t) eqn:E.
    + split; [discriminate|]. intros H. rewrite <- E. symmetry. apply H. left.
    + rewrite IH. split.
      * intros H tag Ht. apply elem_of_cons in Ht as [->|Ht]; auto.
      * intros H tag Ht. apply H. now right.
Qed.

Lemma contains_url_nonempty (style : string) :
  str_contains "url(" style = true -> str_is_empty style = false.
Proof. destruct style; [discriminate | reflexivity]. Qed.

Lemma style_has_url_false (tag : node) :
  style_has_url tag = false
  <-> forall style, get_style tag = Some style -> str_contains "url(" style = false.
Proof.
  unfold style_has_url. destruct (get_style tag) as [style|].
  - split.
    + intros H s [= <-]. destruct (str_contains "url(" style) eqn:E; [|reflexivity].
      now rewrite (contains_url_nonempty _ E) in H.
    + intros H. rewrite (H style eq_refl). apply andb_false_r.
  - split; [discriminate | reflexivity].
Qed.

(** The style loop lets the fragment pass as empty exactly when no
    element inside has a [url(] in its inline style. *)
Lemma scan_styles_no_url (n : node) :
  scan_styles (find_all_tags n) = true
  <-> forall name attrs children style,
        Elem name attrs children ∈ descendants n ->
        get_style (Elem name attrs children) = Some style ->
        str_contains "url(" style = false.
Proof.
  rewrite scan_styles_true. unfold find_all_tags. split.
  - intros H name attrs children style Hd.
    apply style_has_url_false, H, list_elem_of_filter. now split.
  - intros H tag Ht. apply list_elem_of_filter in Ht as [Hn Hd].
    destruct tag as [| |name attrs children]; try discriminate.
    apply style_has_url_false. intros style. now apply H.
Qed.

(** The verdict on a document with a body, in the three conditions of the
    specification. *)
Lemma classify_body (doc : soup) (body : node) :
  soup_body doc = Some body ->
  classify doc = true
  <-> ~ has_visible_text body /\ ~ has_media body /\ ~ has_url_style body.
Proof.
  intros Hb. unfold classify. rewrite Hb.
  pose proof (get_text_empty body) as Ht.
  pose proof (find_all_named_empty MEDIA_TAGS body) as Hm.
  pose proof (scan_styles_no_url body) as Hs.
  unfold has_visible_text, has_media, has_url_style.
  destruct (str_is_empty (get_text_strip body));
    destruct (list_is_empty (find_all_named MEDIA_TAGS body)); cbn [andb].
  - rewrite Hs. split.
    + intros H. repeat split.
      * intros (s & Hd & E). rewrite (proj1 Ht eq_refl s Hd) in E. discriminate.
      * intros (name & a & c & Hd & Hin). exact (proj1 Hm eq_refl _ _ _ Hd Hin).
      * intros (name & a & c & style & Hd & Hg & E).
        rewrite (H _ _ _ _ Hd Hg) in E. discriminate.
    + intros (_ & _ & H) name a c style Hd Hg.
      destruct (str_contains "url(" style) eqn:E; [|reflexivity].
      exfalso. apply H. now exists name, a, c, style.
  - split; [discriminate|]. intros (_ & H & _). exfalso.
    assert (true = true -> False); [|tauto]. intros _.
    assert (Hf : false = true); [|discriminate Hf].
    apply Hm. intros name a c Hd Hin. apply H. now exists name, a, c.
  - split; [discriminate|]. intros (H & _ & _). exfalso.
    assert (Hf : false = true); [|discriminate Hf].
    apply Ht. intros s Hd. destruct (all_space s) eqn:E; [reflexivity|].
    exfalso. apply H. now exists s.
  - split; [discriminate|]. intros (H & _ & _). exfalso.
    assert (Hf : false = true); [|discriminate Hf].
    apply Ht. intros s Hd. destruct (all_space s) eqn:E; [reflexivity|].
    exfalso. apply H. now exists s.
Qed.



(** C10. [is_html_empty] always answers.  A file that cannot be opened,
    or whose parsing raises, is reported non-empty and goes on to
    rendering; a document without a [body] is reported empty. *)
Theorem is_html_empty_fails_closed (bs4_lxml : string -> result soup)
    (fs : gmap string string) (file_path : string) :
  (fs !! file_path = None -> is_html_empty bs4_lxml fs file_path = false)
  /\ (forall content e,
        fs !! file_path = Some content -> bs4_lxml content = Raise e ->
        is_html_empty bs4_lxml fs file_path = false)
  /\ (forall content doc,
        fs !! file_path = Some content -> bs4_lxml content = Ok doc ->
        soup_body doc = None ->
        is_html_empty bs4_lxml fs file_path = true).
Proof.
  unfold is_html_empty, open_read, classify. split; [|split].
  - intros ->. reflexivity.
  - intros content e -> ->. reflexivity.
  - intros content doc -> -> ->. reflexivity.
Qed.

Lemma is_html_empty_fails_closed_witness :
  is_html_empty scenario_lxml ∅ "pages/1.html" = false
  /\ is_html_empty scenario_lxml {[ "pages/1.html" := "<p>" ]} "pages/1.html" = false
  /\ is_html_empty (fun _ => Ok [Elem "html" [] []]) {[ "pages/1.html" := "<html>" ]}
       "pages/1.html" = true.
Proof.
  assert (H0 : (∅ : gmap string string) !! "pages/1.html" = None) by reflexivity.
  assert (H1 : ({[ "pages/1.html" := "<p>" ]} : gmap string string)
                 !! "pages/1.html" = Some "<p>") by reflexivity.
  assert (H2 : ({[ "pages/1.html" := "<html>" ]} : gmap string string)
                 !! "pages/1.html" = Some "<html>") by reflexivity.
  split; [|split].
  - exact (proj1 (is_html_empty_fails_closed scenario_lxml _ _) H0).
  - exact (proj1 (proj2 (is_html_empty_fails_closed scenario_lxml _ _))
             "<p>" (OtherError "ParserRejectedMarkup") H1 eq_refl).
  - exact (proj2 (proj2 (is_html_empty_fails_closed (fun _ => Ok [Elem "html" [] []]) _ _))
             "<html>" [Elem "html" [] []] H2 eq_refl eq_refl).
Defined.

(* ================================================================= *)
(** ** Page paths *)

Lemma str_length_app (a b : string) :
  String.length (a ++ b) = (String.length a + String.length b)%nat.
Proof.
  induction a as [|c a IH]; [reflexivity|].
  rewrite str_app_cons. cbn [String.length]. now rewrite IH.
Qed.

Lemma str_app_inv_head (p a b : string) : p ++ a = p ++ b -> a = b.
Proof.
  induction p as [|c p IH]; [trivial|].
  rewrite !str_app_cons. intros [= H]. auto.
Qed.

Lemma str_app_inv_tail (t : string) : forall a b, a ++ t = b ++ t -> a = b.
Proof.
  induction a as [|c a IH]; intros [|d b] H.
  - reflexivity.
  - apply (f_equal String.length) in H. rewrite !str_length_app in H.
    cbn [String.length] in H. lia.
  - apply (f_equal String.length) in H. rewrite !str_length_app in H.
    cbn [String.length] in H. lia.
  - rewrite !str_app_cons in H. injection H as -> H. f_equal. auto.
Qed.

(** [str] on integers can be read back. *)
Lemma int_of_str_of_Z (z : Z) :
  NilZero.int_of_string (str_of_Z z) = Some (Z.to_int z).
Proof.
  unfold str_of_Z. apply NilZero.isi; destruct z; cbn; try discriminate;
    intros [= H]; exact (Unsigned.to_uint_nonnil _ H).
Qed.

Lemma str_of_Z_inj (i j : Z) : str_of_Z i = str_of_Z j -> i = j.
Proof.
  intros H. apply DecimalZ.to_int_inj.
  pose proof (int_of_str_of_Z i) as Hi. rewrite H, int_of_str_of_Z in Hi.
  congruence.
Qed.

Lemma str_of_Z_not_slash (i : Z) (t : string) :
  String.prefix "/" (str_of_Z i ++ t) = false.
Proof.
  pose proof (int_of_str_of_Z i) as Hi.
  destruct (str_of_Z i) as [|c r]; [discriminate|].
  rewrite str_app_cons. cbn [String.prefix].
  destruct (ascii_dec "/" c) as [<-|]; [|reflexivity].
  exfalso. cbn in Hi. destruct (NilEmpty.uint_of_string r); discriminate.
Qed.

(** Different indices are stored in different files. *)
Lemma page_path_inj (pages_dir : string) (i j : Z) :
  page_path pages_dir i = page_path pages_dir j -> i = j.
Proof.
  unfold page_path, path_join. rewrite !str_of_Z_not_slash.
  destruct (str_is_empty pages_dir || str_ends_with_slash pages_dir); intros H.
  - apply str_app_inv_head, str_app_inv_tail in H. now apply str_of_Z_inj.
  - apply str_app_inv_head, str_app_inv_head, str_app_inv_tail in H.
    now apply str_of_Z_inj.
Qed.

Lemma store_pages_snoc (pages_dir : string) (fs : gmap string string)
    (pages : list (Z * string)) (i : Z) (h : string) :
  store_pages pages_dir fs (pages ++ [(i, h)])
  = <[page_path pages_dir i := h]> (store_pages pages_dir fs pages).
Proof. unfold store_pages. now rewrite foldl_app. Qed.

(** A path that is not the file of a stored page keeps its content. *)
Lemma store_pages_other (pages_dir : string) (fs : gmap string string)
    (pages : list (Z * string)) (p : string) :
  (forall i h, (i, h) ∈ pages -> page_path pages_dir i <> p) ->
  store_pages pages_dir fs pages !! p = fs !! p.
Proof.
  induction pages as [|[i h] pages IH] using rev_ind; intros H; [reflexivity|].
  rewrite store_pages_snoc, lookup_insert_ne.
  - apply IH. intros j g Hj. apply (H j g), elem_of_app. now left.
  - apply (H i h), elem_of_app. right. now left.
Qed.

(** With one page per index, the file of a stored page has its text. *)
Lemma store_pages_lookup (pages_dir : string) (fs : gmap string string)
    (pages : list (Z * string)) (i : Z) (h : string) :
  NoDup (map fst pages) -> (i, h) ∈ pages ->
  store_pages pages_dir fs pages !! page_path pages_dir i = Some h.
Proof.
  induction pages as [|[j g] pages IH] using rev_ind; intros Hnd Hin.
  - inversion Hin.
  - rewrite store_pages_snoc. rewrite map_app in Hnd. cbn [map fst] in Hnd.
    apply NoDup_app in Hnd as (Hnd & Hdisj & _).
    apply elem_of_app in Hin as [Hin | Hin].
    + rewrite lookup_insert_ne; [now apply IH|].
      intros E. apply page_path_inj in E. subst j.
      apply (Hdisj i); [|left].
      apply list_elem_of_fmap. now exists (i, h).
    + apply list_elem_of_singleton in Hin as [= -> ->]. apply lookup_insert_eq.
Qed.

(* ================================================================= *)
(** ** The page loop *)

Section DownloadLoop.

Variable json_loads : string -> result value.
Variables (book_id : Z) (pages_dir : string) (page_count : Z).

Lemma fetch_and_store_ok (i : Z) (r h : string) (rest s : list string)
    (l : list log_entry) (f : gmap string string) :
  r <> "2" -> decode_page json_loads r = Ok (VStr h) ->
  fetch_and_store json_loads book_id pages_dir i (World (r :: rest) s l f)
  = (Ok tt, World rest (s ++ [page_request book_id i]) l
              (<[page_path pages_dir i := h]> f)).
Proof.
  intros Hr Hd. unfold fetch_and_store, get_page. unfold bind at 1.
  rewrite (fetch_after_pings _ _ 0 r rest s l f Hr), Hd. reflexivity.
Qed.

Lemma fetch_and_store_raise (i : Z) (r : string) (e : exn) (rest s : list string)
    (l : list log_entry) (f : gmap string string) :
  r <> "2" -> decode_page json_loads r = Raise e ->
  fetch_and_store json_loads book_id pages_dir i (World (r :: rest) s l f)
  = (Raise e, World rest (s ++ [page_request book_id i]) l f).
Proof.
  intros Hr Hd. unfold fetch_and_store, get_page. unfold bind at 1.
  rewrite (fetch_after_pings _ _ 0 r rest s l f Hr), Hd. reflexivity.
Qed.

Variables (denial : string) (arg : value) (rest : list string).
Hypothesis denial_frame : denial <> "2".
Hypothesis denial_decoded :
  decode_page json_loads denial = Raise (PermissionError arg).

(** The loop from index [a] on, with [frames] answering the first
    requests successfully and [denial] the next one. *)
Lemma download_loop_run (frames htmls : list string) :
  Forall2 (fun r h => r <> "2" /\ decode_page json_loads r = Ok (VStr h)) frames htmls ->
  forall (a n num : Z) (s : list string) (l : list log_entry) (f : gmap string string),
    (Z.of_nat (length frames) < n)%Z ->
    let len := Z.of_nat (length frames) in
    download_loop json_loads book_id pages_dir page_count (seqZ a n) num
      (World (frames ++ denial :: rest) s l f)
    = (Ok (num + len)%Z,
       World rest
         (s ++ map (page_request book_id) (seqZ a (len + 1)))
         (l ++ map (progress_entry page_count) (seqZ a (len + 1))
            ++ [stop_entry (a + len) (PermissionError arg)])
         (store_pages pages_dir f (zip (seqZ a len) htmls))).
Proof.
  induction 1 as [|r h frames htmls [Hr Hd] _ IH]; intros a n num s l f Hn len;
    subst len.
  - cbn [length Z.of_nat] in *. rewrite (seqZ_cons a n) by lia.
    cbn [download_loop]. unfold bind at 1. cbn [log inbound sent logs files app].
    rewrite (fetch_and_store_raise _ _ _ _ _ _ _ denial_frame denial_decoded).
    unfold bind, log, ret. cbn [inbound sent logs files].
    change (Z.of_nat 0) with 0%Z. rewrite Z.add_0_l, !Z.add_0_r.
    rewrite (seqZ_cons a 1), (seqZ_nil _ (Z.pred 1)), (seqZ_nil a 0) by lia.
    rewrite <- app_assoc. reflexivity.
  - cbn [length] in *. rewrite (seqZ_cons a n) by lia.
    cbn [download_loop app]. unfold bind at 1. cbn [log inbound sent logs files].
    rewrite (fetch_and_store_ok _ _ _ _ _ _ _ Hr Hd).
    rewrite IH by lia.
    rewrite (seqZ_cons a (Z.of_nat (S (length frames)) + 1)) by lia.
    rewrite (seqZ_cons a (Z.of_nat (S (length frames)))) by lia.
    replace (Z.pred (Z.of_nat (S (length frames)) + 1))
      with (Z.of_nat (length frames) + 1)%Z by lia.
    replace (Z.pred (Z.of_nat (S (length frames))))
      with (Z.of_nat (length frames)) by lia.
    replace (Z.succ a + Z.of_nat (length frames))%Z
      with (a + Z.of_nat (S (length frames)))%Z by lia.
    replace (num + 1 + Z.of_nat (length frames))%Z
      with (num + Z.of_nat (S (length frames)))%Z by lia.
    cbn [map zip zip_with]. rewrite <- !app_assoc. reflexivity.
Qed.

End DownloadLoop.

Lemma dict_lookup_set (k : string) (v : value) (d : list (string * value)) :
  dict_lookup k (dict_set k v d) = Some v.
Proof.
  induction d as [|[k' v'] d IH]; cbn [dict_set dict_lookup].
  - now rewrite String.eqb_refl.
  - destruct (String.eqb k k') eqn:E; cbn [dict_lookup]; rewrite E; auto.
Qed.

(** C1. With N pages asked for, pages 1..k-1 fetched and page k (k <= N)
    refused with an authorization error, the loop ends normally with a
    count of k-1: it has written the files of pages 1..k-1 and no other,
    has sent the requests for pages 1..k and none after, has left the
    rest of the inbound queue untouched, and the manifest records k-1. *)
Theorem download_stops_at_denial (json_loads : string -> result value)
    (book_id : Z) (pages_dir : string) (N : Z) (frames htmls : list string)
    (denial : string) (arg : value) (rest s : list string) (l : list log_entry)
    (f : gmap string string) (manifest : list (string * value)) :
  let k := (Z.of_nat (length frames) + 1)%Z in
  (k <= N)%Z ->
  Forall2 (fun r h => r <> "2" /\ decode_page json_loads r = Ok (VStr h)) frames htmls ->
  denial <> "2" ->
  decode_page json_loads denial = Raise (PermissionError arg) ->
  let w' :=
    World rest
      (s ++ map (page_request book_id) (seqZ 1 k))
      (l ++ map (progress_entry N) (seqZ 1 k) ++ [stop_entry k (PermissionError arg)])
      (store_pages pages_dir f (zip (seqZ 1 (k - 1)) htmls)) in
  download_pages json_loads book_id pages_dir N (World (frames ++ denial :: rest) s l f)
  = (Ok (k - 1)%Z, w')
  /\ (forall i h, htmls !! i = Some h ->
                  files w' !! page_path pages_dir (Z.of_nat i + 1) = Some h)
  /\ (forall i, (i < 1 \/ k <= i)%Z ->
                files w' !! page_path pages_dir i = f !! page_path pages_dir i)
  /\ (forall p, (forall i, (1 <= i < k)%Z -> p <> page_path pages_dir i) ->
                files w' !! p = f !! p)
  /\ dict_lookup "num_pages_downloaded" (record_downloaded manifest (k - 1))
     = Some (VInt (k - 1)).
Proof.
  intros k Hk Hok Hne Hdenied w'. subst w'. cbn [files].
  pose proof (Forall2_length _ _ _ Hok) as Hlen.
  replace (k - 1)%Z with (Z.of_nat (length frames)) by (subst k; lia).
  assert (Hother : forall p,
             (forall i, (1 <= i < k)%Z -> p <> page_path pages_dir i) ->
             store_pages pages_dir f (zip (seqZ 1 (Z.of_nat (length frames))) htmls) !! p
             = f !! p).
  { intros p Hp. apply store_pages_other. intros i h Hin E.
    apply elem_of_zip_l, elem_of_seqZ in Hin. apply (Hp i); [subst k; lia | now symmetry]. }
  split; [|split; [|split; [|split]]].
  - unfold download_pages.
    rewrite (download_loop_run json_loads book_id pages_dir N denial arg rest
               Hne Hdenied frames htmls Hok) by (subst k; lia).
    subst k. rewrite Z.add_0_l, (Z.add_comm 1). reflexivity.
  - intros i h Hi. apply store_pages_lookup.
    + change (map fst ?x) with (x.*1). rewrite fst_zip.
      * apply NoDup_seqZ.
      * rewrite length_seqZ. lia.
    + apply (list_elem_of_lookup_2 _ i). rewrite lookup_zip_with.
      assert (Hlt : (i < length htmls)%nat) by (apply lookup_lt_is_Some; eauto).
      rewrite (lookup_seqZ_lt 1 _ i) by lia. cbn. rewrite Hi. cbn.
      now rewrite Z.add_comm.
  - intros i Hi. apply Hother. intros j Hj E. apply page_path_inj in E. lia.
  - exact Hother.
  - apply dict_lookup_set.
Qed.

(** Concrete scenario 5: ten pages asked for, the fifth one refused with
    [{"error":true,"message":"denied"}]. *)
Lemma download_stops_at_denial_witness :
  download_pages json_loads_ref 7 "book/pages" 10
    (World [page_reply "<p>1</p>"; page_reply "<p>2</p>"; page_reply "<p>3</p>";
            page_reply "<p>4</p>"; denied_reply; "2"] [] [] ∅)
  = (Ok 4%Z,
     World ["2"]
       (map (page_request 7) [1; 2; 3; 4; 5]%Z)
       (map (progress_entry 10) [1; 2; 3; 4; 5]%Z
          ++ [stop_entry 5 (PermissionError (VStr "denied"))])
       (store_pages "book/pages" ∅
          [(1%Z, "<p>1</p>"); (2%Z, "<p>2</p>"); (3%Z, "<p>3</p>"); (4%Z, "<p>4</p>")])).
Proof.
  refine (proj1 (download_stops_at_denial json_loads_ref 7 "book/pages" 10
                   [page_reply "<p>1</p>"; page_reply "<p>2</p>"; page_reply "<p>3</p>";
                    page_reply "<p>4</p>"]
                   ["<p>1</p>"; "<p>2</p>"; "<p>3</p>"; "<p>4</p>"]
                   denied_reply (VStr "denied") ["2"] [] [] ∅ [] _ _ _ _)).
  - vm_compute. discriminate.
  - repeat constructor; try (vm_compute; discriminate).
  - vm_compute. discriminate.
  - vm_compute. reflexivity.
Defined.

(* ================================================================= *)
(** ** [sorted] *)

Section SortedFacts.
Context {A : Type} (key : A -> Z).

Lemma insert_sorted_perm (x : A) (l : list A) :
  insert_sorted Z.leb key x l ≡ₚ x :: l.
Proof.
  induction l as [|y l IH]; cbn [insert_sorted]; [reflexivity|].
  destruct (Z.leb (key x) (key y)); [reflexivity|].
  rewrite IH. apply Permutation_swap.
Qed.

Lemma py_sorted_perm (l : list A) : py_sorted Z.leb key l ≡ₚ l.
Proof.
  induction l as [|x l IH]; [reflexivity|].
  cbn [py_sorted foldr]. rewrite insert_sorted_perm. now constructor.
Qed.

Lemma insert_sorted_sorted (x : A) (l : list A) :
  StronglySorted (fun a b => (key a <= key b)%Z) l ->
  StronglySorted (fun a b => (key a <= key b)%Z) (insert_sorted Z.leb key x l).
Proof.
  induction 1 as [|y l Hs IH Hy]; cbn [insert_sorted].
  - repeat constructor.
  - destruct (Z.leb_spec (key x) (key y)) as [Hle|Hlt].
    + constructor; [now constructor|].
      constructor; [exact Hle|].
      eapply Forall_impl; [exact Hy|]. cbn. intros; lia.
    + constructor; [exact IH|].
      rewrite insert_sorted_perm. constructor; [lia | exact Hy].
Qed.

Lemma py_sorted_sorted (l : list A) :
  StronglySorted (fun a b => (key a <= key b)%Z) (py_sorted Z.leb key l).
Proof.
  induction l as [|x l IH]; [constructor|].
  cbn [py_sorted foldr]. now apply insert_sorted_sorted.
Qed.

(** Ascending keys without repetition ascend strictly. *)
Lemma sorted_nodup_strict (l : list A) :
  StronglySorted (fun a b => (key a <= key b)%Z) l ->
  NoDup (map key l) ->
  StronglySorted (fun a b => (key a < key b)%Z) l.
Proof.
  induction 1 as [|x l Hs IH Hx]; intros Hnd; [constructor|].
  cbn [map] in Hnd. apply NoDup_cons in Hnd as [Hnot Hnd].
  constructor; [auto|].
  apply Forall_forall. intros y Hy.
  pose proof (proj1 (Forall_forall _ _) Hx y Hy) as Hle. cbn in Hle.
  assert (key x <> key y); [|lia].
  intros E. apply Hnot. rewrite E. now apply list_elem_of_fmap_2.
Qed.
End SortedFacts.

Lemma all_some_spec {A} (l : list (option A)) (xs : list A) :
  all_some l = Some xs <-> l = map Some xs.
Proof.
  revert xs. induction l as [|[x|] l IH]; intros xs; cbn [all_some].
  - destruct xs; cbn; split; intros H; congruence.
  - destruct (all_some l) as [ys|] eqn:E.
    + split.
      * intros [= <-]. cbn. f_equal. now apply IH.
      * destruct xs as [|x' xs]; cbn; intros [= -> H]. apply IH in H. congruence.
    + split; [discriminate|].
      destruct xs as [|x' xs]; cbn; intros [= -> H]. apply IH in H. congruence.
  - split; [discriminate|]. destruct xs; cbn; discriminate.
Qed.

(** When every name yields a number and no number occurs twice, the
    sorted list is a rearrangement of the files in strictly ascending
    page order. *)
Lemma sort_html_files_spec (globbed : list string) (idxs : list Z) :
  map page_key globbed = map Some idxs ->
  NoDup idxs ->
  sort_html_files globbed ≡ₚ globbed
  /\ StronglySorted key_lt (sort_html_files globbed).
Proof.
  intros Hkeys Hnd. unfold sort_html_files.
  rewrite (proj2 (all_some_spec _ _) Hkeys).
  assert (Hlen : length idxs = length globbed).
  { apply (f_equal length) in Hkeys. rewrite !length_map in Hkeys. congruence. }
  set (P := py_sorted Z.leb fst (zip idxs globbed)).
  assert (HP : P ≡ₚ zip idxs globbed) by apply py_sorted_perm.
  assert (Hpair : forall i f, (i, f) ∈ P -> page_key f = Some i).
  { intros i f Hin. rewrite HP in Hin.
    apply list_elem_of_lookup in Hin as [n Hn].
    rewrite lookup_zip_with in Hn.
    destruct (idxs !! n) as [i'|] eqn:Ei; [|discriminate].
    destruct (globbed !! n) as [f'|] eqn:Ef; [|discriminate].
    cbn in Hn. injection Hn as -> ->.
    assert (H1 : map page_key globbed !! n = Some (page_key f))
      by (now rewrite list_lookup_fmap, Ef).
    rewrite Hkeys, list_lookup_fmap, Ei in H1. cbn in H1. congruence. }
  split.
  - change (map snd P) with (P.*2). rewrite HP. rewrite snd_zip by lia. reflexivity.
  - assert (Hs : StronglySorted (fun a b : Z * string => (fst a < fst b)%Z) P).
    { apply sorted_nodup_strict; [apply py_sorted_sorted|].
      change (map fst P) with (P.*1). rewrite HP, fst_zip by lia. exact Hnd. }
    clearbody P. clear HP.
    induction Hs as [|[i f] P Hs IH Hx]; cbn [map snd]; constructor.
    + apply IH. intros j g Hin. apply Hpair. now right.
    + apply Forall_forall. intros g Hg.
      apply list_elem_of_fmap in Hg as ([j g'] & -> & Hin).
      exists i, j. repeat split.
      * apply Hpair. left.
      * apply Hpair. now right.
      * exact (proj1 (Forall_forall _ _) Hx _ Hin).
Qed.

(* ================================================================= *)
(** ** Names of the rendered parts *)

Lemma prefix_empty (x : string) : String.prefix EmptyString x = true.
Proof. now destruct x. Qed.

Lemma prefix_slash_cons (c : ascii) (x y : string) :
  String.prefix "/" (String c x) = String.prefix "/" (String c y).
Proof.
  cbn [String.prefix]. destruct (ascii_dec "/" c); [|reflexivity].
  now rewrite !prefix_empty.
Qed.

Lemma contains_slash_app (a b : string) :
  str_contains "/" (a ++ b) = str_contains "/" a || str_contains "/" b.
Proof.
  induction a as [|c a IH]; [reflexivity|].
  rewrite str_app_cons. cbn [str_contains].
  now rewrite IH, (prefix_slash_cons c (a ++ b) a), orb_assoc.
Qed.

Lemma is_ch_false_slash (c : ascii) (x : string) :
  is_ch 47 c = false -> String.prefix "/" (String c x) = false.
Proof.
  intros H. cbn [String.prefix]. destruct (ascii_dec "/" c) as [<-|]; [|reflexivity].
  discriminate H.
Qed.

Lemma basename_from_no_slash (s : string) :
  forall cur, str_contains "/" cur = false ->
              str_contains "/" (basename_from cur s) = false.
Proof.
  induction s as [|c r IH]; intros cur Hcur; cbn [basename_from]; [exact Hcur|].
  destruct (is_ch 47 c) eqn:E.
  - now apply IH.
  - apply IH. rewrite contains_slash_app, Hcur. cbn [str_contains orb].
    now rewrite (is_ch_false_slash _ _ E).
Qed.

Lemma basename_no_slash (p : string) : str_contains "/" (basename p) = false.
Proof. now apply basename_from_no_slash. Qed.

Lemma cut_last_dot_no_slash (b : string) :
  forall root, cut_last_dot b = Some root ->
               str_contains "/" b = false -> str_contains "/" root = false.
Proof.
  induction b as [|c r IH]; intros root; cbn [cut_last_dot]; [discriminate|].
  destruct (cut_last_dot r) as [root'|].
  - intros [= <-] H. cbn [str_contains] in *.
    apply orb_false_iff in H as [Hp Hr].
    now rewrite (prefix_slash_cons c root' r), Hp, (IH _ eq_refl Hr).
  - destruct (is_ch 46 c); [|discriminate]. now intros [= <-] _.
Qed.

Lemma splitext_root_no_slash (b : string) :
  str_contains "/" b = false -> str_contains "/" (splitext_root b) = false.
Proof.
  intros H. unfold splitext_root.
  destruct (cut_last_dot b) as [root|] eqn:E; [|exact H].
  destruct (all_dots root); [exact H|]. exact (cut_last_dot_no_slash _ _ E H).
Qed.

Lemma no_slash_not_absolute (root : string) :
  str_contains "/" root = false -> String.prefix "/" (root ++ ".pdf") = false.
Proof.
  destruct root as [|c r]; [reflexivity|].
  cbn [str_contains]. intros H. apply orb_false_iff in H as [H _].
  now rewrite str_app_cons, (prefix_slash_cons c (r ++ ".pdf") r).
Qed.

Lemma path_join_inj (a b1 b2 : string) :
  String.prefix "/" b1 = false -> String.prefix "/" b2 = false ->
  path_join a b1 = path_join a b2 -> b1 = b2.
Proof.
  unfold path_join. intros -> ->.
  destruct (str_is_empty a || str_ends_with_slash a); intros H.
  - now apply str_app_inv_head in H.
  - now apply str_app_inv_head, str_app_inv_head in H.
Qed.

(** The collected piece only prefixes the first piece of the result. *)
Lemma split_from_cur (sep : string) (s : string) :
  forall cur,
    split_from sep 0 cur s
    = match split_from sep 0 EmptyString s with
      | x :: l => (cur ++ x) :: l
      | [] => []
      end.
Proof.
  induction s as [|c r IH]; intros cur; cbn [split_from].
  - now rewrite str_app_nil_r.
  - destruct (String.prefix sep (String c r)).
    + now rewrite str_app_nil_r.
    + rewrite (IH (cur ++ String c EmptyString)), (IH (EmptyString ++ String c EmptyString)).
      destruct (split_from sep 0 EmptyString r); [reflexivity|].
      now rewrite !str_app_assoc.
Qed.

Lemma prefix_dot_cons (c : ascii) (r : string) :
  String.prefix "." (String c r) = is_ch 46 c.
Proof.
  cbn [String.prefix]. unfold is_ch.
  destruct (ascii_dec "." c) as [<-|Hne].
  - now rewrite prefix_empty.
  - symmetry. apply Ascii.eqb_neq. intros E. apply Hne. now rewrite E.
Qed.

Lemma split_from_nonempty (sep : string) (s : string) :
  forall skip cur, split_from sep skip cur s <> [].
Proof.
  induction s as [|c r IH]; intros skip cur; cbn [split_from]; [discriminate|].
  destruct skip; [|apply IH].
  destruct (String.prefix sep (String c r)); [discriminate | apply IH].
Qed.

Lemma first_component_cons (c : ascii) (r : string) :
  first_component (String c r)
  = if is_ch 46 c then EmptyString else String c (first_component r).
Proof.
  unfold first_component, str_split. cbn [split_from].
  rewrite prefix_dot_cons. destruct (is_ch 46 c); [reflexivity|].
  rewrite split_from_cur.
  destruct (split_from "." 0 EmptyString r) eqn:E; [|reflexivity].
  now apply split_from_nonempty in E.
Qed.

Lemma first_component_root (b : string) :
  forall root, cut_last_dot b = Some root -> first_component root = first_component b.
Proof.
  induction b as [|c r IH]; intros root; cbn [cut_last_dot]; [discriminate|].
  destruct (cut_last_dot r) as [root'|].
  - intros [= <-]. rewrite !first_component_cons. now rewrite (IH _ eq_refl).
  - destruct (is_ch 46 c) eqn:E; [|discriminate].
    intros [= <-]. now rewrite first_component_cons, E.
Qed.

Lemma first_component_splitext (b : string) :
  first_component (splitext_root b) = first_component b.
Proof.
  unfold splitext_root. destruct (cut_last_dot b) as [root|] eqn:E; [|reflexivity].
  destruct (all_dots root); [reflexivity|]. now apply first_component_root.
Qed.

(** Two fragments rendered to the same part have the same page number. *)
Lemma pdf_path_of_key (temp_dir f g : string) :
  pdf_path_of temp_dir f = pdf_path_of temp_dir g -> page_key f = page_key g.
Proof.
  unfold pdf_path_of, page_key. intros H.
  apply path_join_inj in H;
    try (apply no_slash_not_absolute, splitext_root_no_slash, basename_no_slash).
  apply str_app_inv_tail in H.
  now rewrite <- (first_component_splitext (basename f)), H, first_component_splitext.
Qed.

(** With a number for every name and no number twice, the number tells
    the file. *)
Lemma page_key_inj_on (globbed : list string) (idxs : list Z) (f g : string) :
  map page_key globbed = map Some idxs -> NoDup idxs ->
  f ∈ globbed -> g ∈ globbed -> page_key f = page_key g -> f = g.
Proof.
  intros Hkeys Hnd Hf Hg E.
  apply list_elem_of_lookup in Hf as [a Ha]. apply list_elem_of_lookup in Hg as [b Hb].
  assert (Hka : map page_key globbed !! a = Some (page_key f))
    by (now rewrite list_lookup_fmap, Ha).
  assert (Hkb : map page_key globbed !! b = Some (page_key g))
    by (now rewrite list_lookup_fmap, Hb).
  rewrite Hkeys, list_lookup_fmap in Hka, Hkb.
  destruct (idxs !! a) as [i|] eqn:Ei; [|discriminate].
  destruct (idxs !! b) as [j|] eqn:Ej; [|discriminate].
  cbn in Hka, Hkb. assert (i = j) by congruence. subst j.
  assert (a = b) by (eapply NoDup_lookup; eauto). subst b. congruence.
Qed.

(* ================================================================= *)
(** ** Rendering and merging *)

Section PipelineFacts.

Variable bs4_lxml : string -> result soup.
Variables pdf_file page : Type.
Variable render : string -> list string -> result pdf_file.
Variable pdf_pages : pdf_file -> result (list page).
Variables temp_dir style fonts : string.

Implicit Types w : render_world pdf_file page.

Lemma render_file_texts w1 w2 (f : string) :
  r_texts w1 = r_texts w2 ->
  render_file render w1 f style fonts = render_file render w2 f style fonts.
Proof. unfold render_file. now intros ->. Qed.

Lemma rendered_part_texts w1 w2 (f : string) :
  r_texts w1 = r_texts w2 ->
  rendered_part render w1 temp_dir style fonts f
  = rendered_part render w2 temp_dir style fonts f.
Proof. unfold rendered_part. intros H. now rewrite (render_file_texts w1 w2 f H). Qed.

(** One render task: its result, and what it leaves on disk. *)
Lemma convert_single_page_spec (f : string) (total : nat) w r w' :
  convert_single_page render f temp_dir style fonts total w = (r, w') ->
  r = rendered_part render w temp_dir style fonts f
  /\ r_texts w' = r_texts w
  /\ r_outputs w' = r_outputs w
  /\ r_parts w'
     = match render_file render w f style fonts with
       | Ok doc => <[pdf_path_of temp_dir f := doc]> (r_parts w)
       | Raise _ => r_parts w
       end.
Proof.
  unfold convert_single_page, rendered_part.
  destruct (render_file render w f style fonts); intros [= <- <-]; auto.
Qed.

Section Tasks.
Variables (tasks : list string) (total : nat).

Lemma run_tasks_frame (order : list nat) :
  forall slots w slots' w',
    run_tasks render tasks temp_dir style fonts total order slots w = (slots', w') ->
    r_texts w' = r_texts w /\ r_outputs w' = r_outputs w.
Proof.
  induction order as [|i order IH]; intros slots w slots' w'; cbn [run_tasks].
  - now intros [= <- <-].
  - destruct (tasks !! i) as [t|]; [|apply IH].
    destruct (convert_single_page render t temp_dir style fonts total w)
      as [r w1] eqn:Ec.
    apply convert_single_page_spec in Ec as (_ & Ht & Ho & _).
    intros H. apply IH in H as [H1 H2]. split; congruence.
Qed.

(** The slot of a task holds its result once the task has finished. *)
Lemma run_tasks_slots (order : list nat) :
  forall slots w slots' w',
    run_tasks render tasks temp_dir style fonts total order slots w = (slots', w') ->
    length slots = length tasks ->
    length slots' = length tasks
    /\ forall i t,
         tasks !! i = Some t ->
         slots' !! i
         = if decide (i ∈ order)
           then Some (rendered_part render w temp_dir style fonts t)
           else slots !! i.
Proof.
  induction order as [|i0 order IH]; intros slots w slots' w'; cbn [run_tasks].
  - intros [= <- <-] Hlen. split; [exact Hlen|]. intros i t _.
    destruct (decide (i ∈ [])) as [H|]; [inversion H | reflexivity].
  - destruct (tasks !! i0) as [t0|] eqn:E0.
    + destruct (convert_single_page render t0 temp_dir style fonts total w)
        as [r w1] eqn:Ec.
      apply convert_single_page_spec in Ec as (-> & Ht & _ & _).
      intros H Hlen. apply IH in H as [Hl Hs]; [|now rewrite length_insert].
      split; [exact Hl|]. intros i t Hi. rewrite (Hs i t Hi).
      rewrite (rendered_part_texts w1 w t Ht).
      destruct (decide (i ∈ order)) as [Hin|Hnin].
      * rewrite decide_True; [reflexivity | now right].
      * destruct (decide (i = i0)) as [->|Hne].
        -- rewrite decide_True by left.
           rewrite list_lookup_insert_eq; [congruence|].
           rewrite Hlen. apply lookup_lt_is_Some. eauto.
        -- rewrite list_lookup_insert_ne by congruence.
           rewrite decide_False; [reflexivity|].
           intros Hc. apply elem_of_cons in Hc as [?|?]; contradiction.
    + intros H Hlen. apply IH in H as [Hl Hs]; [|exact Hlen].
      split; [exact Hl|]. intros i t Hi. rewrite (Hs i t Hi).
      destruct (decide (i ∈ order)) as [Hin|Hnin].
      * rewrite decide_True; [reflexivity | now right].
      * rewrite decide_False; [reflexivity|].
        intros Hc. apply elem_of_cons in Hc as [->|?]; [congruence | contradiction].
Qed.

(** A path among the parts is either as it was, no finished task
    having written it, or holds the document of such a task. *)
Lemma run_tasks_parts (order : list nat) :
  forall slots w slots' w',
    run_tasks render tasks temp_dir style fonts total order slots w = (slots', w') ->
    forall p,
      (r_parts w' !! p = r_parts w !! p
       /\ forall i t doc,
            i ∈ order -> tasks !! i = Some t -> pdf_path_of temp_dir t = p ->
            render_file render w t style fonts = Ok doc -> False)
      \/ (exists i t doc,
            i ∈ order /\ tasks !! i = Some t /\ pdf_path_of temp_dir t = p
            /\ render_file render w t style fonts = Ok doc
            /\ r_parts w' !! p = Some doc).
Proof.
  induction order as [|i0 order IH]; intros slots w slots' w'; cbn [run_tasks].
  - intros [= <- <-] p. left. split; [reflexivity|].
    intros i t doc H. inversion H.
  - destruct (tasks !! i0) as [t0|] eqn:E0.
    + destruct (convert_single_page render t0 temp_dir style fonts total w)
        as [r w1] eqn:Ec.
      apply convert_single_page_spec in Ec as (_ & Ht & _ & Hp).
      intros H p. destruct (IH _ _ _ _ H p) as [[Hsame Hnone]|Hsome].
      * destruct (render_file render w t0 style fonts) as [doc0|e0] eqn:Er.
        -- destruct (decide (pdf_path_of temp_dir t0 = p)) as [Hp0|Hp0].
           ++ right. exists i0, t0, doc0. repeat split; auto; [left|].
              rewrite Hsame, Hp, <- Hp0. apply lookup_insert_eq.
           ++ left. split.
              ** rewrite Hsame, Hp. now apply lookup_insert_ne.
              ** intros i t doc Hin Hi Hpt Hr.
                 apply elem_of_cons in Hin as [->|Hin]; [congruence|].
                 apply (Hnone i t doc Hin Hi Hpt).
                 now rewrite (render_file_texts w1 w t Ht).
        -- left. split; [congruence|].
           intros i t doc Hin Hi Hpt Hr.
           apply elem_of_cons in Hin as [->|Hin]; [congruence|].
           apply (Hnone i t doc Hin Hi Hpt).
           now rewrite (render_file_texts w1 w t Ht).
      * right. destruct Hsome as (i & t & doc & Hin & Hi & Hpt & Hr & Hl).
        exists i, t, doc. repeat split; auto; [now right|].
        now rewrite <- (render_file_texts w1 w t Ht).
    + intros H p. destruct (IH _ _ _ _ H p) as [[Hsame Hnone]|Hsome].
      * left. split; [exact Hsame|].
        intros i t doc Hin Hi. apply elem_of_cons in Hin as [->|Hin]; [congruence|].
        now apply (Hnone i t doc).
      * right. destruct Hsome as (i & t & doc & Hin & Hrest).
        exists i, t, doc. split; [now right | exact Hrest].
Qed.

End Tasks.

(** [asyncio.gather]: whatever the order of completion, the results
    come in task order and every rendered document is on disk. *)
Lemma gather_spec (tasks : list string) (order : list nat) w slots' w' :
  order ≡ₚ seq 0 (length tasks) ->
  (forall t t', t ∈ tasks -> t' ∈ tasks ->
                pdf_path_of temp_dir t = pdf_path_of temp_dir t' -> t = t') ->
  gather render tasks temp_dir style fonts order w = (slots', w') ->
  slots' = map (rendered_part render w temp_dir style fonts) tasks
  /\ r_texts w' = r_texts w
  /\ r_outputs w' = r_outputs w
  /\ forall t doc,
       t ∈ tasks -> render_file render w t style fonts = Ok doc ->
       r_parts w' !! pdf_path_of temp_dir t = Some doc.
Proof.
  intros Hperm Hinj Hg. unfold gather in Hg.
  pose proof (run_tasks_frame _ _ _ _ _ _ _ Hg) as [Ht Ho].
  pose proof (run_tasks_slots _ _ _ _ _ _ _ Hg (length_replicate _ _)) as [Hl Hs].
  pose proof (run_tasks_parts _ _ _ _ _ _ _ Hg) as Hp.
  assert (Hall : forall i, (i < length tasks)%nat -> i ∈ order).
  { intros i Hi. rewrite Hperm. apply elem_of_seq. lia. }
  repeat split; auto.
  - apply list_eq. intros i. rewrite list_lookup_fmap.
    destruct (tasks !! i) as [t|] eqn:Ei.
    + rewrite (Hs i t Ei), decide_True; [reflexivity|].
      apply Hall, lookup_lt_is_Some. eauto.
    + cbn. apply lookup_ge_None. rewrite Hl. now apply lookup_ge_None.
  - intros t doc Hin Hr. apply list_elem_of_lookup in Hin as [i Hi].
    destruct (Hp (pdf_path_of temp_dir t)) as [[_ Hnone]|Hsome].
    + exfalso. apply (Hnone i t doc); auto.
      apply Hall, lookup_lt_is_Some. eauto.
    + destruct Hsome as (j & t' & doc' & _ & Hj & Hpt & Hr' & Hl').
      assert (t' = t).
      { apply Hinj; auto; eapply list_elem_of_lookup_2; eauto. }
      subst t'. congruence.
Qed.

Lemma part_page_emit (e : log_entry) w (p : string) :
  part_page pdf_pages (emit e w) p = part_page pdf_pages w p.
Proof. reflexivity. Qed.

(** The merge loop appends the first page of every part it can read. *)
Lemma merge_loop_spec (pdf_parts : list string) :
  forall merger w,
    fst (merge_loop pdf_pages pdf_parts merger w)
    = (merger ++ omap (part_page pdf_pages w) pdf_parts)%list
    /\ r_texts (snd (merge_loop pdf_pages pdf_parts merger w)) = r_texts w
    /\ r_parts (snd (merge_loop pdf_pages pdf_parts merger w)) = r_parts w
    /\ r_outputs (snd (merge_loop pdf_pages pdf_parts merger w)) = r_outputs w.
Proof.
  induction pdf_parts as [|p pdf_parts IH]; intros merger w; cbn [merge_loop]; csimpl.
  - now rewrite app_nil_r.
  - unfold part_page at 1. destruct (first_page pdf_pages w p) as [pg|e] eqn:E.
    + destruct (IH (merger ++ [pg])%list w) as (-> & H2 & H3 & H4).
      rewrite <- app_assoc. auto.
    + destruct (IH merger (emit (Printed [Text "Warning: Could not merge "; Text p;
                                          Text ": "; StrOfExn e]) w))
        as (-> & H2 & H3 & H4).
      repeat split; auto.
Qed.

(** [merge_pdfs] writes the output only when there is a part. *)
Lemma merge_pdfs_outputs (pdf_parts : list string) (output : string) w :
  r_outputs (merge_pdfs pdf_pages pdf_parts output w)
  = match pdf_parts with
    | [] => r_outputs w
    | _ :: _ => <[output := omap (part_page pdf_pages w) pdf_parts]> (r_outputs w)
    end.
Proof.
  unfold merge_pdfs. destruct pdf_parts as [|p l]; [reflexivity|].
  cbn [list_is_empty].
  set (w1 := emit _ w).
  destruct (merge_loop_spec (p :: l) [] w1) as (Hm & _ & _ & Ho).
  destruct (merge_loop pdf_pages (p :: l) [] w1) as [merger w2].
  cbn [fst snd] in *. subst merger. cbn [emit write_output r_outputs].
  now rewrite Ho.
Qed.

End PipelineFacts.

(* ================================================================= *)
(** ** The merged document *)

Lemma Forall2_filter_omap {A B} (g : A -> option B) (l : list A) :
  Forall2 (fun a b => g a = Some b) (filter (fun a => is_Some (g a)) l) (omap g l).
Proof.
  induction l as [|a l IH]; [constructor|].
  csimpl.
  destruct (g a) as [b|] eqn:E.
  - rewrite filter_cons_True by (rewrite E; eauto). now constructor.
  - rewrite filter_cons_False; [exact IH|]. rewrite E. now intros [? ?].
Qed.

Lemma StronglySorted_filter_keep {A} (R : A -> A -> Prop) (P : A -> Prop)
    `{forall x, Decision (P x)} (l : list A) :
  StronglySorted R l -> StronglySorted R (filter P l).
Proof.
  induction 1 as [|x l Hs IH Hx]; [constructor|].
  rewrite filter_cons. destruct (decide (P x)); [|exact IH].
  constructor; [exact IH|].
  apply Forall_forall. intros y Hy. apply list_elem_of_filter in Hy as [_ Hy].
  exact (proj1 (Forall_forall _ _) Hx y Hy).
Qed.

Lemma key_lt_irrefl (f : string) : ~ key_lt f f.
Proof. intros (i & j & Hi & Hj & Hlt). rewrite Hi in Hj. injection Hj as <-. lia. Qed.

Lemma sorted_key_lt_NoDup (l : list string) : StronglySorted key_lt l -> NoDup l.
Proof.
  induction 1 as [|x l Hs IH Hx]; constructor; [|exact IH].
  intros Hin. exact (key_lt_irrefl x (proj1 (Forall_forall _ _) Hx x Hin)).
Qed.

Section MergedDocument.

Variable bs4_lxml : string -> result soup.
Variables pdf_file page : Type.
Variable render : string -> list string -> result pdf_file.
Variable pdf_pages : pdf_file -> result (list page).

Implicit Types w : render_world pdf_file page.

(** C8. Given no part, [merge_pdfs] prints that there is nothing to
    merge and returns: no output is written under any path, the parts
    and the text files are as before. *)
Theorem merge_pdfs_empty_is_reported_noop (output_path : string) w :
  let w' := merge_pdfs pdf_pages [] output_path w in
  r_log w' = (r_log w ++ [Printed [Text "No PDF parts were created. Aborting merge."]])%list
  /\ r_outputs w' = r_outputs w
  /\ r_outputs w' !! output_path = r_outputs w !! output_path
  /\ r_parts w' = r_parts w
  /\ r_texts w' = r_texts w.
Proof. cbv [merge_pdfs list_is_empty emit r_log r_outputs r_parts r_texts]. auto. Qed.

Lemma valid_html_files_filter (fs : gmap string string) (l : list string) :
  valid_html_files bs4_lxml fs l
  = filter (fun f => is_html_empty bs4_lxml fs f = false) l.
Proof.
  unfold valid_html_files.
  induction l as [|f l IH]; [reflexivity|].
  csimpl. rewrite filter_cons.
  destruct (is_html_empty bs4_lxml fs f) eqn:E.
  - rewrite decide_False by discriminate. exact IH.
  - rewrite decide_True by reflexivity. f_equal. exact IH.
Qed.

Variables temp_dir style fonts : string.

(** Reading the parts back gives, fragment by fragment, the first page
    of the document rendered for it. *)
Lemma pages_of_parts (w0 w4 : render_world pdf_file page) (l : list string) :
  (forall t doc, t ∈ l -> render_file render w0 t style fonts = Ok doc ->
                 r_parts w4 !! pdf_path_of temp_dir t = Some doc) ->
  omap (part_page pdf_pages w4)
    (omap (fun r => r) (map (rendered_part render w0 temp_dir style fonts) l))
  = omap (fun t =>
            match render_file render w0 t style fonts with
            | Raise _ => None
            | Ok doc =>
                match pdf_pages doc with
                | Ok (pg :: _) => Some pg
                | _ => None
                end
            end) l.
Proof.
  induction l as [|t l IH]; intros H; [reflexivity|].
  csimpl.
  assert (IH' := IH (fun t' doc Hin => H t' doc (proj2 (elem_of_cons _ _ _) (or_intror Hin)))).
  unfold rendered_part at 1.
  destruct (render_file render w0 t style fonts) as [doc|e] eqn:Er; [|exact IH'].
  csimpl. rewrite IH'. unfold part_page at 1, first_page.
  rewrite (H t doc (proj2 (elem_of_cons _ _ _) (or_introl eq_refl)) Er).
  destruct (pdf_pages doc) as [[|pg pgs]|e]; reflexivity.
Qed.

Lemma no_parts_iff (w0 : render_world pdf_file page) (l : list string) :
  omap (fun r => r) (map (rendered_part render w0 temp_dir style fonts) l) = []
  <-> forall t, t ∈ l -> is_ok (render_file render w0 t style fonts) = false.
Proof.
  induction l as [|t l IH]; csimpl.
  - split; [intros _ t H; inversion H | reflexivity].
  - unfold rendered_part at 1.
    destruct (render_file render w0 t style fonts) as [doc|e] eqn:Er.
    + split; [discriminate|]. intros H.
      specialize (H t (proj2 (elem_of_cons _ _ _) (or_introl eq_refl))).
      rewrite Er in H. discriminate H.
    + rewrite IH. split.
      * intros H t' Ht'. apply elem_of_cons in Ht' as [->|Ht']; [now rewrite Er | auto].
      * intros H t' Ht'. apply H. now right.
Qed.

End MergedDocument.

Section MergedOutput.

Variable bs4_lxml : string -> result soup.
Variables pdf_file page : Type.
Variable render : string -> list string -> result pdf_file.
Variable pdf_pages : pdf_file -> result (list page).
Variables source_dir output_file style fonts : string.
Variable globbed : list string.
Variable idxs : list Z.
Variable w : render_world pdf_file page.

Hypothesis names_are_numbers : map page_key globbed = map Some idxs.
Hypothesis numbers_differ : NoDup idxs.

Let html_files := sort_html_files globbed.
Let valid := valid_html_files bs4_lxml (r_texts w) html_files.
Let contributes := fragment_page bs4_lxml render pdf_pages w style fonts.
Let rendered := fragment_rendered bs4_lxml render w style fonts.

(** What [perform_convert_pdf] leaves under the output paths. *)
Lemma perform_convert_pdf_outputs (order : list nat) :
  order ≡ₚ seq 0 (length valid) ->
  r_outputs (perform_convert_pdf bs4_lxml render pdf_pages source_dir output_file
               globbed style fonts order w)
  = if existsb rendered globbed
    then <[output_file := omap contributes html_files]> (r_outputs w)
    else r_outputs w.
Proof.
  intros Horder.
  destruct (sort_html_files_spec globbed idxs names_are_numbers numbers_differ)
    as [Hperm Hsorted].
  fold html_files in Hperm, Hsorted.
  unfold perform_convert_pdf.
  destruct (list_is_empty globbed) eqn:Eempty.
  { apply list_is_empty_nil in Eempty. rewrite Eempty. reflexivity. }
  cbn [emit r_texts r_parts r_outputs r_log].
  fold html_files. fold valid.
  set (temp_dir := path_join source_dir "temp_pdf_parts").
  set (w3 := RenderWorld (r_texts w) (r_parts w) (r_outputs w) 0 _).
  destruct (gather render valid temp_dir style fonts order w3) as [results w4] eqn:Eg.
  assert (Hvalid : valid = filter (fun f => is_html_empty bs4_lxml (r_texts w) f = false)
                             html_files) by apply valid_html_files_filter.
  assert (Hsub : forall t, t ∈ valid -> t ∈ globbed).
  { intros t Ht. rewrite Hvalid in Ht. apply list_elem_of_filter in Ht as [_ Ht].
    now rewrite <- Hperm. }
  apply gather_spec in Eg as (-> & Ht4 & Ho4 & Hparts); [|exact Horder|].
  2:{ intros t t' Ht Ht' E. apply pdf_path_of_key in E.
      eapply page_key_inj_on; eauto. }
  assert (Hrf : forall t, render_file render w3 t style fonts
                          = render_file render w t style fonts)
    by (intros t; now apply render_file_texts).
  assert (Hrp : map (rendered_part render w3 temp_dir style fonts) valid
                = map (rendered_part render w temp_dir style fonts) valid).
  { apply map_ext. intros t. now apply rendered_part_texts. }
  rewrite Hrp in *.
  set (pdf_parts := omap (fun r => r) (map (rendered_part render w temp_dir style fonts) valid)).
  cbn [remove_parts r_outputs]. rewrite merge_pdfs_outputs, Ho4.
  change (r_outputs w3) with (r_outputs w).
  assert (Hnone : pdf_parts = [] <-> forall f, f ∈ globbed -> rendered f = false).
  { unfold pdf_parts. rewrite no_parts_iff. subst rendered. unfold fragment_rendered. split.
    - intros H f Hf. destruct (is_html_empty bs4_lxml (r_texts w) f) eqn:E; [reflexivity|].
      cbn [negb andb]. apply H. rewrite Hvalid. apply list_elem_of_filter.
      split; [exact E | now rewrite Hperm].
    - intros H t Ht. pose proof (H t (Hsub t Ht)) as Hr.
      rewrite Hvalid in Ht. apply list_elem_of_filter in Ht as [E _].
      now rewrite E in Hr. }
  assert (Hpages : omap (part_page pdf_pages w4) pdf_parts = omap contributes html_files).
  { unfold pdf_parts. rewrite (pages_of_parts _ _ render pdf_pages temp_dir style fonts w w4).
    - rewrite Hvalid. subst contributes. unfold fragment_page.
      generalize html_files as l. clear.
      induction l as [|f l IH]; [reflexivity|].
      rewrite filter_cons. csimpl.
      destruct (is_html_empty bs4_lxml (r_texts w) f) eqn:E.
      + rewrite decide_False by discriminate. exact IH.
      + rewrite decide_True by reflexivity. csimpl. now rewrite IH.
    - intros t doc Ht Hr. apply Hparts; [exact Ht | now rewrite Hrf]. }
  destruct pdf_parts as [|p ps] eqn:Ep.
  - destruct (existsb rendered globbed) eqn:Ex; [|reflexivity].
    apply existsb_exists in Ex as (f & Hf & Hr). apply list_elem_of_In in Hf.
    rewrite (proj1 Hnone eq_refl f Hf) in Hr. discriminate.
  - destruct (existsb rendered globbed) eqn:Ex; [now rewrite Hpages|].
    assert (Hnil : p :: ps = []); [|discriminate Hnil].
    apply Hnone. intros f Hf. destruct (rendered f) eqn:E; [|reflexivity].
    assert (Ht : existsb rendered globbed = true); [|congruence].
    apply existsb_exists. exists f. split; [now apply list_elem_of_In | exact E].
Qed.

End MergedOutput.

(** C4, as stated, fails: fragment 2 of the sample is not empty and is
    rendered, yet it is missing from the merged document, because pypdf
    could not read its part and [merge_pdfs] went on without it. *)
Lemma merged_output_misses_unreadable_part :
  is_html_empty text_lxml (r_texts sample_world) "book/pages/2.html" = false
  /\ render_file sample_render sample_world "book/pages/2.html" "s" "f" = Ok "two"
  /\ r_outputs sample_converted !! "out.pdf" = Some ["one"; "ten"].
Proof. vm_compute. auto. Qed.

(** C4, amended.  For fragments whose names give distinct page numbers,
    in whatever order [glob] lists them and in whatever order the render
    tasks finish: the merged document holds exactly the fragments that
    are not empty, whose rendering succeeded and from whose part pypdf
    could take the first page, in strictly ascending page order, none of
    them twice, each with one page, the first of its rendered document.
    When no fragment is rendered, nothing is written. *)
Theorem merged_output_in_page_order (bs4_lxml : string -> result soup)
    (pdf_file page : Type) (render : string -> list string -> result pdf_file)
    (pdf_pages : pdf_file -> result (list page))
    (source_dir output_file style fonts : string)
    (globbed : list string) (idxs : list Z) (order : list nat)
    (w : render_world pdf_file page) :
  map page_key globbed = map Some idxs ->
  NoDup idxs ->
  order ≡ₚ seq 0 (length (valid_html_files bs4_lxml (r_texts w) (sort_html_files globbed))) ->
  let w' := perform_convert_pdf bs4_lxml render pdf_pages source_dir output_file
              globbed style fonts order w in
  let contributes := fragment_page bs4_lxml render pdf_pages w style fonts in
  let rendered := fragment_rendered bs4_lxml render w style fonts in
  exists merged : list string,
    (forall f, f ∈ merged <-> f ∈ globbed /\ is_Some (contributes f))
    /\ StronglySorted key_lt merged
    /\ NoDup merged
    /\ ((exists f, f ∈ globbed /\ rendered f = true) ->
        exists pages,
          r_outputs w' !! output_file = Some pages
          /\ Forall2 (fun f pg => contributes f = Some pg) merged pages)
    /\ ((forall f, f ∈ globbed -> rendered f = false) -> r_outputs w' = r_outputs w).
Proof.
  intros Hkeys Hnd Horder w' contributes rendered.
  destruct (sort_html_files_spec globbed idxs Hkeys Hnd) as [Hperm Hsorted].
  pose proof (perform_convert_pdf_outputs bs4_lxml pdf_file page render pdf_pages
                source_dir output_file style fonts globbed idxs w Hkeys Hnd order Horder)
    as Hout.
  fold w' contributes rendered in Hout.
  exists (filter (fun f => is_Some (contributes f)) (sort_html_files globbed)).
  assert (Hs : StronglySorted key_lt
                 (filter (fun f => is_Some (contributes f)) (sort_html_files globbed)))
    by now apply StronglySorted_filter_keep.
  split; [|split; [|split; [|split]]].
  - intros f. rewrite list_elem_of_filter, Hperm. tauto.
  - exact Hs.
  - now apply sorted_key_lt_NoDup.
  - intros (f & Hf & Hr). rewrite Hout.
    replace (existsb rendered globbed) with true.
    + eexists. split; [apply lookup_insert_eq | apply Forall2_filter_omap].
    + symmetry. apply existsb_exists. exists f. split; [now apply list_elem_of_In | exact Hr].
  - intros Hno. rewrite Hout.
    destruct (existsb rendered globbed) eqn:Ex; [|reflexivity].
    apply existsb_exists in Ex as (f & Hf & Hr). apply list_elem_of_In in Hf.
    rewrite (Hno f Hf) in Hr. discriminate.
Qed.

(** Concrete scenario 4 on the sample: the merged document has the first
    pages of fragments 1 and 10, in this order. *)
Lemma merged_output_in_page_order_witness :
  exists merged : list string,
    (forall f, f ∈ merged
               <-> f ∈ sample_glob
                   /\ is_Some (fragment_page text_lxml sample_render sample_pdf_pages
                                 sample_world "s" "f" f))
    /\ StronglySorted key_lt merged
    /\ NoDup merged
    /\ ((exists f, f ∈ sample_glob
                   /\ fragment_rendered text_lxml sample_render sample_world "s" "f" f = true) ->
        exists pages,
          r_outputs sample_converted !! "out.pdf" = Some pages
          /\ Forall2 (fun f pg => fragment_page text_lxml sample_render sample_pdf_pages
                                    sample_world "s" "f" f = Some pg) merged pages)
    /\ ((forall f, f ∈ sample_glob ->
                   fragment_rendered text_lxml sample_render sample_world "s" "f" f = false) ->
        r_outputs sample_converted = r_outputs sample_world).
Proof.
  apply (merged_output_in_page_order text_lxml string string sample_render sample_pdf_pages
           "book" "out.pdf" "s" "f" sample_glob [10; 3; 1; 4; 2]%Z [2; 0; 3; 1]%nat
           sample_world).
  - vm_compute. reflexivity.
  - apply (bool_decide_unpack (NoDup _)). vm_compute. exact I.
  - apply (bool_decide_unpack (_ ≡ₚ _)). vm_compute. exact I.
Defined.

(** The order in which the render tasks finish does not show in the
    merged document. *)
Lemma merged_output_order_irrelevant (bs4_lxml : string -> result soup)
    (pdf_file page : Type) (render : string -> list string -> result pdf_file)
    (pdf_pages : pdf_file -> result (list page))
    (source_dir output_file style fonts : string)
    (globbed : list string) (idxs : list Z) (order1 order2 : list nat)
    (w : render_world pdf_file page) :
  map page_key globbed = map Some idxs ->
  NoDup idxs ->
  order1 ≡ₚ seq 0 (length (valid_html_files bs4_lxml (r_texts w) (sort_html_files globbed))) ->
  order2 ≡ₚ order1 ->
  r_outputs (perform_convert_pdf bs4_lxml render pdf_pages source_dir output_file
               globbed style fonts order1 w)
  = r_outputs (perform_convert_pdf bs4_lxml render pdf_pages source_dir output_file
                 globbed style fonts order2 w).
Proof.
  intros Hkeys Hnd H1 H2.
  rewrite !(perform_convert_pdf_outputs bs4_lxml pdf_file page render pdf_pages
              source_dir output_file style fonts globbed idxs w Hkeys Hnd);
    [reflexivity | now rewrite H2 | exact H1].
Qed.

Lemma all_some_options {A} (l : list (option A)) (xs : list A) :
  l ≡ₚ map Some xs -> exists xs', l = map Some xs' /\ xs' ≡ₚ xs.
Proof.
  intros H. exists (omap (fun o => o) l). split.
  - assert (Hall : Forall (fun o => is_Some o) l).
    { rewrite H. apply Forall_forall. intros o Ho.
      apply list_elem_of_fmap in Ho as (x & -> & _). eauto. }
    clear H. induction Hall as [|o l [x ->] _ IH]; [reflexivity|].
    csimpl. now rewrite <- IH.
  - rewrite H. clear. induction xs as [|x xs IH]; [reflexivity|].
    csimpl. now rewrite IH.
Qed.

(** Nor does the order in which [glob] lists the files. *)
Lemma sort_html_files_glob_order (globbed globbed' : list string) (idxs : list Z) :
  map page_key globbed = map Some idxs ->
  NoDup idxs ->
  globbed' ≡ₚ globbed ->
  sort_html_files globbed' = sort_html_files globbed.
Proof.
  intros Hkeys Hnd Hperm.
  destruct (all_some_options (map page_key globbed') idxs) as (idxs' & Hkeys' & Hp').
  { now rewrite Hperm, Hkeys. }
  assert (Hnd' : NoDup idxs') by now rewrite Hp'.
  destruct (sort_html_files_spec globbed idxs Hkeys Hnd) as [P1 S1].
  destruct (sort_html_files_spec globbed' idxs' Hkeys' Hnd') as [P2 S2].
  apply (StronglySorted_unique_strong key_lt); auto.
  - intros f g _ _ (i & j & Hi & Hj & Hlt) (j' & i' & Hj' & Hi' & Hlt').
    rewrite Hi in Hi'. rewrite Hj in Hj'. injection Hi' as <-. injection Hj' as <-. lia.
  - now rewrite P1, P2.
Qed.

(* ================================================================= *)
(** * Further properties of the client *)

(** [_hello] needs three frames: with fewer it ends with the exception
    of the closed connection, having drained the queue; the probe is out
    in any case, the upgrade and the namespace join once the probe was
    answered. *)
Theorem hello_connection_closed (w : world) :
  length (inbound w) < 3 ->
  exists w',
    hello w = (Raise ConnectionClosed, w')
    /\ inbound w' = []
    /\ files w' = files w
    /\ sent w' = (sent w ++ match inbound w with
                            | [] => ["2probe"]
                            | _ :: _ => ["2probe"; "5"; "40/books,"]
                            end)%list.
Proof.
  destruct w as [inb s l f]. cbn [inbound sent files]. intros Hlen.
  destruct inb as [|m1 [|m2 [|m3 rest]]]; cbn [length] in Hlen; try lia;
    unfold hello;
    cbv [bind ws_send ws_recv when log ret negb inbound sent logs files].
  - eexists. repeat split; reflexivity.
  - destruct (String.eqb m1 "3probe");
      cbv [bind ws_send ws_recv when log ret negb inbound sent logs files];
      eexists; (split; [reflexivity|]); cbn [inbound sent files];
      rewrite <- !app_assoc; auto.
  - destruct (String.eqb m1 "3probe");
      cbv [bind ws_send ws_recv when log ret negb inbound sent logs files];
      destruct (String.prefix "40/books," m2);
      cbv [bind ws_send ws_recv when log ret negb inbound sent logs files];
      eexists; (split; [reflexivity|]); cbn [inbound sent files];
      rewrite <- !app_assoc; auto.
Qed.

Lemma hello_connection_closed_witness :
  exists w',
    hello (World ["3probe"; "40/books,"] [] [] ∅) = (Raise ConnectionClosed, w')
    /\ inbound w' = []
    /\ files w' = ∅
    /\ sent w' = ["2probe"; "5"; "40/books,"].
Proof.
  apply (hello_connection_closed (World ["3probe"; "40/books,"] [] [] ∅)).
  cbn. lia.
Defined.

Lemma handle_recv_loop_outcome (queue : list string) :
  forall pongs,
  exists n,
    snd (handle_recv_loop queue pongs) = (pongs ++ replicate n "3")%list
    /\ match fst (fst (handle_recv_loop queue pongs)) with
       | Ok msg =>
           msg <> "2"
           /\ queue = (replicate n "2" ++ msg :: snd (fst (handle_recv_loop queue pongs)))%list
       | Raise e =>
           e = ConnectionClosed /\ queue = replicate n "2"
           /\ snd (fst (handle_recv_loop queue pongs)) = []
       end.
Proof.
  induction queue as [|msg rest IH]; intros pongs; cbn [handle_recv_loop].
  - exists 0. cbn. now rewrite app_nil_r.
  - destruct (String.eqb_spec msg "2") as [->|Hne].
    + destruct (IH (pongs ++ ["3"])%list) as (n & Hs & Hm). exists (S n).
      rewrite Hs, <- app_assoc. split; [reflexivity|].
      destruct (fst (fst (handle_recv_loop rest (pongs ++ ["3"])))) as [m|e].
      * destruct Hm as [Hm1 Hm2]. split; [exact Hm1|]. cbn [replicate app]. now f_equal.
      * destruct Hm as (-> & -> & ->). auto.
    + exists 0. cbn. now rewrite app_nil_r.
Qed.

Lemma handle_recv_result (w : world) :
  exists n,
    sent (snd (handle_recv w)) = (sent w ++ replicate n "3")%list
    /\ logs (snd (handle_recv w)) = logs w
    /\ files (snd (handle_recv w)) = files w
    /\ match fst (handle_recv w) with
       | Ok msg =>
           msg <> "2"
           /\ inbound w = (replicate n "2" ++ msg :: inbound (snd (handle_recv w)))%list
       | Raise e =>
           e = ConnectionClosed /\ inbound w = replicate n "2"
           /\ inbound (snd (handle_recv w)) = []
       end.
Proof.
  unfold handle_recv.
  destruct (handle_recv_loop_outcome (inbound w) []) as (n & Hs & Hm).
  destruct (handle_recv_loop (inbound w) []) as [[r rest] pongs].
  cbn [fst snd inbound sent logs files] in *. subst pongs. exists n. auto.
Qed.

(** [_handle_recv] never hands a ping to its caller.  Whatever the
    queue, it answers each leading [2] with one [3] and nothing else; it
    returns the first frame that is not a ping and leaves what follows
    unread, or, when the queue holds pings only, ends with the exception
    of the closed connection. *)
Theorem handle_recv_outcome (w : world) :
  exists n,
    sent (snd (handle_recv w)) = (sent w ++ replicate n "3")%list
    /\ logs (snd (handle_recv w)) = logs w
    /\ files (snd (handle_recv w)) = files w
    /\ match fst (handle_recv w) with
       | Ok msg =>
           msg <> "2"
           /\ inbound w = (replicate n "2" ++ msg :: inbound (snd (handle_recv w)))%list
       | Raise e =>
           e = ConnectionClosed /\ inbound w = replicate n "2"
           /\ inbound (snd (handle_recv w)) = []
       end.
Proof. apply handle_recv_result. Qed.

Lemma fetch_unfold {A} (request : string) (decode : string -> result A) (w : world) :
  (run! ws_send request in let! r := handle_recv in lift (decode r)) w
  = (match fst (handle_recv (World (inbound w) (sent w ++ [request]) (logs w) (files w))) with
     | Ok msg => decode msg
     | Raise e => Raise e
     end,
     snd (handle_recv (World (inbound w) (sent w ++ [request]) (logs w) (files w)))).
Proof.
  unfold bind, ws_send, lift.
  now destruct (handle_recv _) as [[msg|e] w2].
Qed.

(** A fetch sends its request once and, after it, only pongs; it writes
    no file and no log entry.  Its value is the decoding of the first
    frame that is not a ping, or the exception of the closed connection
    when there is no such frame. *)
Lemma fetch_outcome {A} (request : string) (decode : string -> result A) (w : world) :
  let res := (run! ws_send request in let! r := handle_recv in lift (decode r)) w in
  exists n,
    sent (snd res) = (sent w ++ request :: replicate n "3")%list
    /\ logs (snd res) = logs w
    /\ files (snd res) = files w
    /\ (fst res = Raise ConnectionClosed /\ inbound w = replicate n "2"
        \/ exists msg,
             msg <> "2" /\ fst res = decode msg
             /\ inbound w = (replicate n "2" ++ msg :: inbound (snd res))%list).
Proof.
  cbv zeta. rewrite fetch_unfold. cbn [fst snd].
  destruct (handle_recv_result (World (inbound w) (sent w ++ [request]) (logs w) (files w)))
    as (n & Hs & Hl & Hf & Hm).
  cbn [inbound sent logs files] in *. rewrite <- app_assoc in Hs.
  exists n. repeat (split; [assumption|]).
  destruct (fst (handle_recv _)) as [msg|e].
  - right. exists msg. destruct Hm. auto.
  - left. destruct Hm as (-> & Hq & _). auto.
Qed.

(** [get_page] sends its request once and, after it, only pongs; it
    writes no file and no log entry.  Its value is [decode_page] of the
    first frame that is not a ping, whatever that frame answers, or the
    exception of the closed connection when there is no such frame. *)
Theorem get_page_single_request (json_loads : string -> result value)
    (book_id page : Z) (w : world) :
  let res := get_page json_loads book_id page w in
  exists n,
    sent (snd res) = (sent w ++ page_request book_id page :: replicate n "3")%list
    /\ logs (snd res) = logs w
    /\ files (snd res) = files w
    /\ (fst res = Raise ConnectionClosed /\ inbound w = replicate n "2"
        \/ exists msg,
             msg <> "2" /\ fst res = decode_page json_loads msg
             /\ inbound w = (replicate n "2" ++ msg :: inbound (snd res))%list).
Proof. apply fetch_outcome. Qed.

(** A frame that does not contain the namespace prefix cannot be
    decoded: the page, style sheet and font fetch all fail with
    [IndexError], whatever [json.loads] would make of the frame. *)
Theorem decode_without_prefix (json_loads : string -> result value) (r : string) :
  str_contains NS_EVENT r = false ->
  decode_page json_loads r = Raise IndexError
  /\ decode_css json_loads r = Raise IndexError
  /\ decode_fonts json_loads r = Raise IndexError.
Proof.
  intros H.
  assert (E : decode_rpc json_loads r = Raise IndexError).
  { unfold decode_rpc, payload_tail, str_split. now rewrite (split_from_absent _ _ _ H). }
  unfold decode_fonts, decode_css, decode_page. now rewrite E.
Qed.

Lemma decode_without_prefix_witness :
  decode_page json_loads_ref "40/books," = Raise IndexError
  /\ decode_css json_loads_ref "40/books," = Raise IndexError
  /\ decode_fonts json_loads_ref "40/books," = Raise IndexError.
Proof. apply decode_without_prefix. reflexivity. Defined.

Lemma replace_from_absent (old new : string) (s : string) :
  str_contains old s = false -> replace_from old new 0 s = s.
Proof.
  induction s as [|c r IH]; [reflexivity|].
  cbn [str_contains replace_from]. intros H. apply orb_false_iff in H as [Hp Hr].
  now rewrite Hp, (IH Hr).
Qed.

Lemma prefix_length (p s : string) :
  String.prefix p s = true -> String.length p <= String.length s.
Proof.
  revert s. induction p as [|a p IH]; intros s H; [cbn; lia|].
  destruct s as [|b s]; [discriminate H|]. cbn [String.prefix] in H.
  destruct (ascii_dec a b); [|discriminate H].
  cbn [String.length]. specialize (IH s H). lia.
Qed.

Lemma replace_from_length (s : string) :
  forall skip,
    String.length (replace_from "; format" " format" skip s) + Nat.min skip (String.length s)
    <= String.length s.
Proof.
  induction s as [|c r IH]; intros skip; [cbn; lia|].
  cbn [replace_from String.length]. destruct skip as [|k].
  - destruct (String.prefix "; format" (String c r)) eqn:Hp.
    + apply prefix_length in Hp. rewrite str_length_app.
      specialize (IH (String.length "; format" - 1)).
      cbn [String.length] in *. lia.
    + cbn [String.length]. specialize (IH 0). lia.
  - specialize (IH k). lia.
Qed.

(** The repair of the font rules touches nothing but [; format]: a style
    sheet without that text comes back as it is, and no style sheet
    comes back longer. *)
Theorem fix_font_format_conservative (s : string) :
  (str_contains "; format" s = false -> fix_font_format (VStr s) = Ok (VStr s))
  /\ exists t, fix_font_format (VStr s) = Ok (VStr t) /\ String.length t <= String.length s.
Proof.
  cbn [fix_font_format]. unfold str_replace. split.
  - intros H. now rewrite replace_from_absent.
  - eexists. split; [reflexivity|].
    pose proof (replace_from_length s 0). lia.
Qed.

Lemma fix_font_format_conservative_witness :
  fix_font_format (VStr "@font-face{src:url(f.woff) format('woff')}")
  = Ok (VStr "@font-face{src:url(f.woff) format('woff')}").
Proof.
  apply (proj1 (fix_font_format_conservative "@font-face{src:url(f.woff) format('woff')}")).
  reflexivity.
Defined.

(* ================================================================= *)
(** * Further properties of the page loop *)

Lemma seqZ_snoc (a : Z) (n : nat) :
  seqZ a (Z.of_nat n + 1) = (seqZ a (Z.of_nat n) ++ [(a + Z.of_nat n)%Z])%list.
Proof.
  replace (Z.of_nat n + 1)%Z with (Z.of_nat (S n)) by lia. apply seqZ_S.
Qed.

Section DownloadLoopMore.

Variable json_loads : string -> result value.
Variables (book_id : Z) (pages_dir : string) (page_count : Z).

(** After the pages answered by [frames] the loop goes on with the next
    index, the frames taken, the requests sent and the files written. *)
Lemma download_loop_prefix (frames htmls : list string) :
  Forall2 (fun r h => r <> "2" /\ decode_page json_loads r = Ok (VStr h)) frames htmls ->
  forall (a n num : Z) (tail s : list string) (l : list log_entry) (f : gmap string string),
    (Z.of_nat (length frames) <= n)%Z ->
    let len := Z.of_nat (length frames) in
    download_loop json_loads book_id pages_dir page_count (seqZ a n) num
      (World (frames ++ tail) s l f)
    = download_loop json_loads book_id pages_dir page_count
        (seqZ (a + len) (n - len)) (num + len)
        (World tail
           (s ++ map (page_request book_id) (seqZ a len))
           (l ++ map (progress_entry page_count) (seqZ a len))
           (store_pages pages_dir f (zip (seqZ a len) htmls))).
Proof.
  induction 1 as [|r h frames htmls [Hr Hd] _ IH]; intros a n num tail s l f Hn len;
    subst len.
  - change (Z.of_nat (length (@nil string))) with 0%Z. cbn [app].
    rewrite (seqZ_nil a 0) by lia.
    cbn [map zip zip_with]. rewrite !app_nil_r, !Z.add_0_r, Z.sub_0_r. reflexivity.
  - cbn [length] in *. rewrite (seqZ_cons a n) by lia.
    cbn [download_loop app]. unfold bind at 1. cbn [log inbound sent logs files].
    rewrite (fetch_and_store_ok _ _ _ _ _ _ _ _ _ _ Hr Hd).
    rewrite IH by lia.
    rewrite (seqZ_cons a (Z.of_nat (S (length frames)))) by lia.
    replace (Z.pred (Z.of_nat (S (length frames)))) with (Z.of_nat (length frames)) by lia.
    replace (Z.succ a + Z.of_nat (length frames))%Z
      with (a + Z.of_nat (S (length frames)))%Z by lia.
    replace (Z.pred n - Z.of_nat (length frames))%Z
      with (n - Z.of_nat (S (length frames)))%Z by lia.
    replace (num + 1 + Z.of_nat (length frames))%Z
      with (num + Z.of_nat (S (length frames)))%Z by lia.
    cbn [map zip zip_with]. rewrite <- !app_assoc. reflexivity.
Qed.

(** An exception of the fetch other than [PermissionError] leaves the
    loop as it is raised. *)
Lemma download_loop_fatal (a n num : Z) (w w' : world) (e : exn) :
  (0 < n)%Z ->
  fetch_and_store json_loads book_id pages_dir a
    (World (inbound w) (sent w) (logs w ++ [progress_entry page_count a]) (files w))
  = (Raise e, w') ->
  (forall arg, e <> PermissionError arg) ->
  download_loop json_loads book_id pages_dir page_count (seqZ a n) num w = (Raise e, w').
Proof.
  intros Hn Hf He. rewrite (seqZ_cons a n) by lia.
  cbn [download_loop]. unfold bind at 1. cbn [log]. rewrite Hf.
  destruct e; try reflexivity. now destruct (He arg).
Qed.

End DownloadLoopMore.

(** When every page is fetched, the loop reports the full count: the
    [N] pages are in their files, the [N] requests were sent in page
    order and what follows the [N] replies is left unread. *)
Theorem download_all_pages (json_loads : string -> result value)
    (book_id : Z) (pages_dir : string) (frames htmls : list string)
    (rest s : list string) (l : list log_entry) (f : gmap string string) :
  Forall2 (fun r h => r <> "2" /\ decode_page json_loads r = Ok (VStr h)) frames htmls ->
  let N := Z.of_nat (length frames) in
  download_pages json_loads book_id pages_dir N (World (frames ++ rest) s l f)
  = (Ok N,
     World rest
       (s ++ map (page_request book_id) (seqZ 1 N))
       (l ++ map (progress_entry N) (seqZ 1 N))
       (store_pages pages_dir f (zip (seqZ 1 N) htmls))).
Proof.
  intros Hok N. unfold download_pages.
  rewrite (download_loop_prefix json_loads book_id pages_dir N frames htmls Hok)
    by (subst N; lia).
  fold N. rewrite Z.sub_diag, (seqZ_nil _ 0) by lia. reflexivity.
Qed.

Lemma download_all_pages_witness :
  download_pages json_loads_ref 7 "book/pages" 2
    (World [page_reply "<p>1</p>"; page_reply "<p>2</p>"] [] [] ∅)
  = (Ok 2%Z,
     World [] (map (page_request 7) [1; 2]%Z) (map (progress_entry 2) [1; 2]%Z)
       (store_pages "book/pages" ∅ [(1%Z, "<p>1</p>"); (2%Z, "<p>2</p>")])).
Proof.
  refine (download_all_pages json_loads_ref 7 "book/pages"
            [page_reply "<p>1</p>"; page_reply "<p>2</p>"] ["<p>1</p>"; "<p>2</p>"]
            [] [] [] ∅ _).
  repeat constructor; try (vm_compute; discriminate).
Defined.

(** A page count of zero or less asks for nothing: no request, no file,
    a count of zero. *)
Theorem download_no_pages (json_loads : string -> result value)
    (book_id : Z) (pages_dir : string) (N : Z) (w : world) :
  (N <= 0)%Z ->
  download_pages json_loads book_id pages_dir N w = (Ok 0%Z, w).
Proof. intros H. unfold download_pages. now rewrite seqZ_nil. Qed.

Lemma download_no_pages_witness :
  download_pages json_loads_ref 7 "book/pages" (-3)
    (World [page_reply "<p>1</p>"] [] [] ∅)
  = (Ok 0%Z, World [page_reply "<p>1</p>"] [] [] ∅).
Proof. apply download_no_pages. lia. Defined.

(** Only the authorization error ends the loop quietly.  When the reply
    to page [k] cannot be decoded, or decodes to an object without
    [html], the exception leaves [download_pages]; the files of pages
    [1..k-1] stay, the request for page [k] was the last one sent. *)
Theorem download_propagates_decode_error (json_loads : string -> result value)
    (book_id : Z) (pages_dir : string) (N : Z) (frames htmls : list string)
    (bad : string) (e : exn) (rest s : list string) (l : list log_entry)
    (f : gmap string string) :
  let k := (Z.of_nat (length frames) + 1)%Z in
  (k <= N)%Z ->
  Forall2 (fun r h => r <> "2" /\ decode_page json_loads r = Ok (VStr h)) frames htmls ->
  bad <> "2" ->
  decode_page json_loads bad = Raise e ->
  (forall arg, e <> PermissionError arg) ->
  download_pages json_loads book_id pages_dir N (World (frames ++ bad :: rest) s l f)
  = (Raise e,
     World rest
       (s ++ map (page_request book_id) (seqZ 1 k))
       (l ++ map (progress_entry N) (seqZ 1 k))
       (store_pages pages_dir f (zip (seqZ 1 (k - 1)) htmls))).
Proof.
  intros k Hk Hok Hbad Hd He. unfold download_pages.
  rewrite (download_loop_prefix json_loads book_id pages_dir N frames htmls Hok)
    by (subst k; lia).
  replace (k - 1)%Z with (Z.of_nat (length frames)) by (subst k; lia).
  erewrite download_loop_fatal; [| subst k; lia | | exact He].
  2:{ cbn [inbound sent logs files].
      apply (fetch_and_store_raise _ _ _ _ _ _ _ _ _ _ Hbad Hd). }
  subst k. rewrite (seqZ_snoc 1 (length frames)), !map_app, !app_assoc. reflexivity.
Qed.

Lemma download_propagates_decode_error_witness :
  download_pages json_loads_ref 7 "book/pages" 3
    (World [page_reply "<p>1</p>"; event_frame "page" "{}"; page_reply "<p>3</p>"] [] [] ∅)
  = (Raise KeyError,
     World [page_reply "<p>3</p>"] (map (page_request 7) [1; 2]%Z)
       (map (progress_entry 3) [1; 2]%Z)
       (store_pages "book/pages" ∅ [(1%Z, "<p>1</p>")])).
Proof.
  refine (download_propagates_decode_error json_loads_ref 7 "book/pages" 3
            [page_reply "<p>1</p>"] ["<p>1</p>"] (event_frame "page" "{}") KeyError
            [page_reply "<p>3</p>"] [] [] ∅ _ _ _ _ _).
  - vm_compute. discriminate.
  - repeat constructor; try (vm_compute; discriminate).
  - vm_compute. discriminate.
  - vm_compute. reflexivity.
  - discriminate.
Defined.

Lemma fetch_and_store_closed (json_loads : string -> result value)
    (book_id : Z) (pages_dir : string) (i : Z) (s : list string)
    (l : list log_entry) (f : gmap string string) :
  fetch_and_store json_loads book_id pages_dir i (World [] s l f)
  = (Raise ConnectionClosed, World [] (s ++ [page_request book_id i]) l f).
Proof.
  unfold fetch_and_store, get_page, bind, ws_send, handle_recv.
  cbn [inbound sent logs files handle_recv_loop]. now rewrite app_nil_r.
Qed.

(** When the connection closes after the replies to pages [1..k-1]
    while more pages are due, the loop ends with the exception of the
    closed connection: nothing is reported, the pages fetched so far
    stay in their files. *)
Theorem download_connection_closed (json_loads : string -> result value)
    (book_id : Z) (pages_dir : string) (N : Z) (frames htmls : list string)
    (s : list string) (l : list log_entry) (f : gmap string string) :
  let k := (Z.of_nat (length frames) + 1)%Z in
  (k <= N)%Z ->
  Forall2 (fun r h => r <> "2" /\ decode_page json_loads r = Ok (VStr h)) frames htmls ->
  download_pages json_loads book_id pages_dir N (World frames s l f)
  = (Raise ConnectionClosed,
     World []
       (s ++ map (page_request book_id) (seqZ 1 k))
       (l ++ map (progress_entry N) (seqZ 1 k))
       (store_pages pages_dir f (zip (seqZ 1 (k - 1)) htmls))).
Proof.
  intros k Hk Hok. unfold download_pages.
  rewrite <- (app_nil_r frames) at 1.
  rewrite (download_loop_prefix json_loads book_id pages_dir N frames htmls Hok)
    by (subst k; lia).
  replace (k - 1)%Z with (Z.of_nat (length frames)) by (subst k; lia).
  erewrite download_loop_fatal;
    [| subst k; lia | cbn [inbound sent logs files]; apply fetch_and_store_closed
     | discriminate].
  subst k. rewrite (seqZ_snoc 1 (length frames)), !map_app, !app_assoc. reflexivity.
Qed.

Lemma download_connection_closed_witness :
  download_pages json_loads_ref 7 "book/pages" 3
    (World [page_reply "<p>1</p>"] [] [] ∅)
  = (Raise ConnectionClosed,
     World [] (map (page_request 7) [1; 2]%Z) (map (progress_entry 3) [1; 2]%Z)
       (store_pages "book/pages" ∅ [(1%Z, "<p>1</p>")])).
Proof.
  refine (download_connection_closed json_loads_ref 7 "book/pages" 3
            [page_reply "<p>1</p>"] ["<p>1</p>"] [] [] ∅ _ _).
  - vm_compute. discriminate.
  - repeat constructor; try (vm_compute; discriminate).
Defined.

(** A reply whose [html] is not a string (say [null]) is returned by
    [get_page] but cannot be written: the loop ends with [TypeError] and
    leaves the file of that page behind, empty. *)
Theorem download_non_string_html (json_loads : string -> result value)
    (book_id : Z) (pages_dir : string) (N : Z) (frames htmls : list string)
    (odd : string) (v : value) (rest s : list string) (l : list log_entry)
    (f : gmap string string) :
  let k := (Z.of_nat (length frames) + 1)%Z in
  (k <= N)%Z ->
  Forall2 (fun r h => r <> "2" /\ decode_page json_loads r = Ok (VStr h)) frames htmls ->
  odd <> "2" ->
  decode_page json_loads odd = Ok v ->
  (forall h, v <> VStr h) ->
  download_pages json_loads book_id pages_dir N (World (frames ++ odd :: rest) s l f)
  = (Raise TypeError,
     World rest
       (s ++ map (page_request book_id) (seqZ 1 k))
       (l ++ map (progress_entry N) (seqZ 1 k))
       (<[page_path pages_dir k := EmptyString]>
          (store_pages pages_dir f (zip (seqZ 1 (k - 1)) htmls)))).
Proof.
  intros k Hk Hok Hodd Hd Hv. unfold download_pages.
  rewrite (download_loop_prefix json_loads book_id pages_dir N frames htmls Hok)
    by (subst k; lia).
  replace (k - 1)%Z with (Z.of_nat (length frames)) by (subst k; lia).
  match goal with
  | |- download_loop _ _ _ _ (seqZ ?a _) _ (World _ ?s' ?l' ?f') = _ =>
      assert (Hstep : fetch_and_store json_loads book_id pages_dir a
                        (World (odd :: rest) s' (l' ++ [progress_entry N a]) f')
                      = (Raise TypeError,
                         World rest (s' ++ [page_request book_id a])
                           (l' ++ [progress_entry N a])
                           (<[page_path pages_dir a := EmptyString]> f')))
  end.
  { unfold fetch_and_store, get_page. unfold bind at 1.
    rewrite (fetch_after_pings _ _ 0 odd rest _ _ _ Hodd), Hd.
    cbn [replicate write_text inbound sent logs files].
    destruct v; try reflexivity. now destruct (Hv s0). }
  erewrite download_loop_fatal; [| subst k; lia | exact Hstep | discriminate].
  subst k. rewrite (seqZ_snoc 1 (length frames)), !map_app, !app_assoc.
  now rewrite (Z.add_comm 1).
Qed.

Lemma download_non_string_html_witness :
  download_pages json_loads_ref 7 "book/pages" 2
    (World [event_frame "page" ("{" ++ esc_quoted "html" ++ ":null}")] [] [] ∅)
  = (Raise TypeError,
     World [] [page_request 7 1] [progress_entry 2 1]
       (<[page_path "book/pages" 1 := EmptyString]> ∅)).
Proof.
  refine (download_non_string_html json_loads_ref 7 "book/pages" 2 [] []
            (event_frame "page" ("{" ++ esc_quoted "html" ++ ":null}")) VNone
            [] [] [] ∅ _ _ _ _ _).
  - vm_compute. discriminate.
  - constructor.
  - vm_compute. discriminate.
  - vm_compute. reflexivity.
  - discriminate.
Defined.

(** The successful loop, as an equation on any count equal to the number
    of replies. *)
Lemma download_all_pages_eq (json_loads : string -> result value)
    (book_id : Z) (pages_dir : string) (frames htmls : list string)
    (rest s : list string) (l : list log_entry) (f : gmap string string) :
  Forall2 (fun r h => r <> "2" /\ decode_page json_loads r = Ok (VStr h)) frames htmls ->
  download_pages json_loads book_id pages_dir (Z.of_nat (length frames))
    (World (frames ++ rest) s l f)
  = (Ok (Z.of_nat (length frames)),
     World rest
       (s ++ map (page_request book_id) (seqZ 1 (Z.of_nat (length frames))))
       (l ++ map (progress_entry (Z.of_nat (length frames)))
               (seqZ 1 (Z.of_nat (length frames))))
       (store_pages pages_dir f (zip (seqZ 1 (Z.of_nat (length frames))) htmls))).
Proof.
  intros Hok. unfold download_pages.
  rewrite (download_loop_prefix json_loads book_id pages_dir _ frames htmls Hok) by lia.
  rewrite Z.sub_diag, (seqZ_nil _ 0) by lia. reflexivity.
Qed.

(* ================================================================= *)
(** * The download session as a whole *)

Lemma fetch_first {A} (request : string) (decode : string -> result A)
    (msg : string) (rest s : list string) (l : list log_entry) (f : gmap string string) :
  msg <> "2" ->
  (run! ws_send request in let! r := handle_recv in lift (decode r))
    (World (msg :: rest) s l f)
  = (decode msg, World rest (s ++ [request]) l f).
Proof. intros H. exact (fetch_after_pings request decode 0 msg rest s l f H). Qed.

Section SessionFacts.

Variable json_loads : string -> result value.
Variables (book_id : Z) (output_dir : string).

(** The session up to the page loop: handshake, fonts, style sheet and
    their two files. *)
Lemma session_prelude (page_count : Z) (m1 m2 m3 ffonts fcss fonts style : string)
    (tail s : list string) (l : list log_entry) (f : gmap string string) :
  ffonts <> "2" -> decode_fonts json_loads ffonts = Ok (VStr fonts) ->
  fcss <> "2" -> decode_css json_loads fcss = Ok (VStr style) ->
  exists warnings,
    Forall (fun e => exists msg, e = LogWarning msg) warnings
    /\ download_session json_loads book_id output_dir page_count
         (World (m1 :: m2 :: m3 :: ffonts :: fcss :: tail) s l f)
       = download_pages json_loads book_id (path_join output_dir "pages") page_count
           (World tail
              (s ++ ["2probe"; "5"; "40/books,"; font_request book_id; css_request book_id])
              (l ++ warnings)
              (<[path_join output_dir "style.css" := style]>
                 (<[path_join output_dir "fonts.css" := fonts]> f))).
Proof.
  intros Hf Hdf Hc Hdc. eexists. split; [|unfold download_session].
  2:{ unfold bind at 1. rewrite hello_run.
      unfold get_fonts, get_css. unfold bind at 1.
      rewrite (fetch_first _ _ ffonts _ _ _ _ Hf), Hdf.
      unfold bind at 1.
      rewrite (fetch_first _ _ fcss _ _ _ _ Hc), Hdc.
      unfold bind, write_text. cbn [replicate inbound sent logs files].
      rewrite <- !app_assoc. reflexivity. }
  destruct (String.eqb m1 "3probe"), (String.prefix "40/books," m2),
    (str_contains ("42/books,[" ++ dq ++ "ready" ++ dq) m3);
    cbn [app]; repeat constructor; eexists; reflexivity.
Qed.

(** A whole download of [N] pages: the frames go out in the order
    probe, upgrade, namespace join, fonts, style sheet, pages [1..N];
    the fonts, the style sheet and the [N] pages are in their files; the
    count reported is [N]. *)
Theorem download_session_complete (m1 m2 m3 ffonts fcss fonts style : string)
    (frames htmls rest s : list string) (l : list log_entry) (f : gmap string string) :
  ffonts <> "2" -> decode_fonts json_loads ffonts = Ok (VStr fonts) ->
  fcss <> "2" -> decode_css json_loads fcss = Ok (VStr style) ->
  Forall2 (fun r h => r <> "2" /\ decode_page json_loads r = Ok (VStr h)) frames htmls ->
  let N := Z.of_nat (length frames) in
  exists w',
    download_session json_loads book_id output_dir N
      (World (m1 :: m2 :: m3 :: ffonts :: fcss :: frames ++ rest) s l f)
    = (Ok N, w')
    /\ inbound w' = rest
    /\ sent w'
       = (s ++ ["2probe"; "5"; "40/books,"; font_request book_id; css_request book_id]
            ++ map (page_request book_id) (seqZ 1 N))%list
    /\ files w'
       = store_pages (path_join output_dir "pages")
           (<[path_join output_dir "style.css" := style]>
              (<[path_join output_dir "fonts.css" := fonts]> f))
           (zip (seqZ 1 N) htmls).
Proof.
  intros Hf Hdf Hc Hdc Hok N.
  destruct (session_prelude N m1 m2 m3 ffonts fcss fonts style (frames ++ rest) s l f
              Hf Hdf Hc Hdc) as (warnings & _ & ->).
  subst N. rewrite (download_all_pages_eq _ _ _ _ _ _ _ _ _ Hok).
  eexists. split; [reflexivity|]. cbn [inbound sent files].
  now rewrite <- app_assoc.
Qed.

(** A book that is refused at the first fetch: [get_fonts] does not look
    at [error], so the refusal surfaces as the exception of the
    decoding.  The session ends there: the style sheet is never asked
    for and no file is written. *)
Theorem download_session_fonts_failure (page_count : Z) (m1 m2 m3 reply : string)
    (e : exn) (rest s : list string) (l : list log_entry) (f : gmap string string) :
  reply <> "2" ->
  decode_fonts json_loads reply = Raise e ->
  exists w',
    download_session json_loads book_id output_dir page_count
      (World (m1 :: m2 :: m3 :: reply :: rest) s l f)
    = (Raise e, w')
    /\ inbound w' = rest
    /\ sent w' = (s ++ ["2probe"; "5"; "40/books,"; font_request book_id])%list
    /\ files w' = f.
Proof.
  intros Hr Hd. unfold download_session. unfold bind at 1. rewrite hello_run.
  unfold get_fonts. unfold bind at 1.
  rewrite (fetch_first _ _ reply _ _ _ _ Hr), Hd.
  eexists. split; [reflexivity|]. cbn [replicate inbound sent files].
  now rewrite <- app_assoc.
Qed.

End SessionFacts.

Lemma download_session_complete_witness :
  exists w',
    download_session json_loads_ref 7 "book" 1
      (World ["3probe"; "40/books,"; ready_event;
              event_frame "font" ("{" ++ esc_quoted "html" ++ ":" ++ esc_quoted "F" ++ "}");
              event_frame "css" ("{" ++ esc_quoted "html" ++ ":" ++ esc_quoted "S" ++ "}");
              page_reply "<p>1</p>"] [] [] ∅)
    = (Ok 1%Z, w')
    /\ inbound w' = []
    /\ sent w' = ["2probe"; "5"; "40/books,"; font_request 7; css_request 7;
                  page_request 7 1]
    /\ files w'
       = store_pages (path_join "book" "pages")
           (<[path_join "book" "style.css" := "S"]>
              (<[path_join "book" "fonts.css" := "F"]> ∅))
           [(1%Z, "<p>1</p>")].
Proof.
  refine (download_session_complete json_loads_ref 7 "book" "3probe" "40/books,"
            ready_event _ _ "F" "S" [page_reply "<p>1</p>"] ["<p>1</p>"] [] [] [] ∅
            _ _ _ _ _).
  - vm_compute. discriminate.
  - vm_compute. reflexivity.
  - vm_compute. discriminate.
  - vm_compute. reflexivity.
  - repeat constructor; try (vm_compute; discriminate).
Defined.

Lemma download_session_fonts_failure_witness :
  exists w',
    download_session json_loads_ref 7 "book" 10
      (World ["3probe"; "40/books,"; ready_event; denied_reply] [] [] ∅)
    = (Raise KeyError, w')
    /\ inbound w' = []
    /\ sent w' = ["2probe"; "5"; "40/books,"; font_request 7]
    /\ files w' = ∅.
Proof.
  refine (download_session_fonts_failure json_loads_ref 7 "book" 10 "3probe" "40/books,"
            ready_event denied_reply KeyError [] [] [] ∅ _ _).
  - vm_compute. discriminate.
  - vm_compute. reflexivity.
Defined.

(* ================================================================= *)
(** * Page numbers in file names *)

Lemma str_forall_impl (p q : ascii -> bool) (s : string) :
  (forall c, p c = true -> q c = true) -> str_forall p s = true -> str_forall q s = true.
Proof.
  intros H. induction s as [|c r IH]; [reflexivity|].
  cbn [str_forall]. intros E. apply andb_true_iff in E as [E1 E2].
  now rewrite (H c E1), (IH E2).
Qed.

Lemma str_forall_app (p : ascii -> bool) (a b : string) :
  str_forall p (a ++ b) = str_forall p a && str_forall p b.
Proof.
  induction a as [|c a IH]; [reflexivity|].
  rewrite str_app_cons. cbn [str_forall]. now rewrite IH, andb_assoc.
Qed.

Lemma string_of_uint_digits (d : Decimal.uint) :
  str_forall is_digit (NilEmpty.string_of_uint d) = true.
Proof. induction d; cbn [NilEmpty.string_of_uint str_forall]; auto. Qed.

Lemma string_of_uint_nonempty (d : Decimal.uint) :
  d <> Decimal.Nil -> NilEmpty.string_of_uint d <> EmptyString.
Proof. destruct d; [congruence | discriminate..]. Qed.

(** The text of an integer: digits, after a minus sign if it is
    negative. *)
Lemma str_of_Z_shape (z : Z) :
  match z with
  | Z0 => str_of_Z z = "0"
  | Zpos p => str_of_Z z = NilEmpty.string_of_uint (Pos.to_uint p)
  | Zneg p => str_of_Z z = String "-" (NilEmpty.string_of_uint (Pos.to_uint p))
  end.
Proof.
  destruct z as [|p|p]; [reflexivity| |]; unfold str_of_Z; cbn [Z.to_int NilZero.string_of_int];
    unfold NilZero.string_of_uint;
    pose proof (Unsigned.to_uint_nonnil p) as H;
    destruct (Pos.to_uint p); congruence.
Qed.

Lemma str_of_Z_chars (z : Z) : str_forall is_number_char (str_of_Z z) = true.
Proof.
  pose proof (str_of_Z_shape z) as H. destruct z as [|p|p]; rewrite H; [reflexivity| |].
  - eapply str_forall_impl; [|apply string_of_uint_digits].
    intros c Hc. unfold is_number_char. now rewrite Hc.
  - cbn [str_forall]. change (is_number_char "-") with true. cbn [andb].
    eapply str_forall_impl; [|apply string_of_uint_digits].
    intros c Hc. unfold is_number_char. now rewrite Hc.
Qed.

Lemma str_of_Z_nonempty (z : Z) : str_of_Z z <> EmptyString.
Proof.
  pose proof (str_of_Z_shape z) as H. destruct z as [|p|p]; rewrite H; try discriminate.
  apply string_of_uint_nonempty, Unsigned.to_uint_nonnil.
Qed.

Lemma read_int_digits_acc (d : Decimal.uint) :
  forall acc,
    read_int_digits (Zpos acc) true (NilEmpty.string_of_uint d)
    = Some (Zpos (Pos.of_uint_acc d acc)).
Proof.
  induction d; intros acc;
    cbn [NilEmpty.string_of_uint read_int_digits Pos.of_uint_acc]; [reflexivity|..];
    match goal with
    | |- context [digit_of ?c] =>
        let v := eval vm_compute in (digit_of c) in change (digit_of c) with v
    end;
    cbv iota beta;
    match goal with
    | |- read_int_digits ?x true _ = Some (Zpos (Pos.of_uint_acc _ ?y)) =>
        replace x with (Zpos y) by lia
    end;
    apply IHd.
Qed.

Lemma read_int_digits_zero (d : Decimal.uint) :
  forall b,
    d <> Decimal.Nil \/ b = true ->
    read_int_digits 0 b (NilEmpty.string_of_uint d) = Some (Z.of_N (Pos.of_uint d)).
Proof.
  induction d; intros b Hb;
    cbn [NilEmpty.string_of_uint read_int_digits Pos.of_uint].
  - destruct Hb as [Hb | ->]; [congruence | reflexivity].
  - change (digit_of "0") with (Some 0%Z). cbv iota beta.
    change (10 * 0 + 0)%Z with 0%Z. apply IHd. now right.
  - change (digit_of "1") with (Some 1%Z). cbv iota beta. apply (read_int_digits_acc d 1).
  - change (digit_of "2") with (Some 2%Z). cbv iota beta. apply (read_int_digits_acc d 2).
  - change (digit_of "3") with (Some 3%Z). cbv iota beta. apply (read_int_digits_acc d 3).
  - change (digit_of "4") with (Some 4%Z). cbv iota beta. apply (read_int_digits_acc d 4).
  - change (digit_of "5") with (Some 5%Z). cbv iota beta. apply (read_int_digits_acc d 5).
  - change (digit_of "6") with (Some 6%Z). cbv iota beta. apply (read_int_digits_acc d 6).
  - change (digit_of "7") with (Some 7%Z). cbv iota beta. apply (read_int_digits_acc d 7).
  - change (digit_of "8") with (Some 8%Z). cbv iota beta. apply (read_int_digits_acc d 8).
  - change (digit_of "9") with (Some 9%Z). cbv iota beta. apply (read_int_digits_acc d 9).
Qed.

Lemma read_int_digits_pos (p : positive) :
  read_int_digits 0 false (NilEmpty.string_of_uint (Pos.to_uint p)) = Some (Zpos p).
Proof.
  rewrite read_int_digits_zero by (left; apply Unsigned.to_uint_nonnil).
  now rewrite Unsigned.of_to.
Qed.

Lemma lstrip_nonspace (s : string) :
  str_forall (fun c => negb (is_space c)) s = true -> lstrip s = s.
Proof.
  destruct s as [|c r]; [reflexivity|]. cbn [str_forall lstrip]. intros H.
  apply andb_true_iff in H as [H _]. apply negb_true_iff in H. now rewrite H.
Qed.

Lemma rstrip_nonspace (s : string) :
  str_forall (fun c => negb (is_space c)) s = true -> rstrip s = s.
Proof.
  induction s as [|c r IH]; [reflexivity|]. cbn [str_forall rstrip]. intros H.
  apply andb_true_iff in H as [Hc Hr]. apply negb_true_iff in Hc.
  rewrite (IH Hr), Hc. now destruct r.
Qed.

Lemma number_char_facts (c : ascii) :
  is_number_char c = true ->
  is_space c = false /\ is_ch 46 c = false /\ is_ch 47 c = false /\ is_ch 43 c = false
  /\ is_ch 62 c = false.
Proof.
  destruct c as [[] [] [] [] [] [] [] []]; vm_compute; intros H;
    try discriminate H; repeat split.
Qed.

(** [int(str(z))] is [z]. *)
Lemma py_int_str_of_Z (z : Z) : py_int (str_of_Z z) = Some z.
Proof.
  unfold py_int, str_strip.
  assert (Hns : str_forall (fun c => negb (is_space c)) (str_of_Z z) = true).
  { eapply str_forall_impl; [|apply str_of_Z_chars].
    intros c Hc. apply number_char_facts in Hc as (-> & _). reflexivity. }
  rewrite (lstrip_nonspace _ Hns), (rstrip_nonspace _ Hns).
  pose proof (str_of_Z_shape z) as H. destruct z as [|p|p]; rewrite H; [reflexivity| |].
  - pose proof (string_of_uint_digits (Pos.to_uint p)) as Hd.
    pose proof (read_int_digits_pos p) as Hr.
    destruct (NilEmpty.string_of_uint (Pos.to_uint p)) as [|c r] eqn:E.
    + exfalso. revert E. apply string_of_uint_nonempty, Unsigned.to_uint_nonnil.
    + cbn [str_forall] in Hd. apply andb_true_iff in Hd as [Hc _].
      assert (Hnc : is_number_char c = true) by (unfold is_number_char; now rewrite Hc).
      apply number_char_facts in Hnc as (_ & _ & _ & Hplus & _).
      assert (Hminus : is_ch 45 c = false).
      { unfold is_ch. apply Ascii.eqb_neq. intros ->. discriminate Hc. }
      now rewrite Hminus, Hplus.
  - change (is_ch 45 "-") with true. cbv iota.
    now rewrite read_int_digits_pos.
Qed.

Lemma prefix_slash_is (c : ascii) (r : string) :
  String.prefix "/" (String c r) = is_ch 47 c.
Proof.
  cbn [String.prefix]. unfold is_ch.
  destruct (ascii_dec "/" c) as [<-|Hne].
  - now rewrite prefix_empty.
  - symmetry. apply Ascii.eqb_neq. intros E. apply Hne. now rewrite E.
Qed.

Lemma basename_from_plain (name : string) :
  forall cur, str_contains "/" name = false -> basename_from cur name = cur ++ name.
Proof.
  induction name as [|c r IH]; intros cur H; cbn [basename_from].
  - now rewrite str_app_nil_r.
  - cbn [str_contains] in H. apply orb_false_iff in H as [Hp Hr].
    rewrite prefix_slash_is in Hp.
    rewrite Hp, (IH _ Hr), str_app_assoc. reflexivity.
Qed.

Lemma basename_from_after_slash (a name : string) :
  forall cur, basename_from cur (a ++ String "/" name) = basename_from EmptyString name.
Proof.
  induction a as [|c a IH]; intros cur.
  - reflexivity.
  - rewrite str_app_cons. cbn [basename_from]. destruct (is_ch 47 c); apply IH.
Qed.

Lemma ends_with_slash_inv (d : string) :
  str_ends_with_slash d = true -> exists a, d = a ++ "/".
Proof.
  unfold str_ends_with_slash. induction d as [|c d IH]; [discriminate|].
  destruct d as [|c' d'].
  - cbn. intros H. exists EmptyString. apply Ascii.eqb_eq in H. now subst c.
  - cbn [String.length Nat.sub String.get] in *. rewrite Nat.sub_0_r in IH.
    intros H. destruct (IH H) as [a Ha]. exists (String c a). now rewrite str_app_cons, <- Ha.
Qed.

(** The base name of a file placed in a directory is its name. *)
Lemma basename_path_join (dir name : string) :
  str_contains "/" name = false -> basename (path_join dir name) = name.
Proof.
  intros H. unfold basename, path_join.
  assert (Hp : String.prefix "/" name = false).
  { destruct name; [reflexivity|]. cbn [str_contains] in H.
    now apply orb_false_iff in H as [H _]. }
  rewrite Hp. destruct (str_is_empty dir) eqn:Ee; cbn [orb].
  - destruct dir; [|discriminate]. now apply basename_from_plain.
  - destruct (str_ends_with_slash dir) eqn:Es.
    + apply ends_with_slash_inv in Es as [a ->]. rewrite str_app_assoc.
      change ("/" ++ name) with (String "/" name).
      rewrite basename_from_after_slash. now apply basename_from_plain.
    + change ("/" ++ name) with (String "/" name).
      rewrite basename_from_after_slash. now apply basename_from_plain.
Qed.

Lemma first_component_before_dot (s t : string) :
  str_forall (fun c => negb (is_ch 46 c)) s = true ->
  first_component (s ++ String "." t) = s.
Proof.
  induction s as [|c r IH]; intros H.
  - change (EmptyString ++ String "." t) with (String "." t).
    now rewrite first_component_cons.
  - cbn [str_forall] in H. apply andb_true_iff in H as [Hc Hr].
    apply negb_true_iff in Hc.
    now rewrite str_app_cons, first_component_cons, Hc, (IH Hr).
Qed.

Lemma cut_last_dot_none (t : string) :
  str_forall (fun c => negb (is_ch 46 c)) t = true -> cut_last_dot t = None.
Proof.
  induction t as [|c r IH]; [reflexivity|]. cbn [str_forall cut_last_dot]. intros H.
  apply andb_true_iff in H as [Hc Hr]. apply negb_true_iff in Hc.
  now rewrite (IH Hr), Hc.
Qed.

Lemma cut_last_dot_last (s t : string) :
  str_forall (fun c => negb (is_ch 46 c)) t = true ->
  cut_last_dot (s ++ String "." t) = Some s.
Proof.
  intros Ht. induction s as [|c r IH].
  - change (EmptyString ++ String "." t) with (String "." t).
    cbn [cut_last_dot]. now rewrite (cut_last_dot_none t Ht).
  - rewrite str_app_cons. cbn [cut_last_dot]. now rewrite IH.
Qed.

Lemma str_of_Z_no (bad : ascii -> bool) (z : Z) :
  (forall c, is_number_char c = true -> bad c = false) ->
  str_forall (fun c => negb (bad c)) (str_of_Z z) = true.
Proof.
  intros H. eapply str_forall_impl; [|apply str_of_Z_chars].
  intros c Hc. now rewrite (H c Hc).
Qed.

Lemma str_forall_no_slash (s : string) :
  str_forall (fun c => negb (is_ch 47 c)) s = true -> str_contains "/" s = false.
Proof.
  induction s as [|c r IH]; [reflexivity|]. cbn [str_forall str_contains]. intros H.
  apply andb_true_iff in H as [Hc Hr]. apply negb_true_iff in Hc.
  now rewrite prefix_slash_is, Hc, (IH Hr).
Qed.

Lemma page_name_no_slash (i : Z) (ext : string) :
  str_forall (fun c => negb (is_ch 47 c)) ext = true ->
  str_contains "/" (str_of_Z i ++ ext) = false.
Proof.
  intros H. apply str_forall_no_slash. rewrite str_forall_app, H, andb_true_r.
  apply str_of_Z_no. intros c Hc. now apply number_char_facts in Hc.
Qed.

Lemma basename_page_path (pages_dir : string) (i : Z) :
  basename (page_path pages_dir i) = str_of_Z i ++ ".html".
Proof. unfold page_path. apply basename_path_join. now apply page_name_no_slash. Qed.

Lemma str_of_Z_no_dot (i : Z) :
  str_forall (fun c => negb (is_ch 46 c)) (str_of_Z i) = true.
Proof. apply str_of_Z_no. intros c Hc. now apply number_char_facts in Hc. Qed.

Lemma page_key_page_path (pages_dir : string) (i : Z) :
  page_key (page_path pages_dir i) = Some i.
Proof.
  unfold page_key. rewrite basename_page_path. change ".html" with (String "." "html").
  now rewrite first_component_before_dot, py_int_str_of_Z by apply str_of_Z_no_dot.
Qed.

(** The name under which the download stores page [i] gives [i] back as
    the sort key of the conversion, and the part rendered from it is
    [<temp_dir>/<i>.pdf]. *)
Theorem page_key_of_page_path (pages_dir temp_dir : string) (i : Z) :
  page_key (page_path pages_dir i) = Some i
  /\ pdf_path_of temp_dir (page_path pages_dir i) = path_join temp_dir (str_of_Z i ++ ".pdf").
Proof.
  split; [apply page_key_page_path|].
  unfold pdf_path_of. rewrite basename_page_path. f_equal. f_equal. unfold splitext_root.
  change ".html" with (String "." "html"). rewrite cut_last_dot_last by reflexivity.
  pose proof (str_of_Z_nonempty i) as Hne. pose proof (str_of_Z_no_dot i) as Hdot.
  destruct (str_of_Z i) as [|c r]; [congruence|].
  cbn [str_forall] in Hdot. apply andb_true_iff in Hdot as [Hc _].
  apply negb_true_iff in Hc. cbn [all_dots]. now rewrite Hc.
Qed.

Lemma map_page_key_page_path (pages_dir : string) (idxs : list Z) :
  map page_key (map (page_path pages_dir) idxs) = map Some idxs.
Proof.
  induction idxs as [|i idxs IH]; [reflexivity|]. cbn [map].
  now rewrite (page_key_page_path pages_dir i), IH.
Qed.

Lemma page_paths_sorted (pages_dir : string) (a n : Z) :
  StronglySorted key_lt (map (page_path pages_dir) (seqZ a n)).
Proof.
  unfold seqZ. generalize (Z.to_nat n) as k. intros k. generalize 0%nat as o.
  induction k as [|k IH]; intros o; cbn [seq fmap list_fmap map]; constructor.
  - apply (IH (S o)).
  - apply Forall_forall. intros g Hg. apply list_elem_of_In, in_map_iff in Hg as (j & <- & Hj).
    apply list_elem_of_In, list_elem_of_fmap in Hj as (m & -> & Hm).
    apply elem_of_seq in Hm.
    exists (Z.of_nat o + a)%Z, (Z.of_nat m + a)%Z. split; [|split].
    + apply page_key_page_path.
    + apply page_key_page_path.
    + lia.
Qed.

(** The pages of a download come out of the sort in page order, however
    [glob] lists them: page 10 after page 9, not after page 1. *)
Theorem sort_downloaded_pages (pages_dir : string) (n : Z) (globbed : list string) :
  globbed ≡ₚ map (page_path pages_dir) (seqZ 1 n) ->
  sort_html_files globbed = map (page_path pages_dir) (seqZ 1 n).
Proof.
  intros Hperm.
  pose proof (map_page_key_page_path pages_dir (seqZ 1 n)) as Hkeys.
  pose proof (NoDup_seqZ 1 n) as Hnd.
  rewrite (sort_html_files_glob_order _ globbed _ Hkeys Hnd Hperm).
  destruct (sort_html_files_spec _ _ Hkeys Hnd) as [Hp Hs].
  apply (StronglySorted_unique_strong key_lt); auto.
  - intros f g _ _ (i & j & Hi & Hj & Hlt) (j' & i' & Hj' & Hi' & Hlt').
    rewrite Hi in Hi'. rewrite Hj in Hj'. injection Hi' as <-. injection Hj' as <-. lia.
  - apply page_paths_sorted.
Qed.

Lemma sort_downloaded_pages_witness :
  sort_html_files ["p/10.html"; "p/9.html"; "p/1.html"; "p/11.html"; "p/2.html";
                   "p/3.html"; "p/8.html"; "p/7.html"; "p/4.html"; "p/6.html"; "p/5.html"]
  = map (page_path "p") (seqZ 1 11).
Proof.
  apply sort_downloaded_pages.
  apply (bool_decide_unpack (_ ≡ₚ _)). vm_compute. exact I.
Defined.

(* ================================================================= *)
(** ** The order of the files to convert *)

Section SortedAny.
Context {A K : Type} (leb : K -> K -> bool) (key : A -> K).

Lemma insert_sorted_perm_any (x : A) (l : list A) :
  insert_sorted leb key x l ≡ₚ x :: l.
Proof.
  induction l as [|y l IH]; cbn [insert_sorted]; [reflexivity|].
  destruct (leb (key x) (key y)); [reflexivity|].
  rewrite IH. apply Permutation_swap.
Qed.

Lemma py_sorted_perm_any (l : list A) : py_sorted leb key l ≡ₚ l.
Proof.
  induction l as [|x l IH]; [reflexivity|].
  cbn [py_sorted foldr]. rewrite insert_sorted_perm_any. now constructor.
Qed.

Hypothesis leb_total : forall a b, leb a b = true \/ leb b a = true.
Hypothesis leb_trans : forall a b c, leb a b = true -> leb b c = true -> leb a c = true.

Lemma insert_sorted_sorted_any (x : A) (l : list A) :
  StronglySorted (fun a b => leb (key a) (key b) = true) l ->
  StronglySorted (fun a b => leb (key a) (key b) = true) (insert_sorted leb key x l).
Proof.
  induction 1 as [|y l Hs IH Hy]; cbn [insert_sorted].
  - repeat constructor.
  - destruct (leb (key x) (key y)) eqn:E.
    + constructor; [now constructor|].
      constructor; [exact E|].
      eapply Forall_impl; [exact Hy|]. cbn. intros z Hz. eapply leb_trans; eauto.
    + constructor; [exact IH|].
      rewrite insert_sorted_perm_any. constructor; [|exact Hy].
      destruct (leb_total (key x) (key y)); congruence.
Qed.

Lemma py_sorted_sorted_any (l : list A) :
  StronglySorted (fun a b => leb (key a) (key b) = true) (py_sorted leb key l).
Proof.
  induction l as [|x l IH]; [constructor|].
  cbn [py_sorted foldr]. now apply insert_sorted_sorted_any.
Qed.
End SortedAny.

Lemma string_leb_trans (a b c : string) :
  String.leb a b = true -> String.leb b c = true -> String.leb a c = true.
Proof.
  unfold String.leb. revert b c.
  induction a as [|x a IH]; intros [|y b] [|z c]; cbn [String.compare]; try congruence.
  unfold Ascii.compare.
  destruct (N.compare_spec (N_of_ascii x) (N_of_ascii y)) as [Exy|Lxy|Gxy];
    destruct (N.compare_spec (N_of_ascii y) (N_of_ascii z)) as [Eyz|Lyz|Gyz];
    try congruence.
  - rewrite Exy, Eyz, N.compare_refl. apply IH.
  - intros _ _. rewrite Exy. now apply N.compare_lt_iff in Lyz as ->.
  - intros _ _. rewrite <- Eyz. now apply N.compare_lt_iff in Lxy as ->.
  - intros _ _. assert (H : (N_of_ascii x < N_of_ascii z)%N) by lia.
    now apply N.compare_lt_iff in H as ->.
Qed.


(* ================================================================= *)
(** ** [clean_page_html] *)

Lemma strip_prefix_sound (p : string) :
  forall s r, strip_prefix p s = Some r -> s = p ++ r.
Proof.
  induction p as [|a p IH]; intros s r; cbn [strip_prefix].
  - now intros [= ->].
  - destruct s as [|b s]; [discriminate|].
    destruct (Ascii.eqb a b) eqn:E; [|discriminate].
    apply Ascii.eqb_eq in E as <-. intros H. rewrite str_app_cons. f_equal. now apply IH.
Qed.

Lemma after_gt_suffix (s : string) :
  forall r, after_gt s = Some r -> exists a, s = a ++ r.
Proof.
  induction s as [|c s IH]; intros r; cbn [after_gt]; [discriminate|].
  destruct (is_ch 62 c).
  - intros [= ->]. now exists (String c EmptyString).
  - intros H. destruct (IH _ H) as [a ->]. now exists (String c a).
Qed.

Lemma lstrip_suffix (s : string) : exists a, s = a ++ lstrip s.
Proof.
  induction s as [|c s [a IH]]; [now exists EmptyString|]. cbn [lstrip].
  destruct (is_space c).
  - exists (String c a). now rewrite str_app_cons, <- IH.
  - now exists EmptyString.
Qed.

(** A match is a non-empty stretch at the start of the text. *)
Lemma after_empty_span_sound (s rest : string) :
  after_empty_span s = Some rest ->
  String.prefix "<span" s = true
  /\ exists c m, s = String c (m ++ rest).
Proof.
  unfold after_empty_span.
  destruct (strip_prefix "<span" s) as [r1|] eqn:E1; [|discriminate].
  apply strip_prefix_sound in E1 as ->.
  destruct (after_gt r1) as [r2|] eqn:E2; [|discriminate].
  destruct (after_gt_suffix _ _ E2) as [a ->].
  destruct (lstrip_suffix r2) as [b Hb]. intros E3.
  apply strip_prefix_sound in E3. split; [apply prefix_app|].
  exists "<"%char, ("span" ++ a ++ b ++ "</span>"). rewrite Hb, E3.
  change "<span" with (String "<" "span"). rewrite str_app_cons.
  f_equal. now rewrite !str_app_assoc.
Qed.

Lemma clean_from_skip (a : string) :
  forall b, clean_from (String.length a) (a ++ b) = clean_from 0 b.
Proof.
  induction a as [|c a IH]; intros b.
  - cbn [String.length]. now destruct b.
  - rewrite str_app_cons. cbn [String.length clean_from]. apply IH.
Qed.

(** Where the pattern matches, the match becomes one space and the
    scan resumes behind it. *)
Lemma clean_from_match (s rest : string) :
  after_empty_span s = Some rest ->
  clean_from 0 s = String " " (clean_from 0 rest).
Proof.
  intros H. destruct (after_empty_span_sound _ _ H) as (_ & c & m & ->).
  cbn [clean_from]. rewrite H. cbn [String.length].
  rewrite str_length_app.
  replace (S (String.length m + String.length rest) - String.length rest - 1)
    with (String.length m) by lia.
  now rewrite clean_from_skip.
Qed.

Lemma clean_from_length (s : string) :
  forall skip,
    String.length (clean_from skip s) + Nat.min skip (String.length s) <= String.length s.
Proof.
  induction s as [|c r IH]; intros skip; [cbn; lia|].
  cbn [clean_from]. destruct skip as [|k].
  - destruct (after_empty_span (String c r)) as [rest|] eqn:E.
    + destruct (after_empty_span_sound _ _ E) as (_ & c' & m & [= <- ->]).
      change (" " ++ ?x) with (String " " x). cbn [String.length].
      rewrite str_length_app.
      replace (S (String.length m + String.length rest) - String.length rest - 1)
        with (String.length m) by lia.
      specialize (IH (String.length m)). rewrite str_length_app in IH. lia.
    + cbn [String.length]. specialize (IH 0). lia.
  - cbn [String.length]. specialize (IH k). lia.
Qed.

Lemma after_empty_span_not_lt (c : ascii) (r : string) :
  is_ch 60 c = false -> after_empty_span (String c r) = None.
Proof.
  intros H. unfold after_empty_span. cbn [strip_prefix].
  rewrite Ascii.eqb_sym. unfold is_ch in H. change (ch 60) with "<"%char in H.
  now rewrite H.
Qed.

Lemma clean_from_no_lt (pre s : string) :
  str_forall (fun c => negb (is_ch 60 c)) pre = true ->
  clean_from 0 (pre ++ s) = pre ++ clean_from 0 s.
Proof.
  induction pre as [|c pre IH]; [reflexivity|]. cbn [str_forall]. intros H.
  apply andb_true_iff in H as [Hc Hp]. apply negb_true_iff in Hc.
  rewrite !str_app_cons. cbn [clean_from].
  now rewrite (after_empty_span_not_lt _ _ Hc), (IH Hp).
Qed.

Lemma after_gt_app (attrs x : string) :
  str_forall (fun c => negb (is_ch 62 c)) attrs = true ->
  after_gt (attrs ++ String ">" x) = Some x.
Proof.
  induction attrs as [|c a IH]; [reflexivity|]. cbn [str_forall]. intros H.
  apply andb_true_iff in H as [Hc Ha]. apply negb_true_iff in Hc.
  rewrite str_app_cons. cbn [after_gt]. now rewrite Hc, (IH Ha).
Qed.

Lemma lstrip_app_space (ws x : string) :
  all_space ws = true -> lstrip (ws ++ x) = lstrip x.
Proof.
  induction ws as [|c ws IH]; [reflexivity|]. cbn [all_space]. intros H.
  apply andb_true_iff in H as [Hc Hw]. rewrite str_app_cons. cbn [lstrip].
  now rewrite Hc, (IH Hw).
Qed.

(** An empty span (the tag with any attributes, nothing but white space
    inside) becomes a single space; the text before it, free of [<], is
    kept and the cleaning goes on behind it. *)
Theorem clean_page_html_empty_span (pre attrs ws post : string) :
  str_forall (fun c => negb (is_ch 60 c)) pre = true ->
  str_forall (fun c => negb (is_ch 62 c)) attrs = true ->
  all_space ws = true ->
  clean_page_html (pre ++ "<span" ++ attrs ++ ">" ++ ws ++ "</span>" ++ post)
  = pre ++ " " ++ clean_page_html post.
Proof.
  intros Hpre Hattrs Hws. unfold clean_page_html.
  rewrite (clean_from_no_lt _ _ Hpre). f_equal.
  apply clean_from_match. unfold after_empty_span.
  rewrite strip_prefix_app.
  change (">" ++ ws ++ "</span>" ++ post) with (String ">" (ws ++ "</span>" ++ post)).
  rewrite (after_gt_app _ _ Hattrs), (lstrip_app_space _ _ Hws).
  change ("</span>" ++ post) with (String "<" ("/span>" ++ post)).
  cbn [lstrip]. change (is_space "<") with false. cbv iota.
  change (String "<" ("/span>" ++ post)) with ("</span>" ++ post).
  apply strip_prefix_app.
Qed.

Lemma clean_page_html_empty_span_witness :
  clean_page_html ("two" ++ "<span" ++ " class='s5'" ++ ">" ++ "  " ++ "</span>" ++ "words")
  = "two" ++ " " ++ clean_page_html "words".
Proof. apply clean_page_html_empty_span; reflexivity. Defined.

(** A page without the text [<span] is returned as it is. *)
Theorem clean_page_html_without_span (s : string) :
  str_contains "<span" s = false -> clean_page_html s = s.
Proof.
  unfold clean_page_html. induction s as [|c r IH]; [reflexivity|].
  cbn [str_contains clean_from]. intros H. apply orb_false_iff in H as [Hp Hr].
  destruct (after_empty_span (String c r)) as [rest|] eqn:E.
  - apply after_empty_span_sound in E as [E _]. congruence.
  - now rewrite (IH Hr).
Qed.

Lemma clean_page_html_without_span_witness :
  clean_page_html "<p>a <b>b</b></p>" = "<p>a <b>b</b></p>".
Proof. apply clean_page_html_without_span. reflexivity. Defined.

(** Cleaning never makes a page longer. *)
Theorem clean_page_html_never_longer (s : string) :
  String.length (clean_page_html s) <= String.length s.
Proof. unfold clean_page_html. pose proof (clean_from_length s 0). lia. Qed.

(* ================================================================= *)
(** ** The HTML branch of [perform_convert_action] *)

Lemma load_pages_present (fs : gmap string string) (html_dir : string)
    (idxs : list Z) (htmls : list string) :
  Forall2 (fun i h => fs !! page_path html_dir i = Some h) idxs htmls ->
  omap (fun i => clean_page_html <$> fs !! page_path html_dir i) idxs
  = map clean_page_html htmls.
Proof.
  induction 1 as [|i h idxs htmls Hi _ IH]; [reflexivity|].
  csimpl. rewrite Hi. csimpl. now rewrite IH.
Qed.

Lemma store_pages_all (pages_dir : string) (f : gmap string string)
    (idxs : list Z) (htmls : list string) :
  NoDup idxs -> length idxs = length htmls ->
  Forall2 (fun i h => store_pages pages_dir f (zip idxs htmls) !! page_path pages_dir i = Some h)
    idxs htmls.
Proof.
  intros Hnd Hlen. apply Forall2_same_length_lookup. split; [exact Hlen|].
  intros n i h Hi Hh. apply store_pages_lookup.
  - change (map fst (zip idxs htmls)) with ((zip idxs htmls).*1).
    rewrite fst_zip by lia. exact Hnd.
  - apply (list_elem_of_lookup_2 _ n). rewrite lookup_zip_with, Hi. cbn. now rewrite Hh.
Qed.




(* ================================================================= *)
(** ** Cleaning up after a conversion *)

Lemma rmtree_outside {A} (abspath : string -> string) (dir p : string) (m : gmap string A) :
  String.prefix (abspath dir ++ "/") (abspath p) = false ->
  rmtree abspath dir m !! p = m !! p.
Proof.
  intros H. unfold rmtree. apply option_eq. intros x.
  rewrite map_lookup_filter_Some. cbn [fst]. tauto.
Qed.

Lemma rmtree_inside {A} (abspath : string -> string) (dir p : string) (m : gmap string A) :
  String.prefix (abspath dir ++ "/") (abspath p) = true ->
  rmtree abspath dir m !! p = None.
Proof.
  intros H. unfold rmtree. apply map_lookup_filter_None. right.
  intros x _. cbn [fst]. congruence.
Qed.


(* ================================================================= *)
(** ** The default output name *)

Lemma remove_forbidden_app (a b : string) :
  remove_forbidden (a ++ b) = remove_forbidden a ++ remove_forbidden b.
Proof.
  induction a as [|c a IH]; [reflexivity|]. rewrite str_app_cons. cbn [remove_forbidden].
  destruct (is_forbidden_char c); [exact IH|]. now rewrite str_app_cons, IH.
Qed.

Lemma remove_forbidden_clean (s : string) :
  str_forall (fun c => negb (is_forbidden_char c)) (remove_forbidden s) = true.
Proof.
  induction s as [|c s IH]; [reflexivity|]. cbn [remove_forbidden].
  destruct (is_forbidden_char c) eqn:E; [exact IH|]. cbn [str_forall]. now rewrite E, IH.
Qed.

Lemma lstrip_forall (p : ascii -> bool) (s : string) :
  str_forall p s = true -> str_forall p (lstrip s) = true.
Proof.
  induction s as [|c s IH]; [reflexivity|]. cbn [lstrip str_forall]. intros H.
  destruct (is_space c); [|exact H]. apply andb_true_iff in H as [_ H]. auto.
Qed.

Lemma rstrip_forall (p : ascii -> bool) (s : string) :
  str_forall p s = true -> str_forall p (rstrip s) = true.
Proof.
  induction s as [|c s IH]; [reflexivity|]. cbn [rstrip str_forall]. intros H.
  apply andb_true_iff in H as [Hc Hs]. specialize (IH Hs).
  destruct (rstrip s) as [|c' r'].
  - destruct (is_space c); [reflexivity|]. cbn [str_forall]. now rewrite Hc.
  - cbn [str_forall] in *. now rewrite Hc, IH.
Qed.

Lemma all_space_app (a b : string) : all_space (a ++ b) = all_space a && all_space b.
Proof.
  induction a as [|c a IH]; [reflexivity|]. rewrite str_app_cons. cbn [all_space].
  now rewrite IH, andb_assoc.
Qed.

Lemma rstrip_idem (s : string) : rstrip (rstrip s) = rstrip s.
Proof.
  induction s as [|c s IH]; [reflexivity|]. cbn [rstrip].
  destruct (rstrip s) as [|c' r'] eqn:E.
  - destruct (is_space c) eqn:Ec; [reflexivity|]. cbn [rstrip]. now rewrite Ec.
  - cbn [rstrip] in *. rewrite IH. reflexivity.
Qed.

Lemma lstrip_rstrip_head (s : string) :
  lstrip s = s -> lstrip (rstrip s) = rstrip s.
Proof.
  destruct s as [|c s]; [reflexivity|]. cbn [lstrip rstrip].
  destruct (is_space c) eqn:Ec.
  - intros H. apply (f_equal String.length) in H. cbn [String.length] in H.
    assert (Hl : forall t, String.length (lstrip t) <= String.length t).
    { induction t as [|x t IHt]; cbn [lstrip String.length]; [lia|].
      destruct (is_space x); cbn [String.length]; lia. }
    specialize (Hl s). lia.
  - intros _. destruct (rstrip s); cbn [lstrip]; now rewrite Ec.
Qed.

Lemma lstrip_idem (s : string) : lstrip (lstrip s) = lstrip s.
Proof.
  induction s as [|c s IH]; [reflexivity|]. cbn [lstrip].
  destruct (is_space c) eqn:Ec; [exact IH|]. cbn [lstrip]. now rewrite Ec.
Qed.

Lemma str_strip_idem (s : string) : str_strip (str_strip s) = str_strip s.
Proof.
  unfold str_strip. rewrite (lstrip_rstrip_head (lstrip s)) by apply lstrip_idem.
  apply rstrip_idem.
Qed.

(** The default name of the output directory and of the converted file
    is never empty, holds none of the characters that are removed (no
    slash or backslash among them) and has no white space at either
    end. *)
Theorem default_name_is_clean (author title : string) :
  str_is_empty (default_name author title) = false
  /\ str_forall (fun c => negb (is_forbidden_char c)) (default_name author title) = true
  /\ str_strip (default_name author title) = default_name author title.
Proof.
  unfold default_name. split; [|split].
  - rewrite strip_empty, !remove_forbidden_app, !all_space_app.
    change (all_space (remove_forbidden " - ")) with false.
    now rewrite andb_false_r.
  - apply rstrip_forall, lstrip_forall, remove_forbidden_clean.
  - apply str_strip_idem.
Qed.

(* ================================================================= *)
(** ** The number of pages to download *)

Lemma make_book_metadata_pages (d : list (string * value)) (meta : book_metadata) :
  make_book_metadata (VDict d) = Ok meta ->
  bm_pages meta = match dict_lookup "pages" d with Some v => v | None => VStr "N/A" end.
Proof.
  unfold make_book_metadata, py_get. cbn [rbind].
  destruct (cover_url_of (VDict d)); cbn [rbind]; [|discriminate].
  now intros [= <-].
Qed.

(** With a decimal number as the text of [pages] in the metadata, that
    number is the page count unless the caller gives one that is not
    zero; a count of zero on the command line counts as none. *)
Theorem page_count_from_metadata (int_of_float : pyfloat -> result Z)
    (d : list (string * value)) (meta : book_metadata) (page_count : option Z) (n : Z) :
  dict_lookup "pages" d = Some (VStr (str_of_Z n)) ->
  make_book_metadata (VDict d) = Ok meta ->
  resolve_page_count int_of_float page_count meta
  = Ok (match page_count with
        | Some k => if (k =? 0)%Z then n else k
        | None => n
        end).
Proof.
  intros Hd Hm. apply make_book_metadata_pages in Hm. rewrite Hd in Hm.
  unfold resolve_page_count, py_int_value. rewrite Hm, py_int_str_of_Z.
  destruct page_count as [k|]; [|reflexivity]. now destruct (k =? 0)%Z.
Qed.

Lemma page_count_from_metadata_witness :
  resolve_page_count (fun _ => Raise TypeError) (Some 0%Z)
    (BookMetadata (VDict [("pages", VStr "312")]) (VStr "Unknown Author") VNone VNone
       (VStr "312") (VStr "Unknown Publisher") (VStr "untitled") (VStr "Untitled")
       (VStr "No description available.") VNone)
  = Ok 312%Z.
Proof.
  apply (page_count_from_metadata _ [("pages", VStr "312")] _ (Some 0%Z) 312);
    reflexivity.
Defined.

(** Without [pages] in the metadata the page count must come from the
    caller: with none given, or zero, the download stops on a
    [ValueError] before anything is fetched. *)
Theorem page_count_missing (int_of_float : pyfloat -> result Z)
    (d : list (string * value)) (meta : book_metadata) (page_count : option Z) :
  dict_lookup "pages" d = None ->
  make_book_metadata (VDict d) = Ok meta ->
  resolve_page_count int_of_float page_count meta
  = match page_count with
    | Some k => if (k =? 0)%Z then Raise (OtherError "ValueError") else Ok k
    | None => Raise (OtherError "ValueError")
    end.
Proof.
  intros Hd Hm. apply make_book_metadata_pages in Hm. rewrite Hd in Hm.
  unfold resolve_page_count, py_int_value. rewrite Hm.
  destruct page_count as [k|]; [|reflexivity]. now destruct (k =? 0)%Z.
Qed.

Lemma page_count_missing_witness :
  resolve_page_count (fun _ => Raise TypeError) None
    (BookMetadata (VDict [("title", VStr "T")]) (VStr "Unknown Author") VNone VNone
       (VStr "N/A") (VStr "Unknown Publisher") (VStr "untitled") (VStr "T")
       (VStr "No description available.") VNone)
  = Raise (OtherError "ValueError").
Proof.
  apply (page_count_missing _ [("title", VStr "T")] _ None); reflexivity.
Defined.

(* ================================================================= *)
(** ** [merge_pdfs] on parts, and what a conversion leaves behind *)

Section MergeFacts.

Variables pdf_file page : Type.
Variable pdf_pages : pdf_file -> result (list page).

Lemma merge_loop_log (pdf_parts : list string) :
  forall merger (w : render_world pdf_file page),
    (length (fst (merge_loop pdf_pages pdf_parts merger w))
     + length (r_log (snd (merge_loop pdf_pages pdf_parts merger w)))
     = length merger + length (r_log w) + length pdf_parts)%nat.
Proof.
  induction pdf_parts as [|p l IH]; intros merger w; cbn [merge_loop fst snd length].
  - lia.
  - destruct (first_page pdf_pages w p) as [pg|e].
    + rewrite IH, length_app. cbn [length]. lia.
    + rewrite IH. unfold emit. cbn [r_log]. rewrite length_app. cbn [length]. lia.
Qed.

(** Given at least one part, [merge_pdfs] writes the output whatever
    the parts hold: each part gives its first page, in the order of the
    list, or one warning, and the parts themselves are left alone.  With
    no readable part the output is a document without pages. *)
Theorem merge_pdfs_page_or_warning (pdf_parts : list string) (output_path : string)
    (w : render_world pdf_file page) :
  pdf_parts <> [] ->
  let w' := merge_pdfs pdf_pages pdf_parts output_path w in
  let pages := omap (part_page pdf_pages w) pdf_parts in
  r_outputs w' = <[output_path := pages]> (r_outputs w)
  /\ (length pages + length (r_log w') = length pdf_parts + length (r_log w) + 2)%nat
  /\ r_parts w' = r_parts w
  /\ r_texts w' = r_texts w.
Proof.
  intros Hne w' pages. subst w' pages. unfold merge_pdfs.
  destruct pdf_parts as [|p l]; [congruence|]. cbn [list_is_empty].
  set (w1 := emit _ w).
  destruct (merge_loop_spec pdf_file page pdf_pages (p :: l) [] w1) as (Hm & Ht & Hp & Ho).
  pose proof (merge_loop_log (p :: l) [] w1) as Hlog.
  destruct (merge_loop pdf_pages (p :: l) [] w1) as [merger w2].
  cbn [fst snd] in *. rewrite app_nil_l in Hm.
  assert (Hpp : omap (part_page pdf_pages w1) (p :: l) = omap (part_page pdf_pages w) (p :: l))
    by reflexivity.
  rewrite Hpp in Hm. subst merger.
  unfold emit, write_output. cbn [r_outputs r_parts r_texts r_log].
  rewrite Ho, Hp, Ht. subst w1. unfold emit in *. cbn [r_outputs r_parts r_texts r_log] in *.
  split; [reflexivity|]. split; [|split; reflexivity].
  rewrite !length_app in *. cbn [length] in *. lia.
Qed.

Lemma merge_pdfs_parts_texts (pdf_parts : list string) (output_path : string)
    (w : render_world pdf_file page) :
  r_parts (merge_pdfs pdf_pages pdf_parts output_path w) = r_parts w
  /\ r_texts (merge_pdfs pdf_pages pdf_parts output_path w) = r_texts w.
Proof.
  unfold merge_pdfs. destruct (list_is_empty pdf_parts); [split; reflexivity|].
  set (w1 := emit _ w).
  destruct (merge_loop_spec pdf_file page pdf_pages pdf_parts [] w1) as (_ & Ht & Hp & _).
  destruct (merge_loop pdf_pages pdf_parts [] w1) as [merger w2].
  cbn [fst snd] in *. unfold emit, write_output. cbn [r_parts r_texts].
  rewrite Hp, Ht. split; reflexivity.
Qed.

End MergeFacts.

Lemma merge_pdfs_page_or_warning_witness :
  let w := RenderWorld (∅ : gmap string string)
             ({["t/1.pdf" := [10%nat; 11%nat]; "t/2.pdf" := []]} : gmap string (list nat))
             (∅ : gmap string (list nat)) 0 [] in
  let w' := merge_pdfs Ok ["t/1.pdf"; "t/2.pdf"; "t/3.pdf"] "out.pdf" w in
  let pages := omap (part_page Ok w) ["t/1.pdf"; "t/2.pdf"; "t/3.pdf"] in
  r_outputs w' = <["out.pdf" := pages]> (r_outputs w)
  /\ (length pages + length (r_log w') = 3 + length (r_log w) + 2)%nat
  /\ r_parts w' = r_parts w
  /\ r_texts w' = r_texts w.
Proof.
  apply (merge_pdfs_page_or_warning (list nat) nat Ok ["t/1.pdf"; "t/2.pdf"; "t/3.pdf"]
           "out.pdf"). discriminate.
Defined.

Lemma lookup_foldr_delete {A} (l : list string) (m : gmap string A) (p : string) :
  foldr (fun part m => delete part m) m l !! p = if decide (p ∈ l) then None else m !! p.
Proof.
  induction l as [|x l IH]; cbn [foldr].
  - rewrite decide_False; [reflexivity | apply not_elem_of_nil].
  - destruct (decide (p = x)) as [->|Hne].
    + rewrite lookup_delete_eq, decide_True; [reflexivity | left].
    + rewrite lookup_delete_ne by congruence. rewrite IH.
      destruct (decide (p ∈ l)) as [Hin|Hnin].
      * rewrite decide_True; [reflexivity | now right].
      * rewrite decide_False; [reflexivity|].
        intros H. apply elem_of_cons in H as [H|H]; contradiction.
Qed.

(** A PDF conversion leaves the text files as they were and no part
    file of its own behind: whatever the files, the styles and the order
    in which the pages finish, every part file is afterwards gone or
    what it was before the conversion. *)
Theorem convert_pdf_leaves_no_parts (bs4_lxml : string -> result soup)
    (pdf_file page : Type) (render : string -> list string -> result pdf_file)
    (pdf_pages : pdf_file -> result (list page))
    (source_dir output_file style fonts : string)
    (globbed : list string) (order : list nat) (w : render_world pdf_file page) :
  let w' := perform_convert_pdf bs4_lxml render pdf_pages source_dir output_file
              globbed style fonts order w in
  r_texts w' = r_texts w
  /\ forall p, r_parts w' !! p = None \/ r_parts w' !! p = r_parts w !! p.
Proof.
  intros w'. subst w'. unfold perform_convert_pdf.
  destruct (list_is_empty globbed); [split; [reflexivity | now right]|].
  set (valid := valid_html_files _ _ _).
  set (temp_dir := path_join source_dir "temp_pdf_parts").
  set (w3 := RenderWorld _ _ _ 0 _).
  destruct (gather render valid temp_dir style fonts order w3) as [results w4] eqn:Eg.
  unfold gather in Eg.
  pose proof (run_tasks_frame _ _ _ _ _ _ _ _ _ _ _ _ _ Eg) as [Ht _].
  pose proof (run_tasks_slots _ _ _ _ _ _ _ _ _ _ _ _ _ Eg (length_replicate _ _)) as [_ Hs].
  pose proof (run_tasks_parts _ _ _ _ _ _ _ _ _ _ _ _ _ Eg) as Hp.
  set (pdf_parts := omap (fun r => r) results).
  assert (Hm : r_parts (merge_pdfs pdf_pages pdf_parts output_file w4) = r_parts w4
               /\ r_texts (merge_pdfs pdf_pages pdf_parts output_file w4) = r_texts w4).
  { apply merge_pdfs_parts_texts. }
  destruct Hm as [Hmp Hmt].
  unfold remove_parts. cbn [r_texts r_parts]. split.
  - rewrite Hmt, Ht. reflexivity.
  - intros p. rewrite lookup_foldr_delete, Hmp.
    destruct (decide (p ∈ pdf_parts)) as [Hin|Hnin]; [now left|]. right.
    destruct (Hp p) as [[Heq _] | (i & t & doc & Hi & Hti & Hpath & Hr & _)].
    + rewrite Heq. reflexivity.
    + exfalso. apply Hnin. subst pdf_parts. apply list_elem_of_omap.
      exists (Some p). split; [|reflexivity].
      apply (list_elem_of_lookup_2 _ i). rewrite (Hs i t Hti).
      rewrite decide_True by exact Hi. unfold rendered_part. rewrite Hr. now rewrite Hpath.
Qed.

(* ================================================================= *)
(** ** The manifest between download and conversion *)

Lemma dict_lookup_set_ne (k k' : string) (v : value) (d : list (string * value)) :
  k <> k' -> dict_lookup k (dict_set k' v d) = dict_lookup k d.
Proof.
  intros Hne. induction d as [|[k0 v0] d IH]; cbn [dict_set dict_lookup].
  - now rewrite (proj2 (String.eqb_neq k k') Hne).
  - destruct (String.eqb k' k0) eqn:E; cbn [dict_lookup].
    + apply String.eqb_eq in E as <-. now rewrite (proj2 (String.eqb_neq k k') Hne).
    + now rewrite IH.
Qed.

(** Recording the number of downloaded pages in the manifest changes
    nothing of what the conversion reads from it as metadata (author,
    title, cover and the rest, or the exception of a malformed cover
    entry), and the conversion reads the number back; a count of zero is
    replaced by the number of page files. *)
Theorem manifest_count_keeps_metadata (d : list (string * value)) (n : Z) (glob_count : nat) :
  let d' := record_downloaded d n in
  match make_book_metadata (VDict d), make_book_metadata (VDict d') with
  | Ok m, Ok m' =>
      m' = BookMetadata (VDict d') (bm_author m) (bm_index m) (bm_isbn m) (bm_pages m)
             (bm_publisher m) (bm_slugged_title m) (bm_title m) (bm_description m)
             (bm_cover_url m)
  | Raise e, Raise e' => e = e'
  | _, _ => False
  end
  /\ html_num_pages (VDict d') glob_count
     = Ok (if (n =? 0)%Z then Z.of_nat glob_count else n).
Proof.
  intros d'. subst d'. split.
  - unfold make_book_metadata, cover_url_of, py_get, py_getitem_str, record_downloaded.
    rewrite !dict_lookup_set_ne by discriminate. cbn [rbind].
    destruct (dict_lookup "covers" d) as [covers|]; cbn [rbind truthy];
      [|reflexivity].
    destruct (truthy covers); cbn [rbind]; [|reflexivity].
    destruct (py_getitem_0 covers) as [first|e]; cbn [rbind]; [|reflexivity].
    destruct first as [| | | | | |fd]; cbn [rbind]; try reflexivity.
    destruct (dict_lookup "jpg_location" fd); reflexivity.
  - unfold html_num_pages, py_get, record_downloaded. now rewrite dict_lookup_set.
Qed.
